(** * The storefront API server (services/api/src/server.ts)

    A shallow embedding of the Express handlers of the e-commerce / chat
    server, of the two middlewares that guard them, and of the socket
    relay, together with the properties of the specification that concern
    them.

    The handlers are sequences of awaited Prisma calls inside a
    [try]/[catch].  They are embedded in a state monad over the database
    in which an exception keeps the writes that were made before it (the
    source opens no transaction anywhere).  Every Prisma call may be
    refused by the store; which calls are refused is given by a schedule
    that is part of the world the handler runs in. *)

From Stdlib Require Import Ascii.
From stdpp Require Import base numbers list strings gmap pretty.

Local Open Scope string_scope.
Local Open Scope list_scope.
Local Open Scope Z_scope.

(** ** JavaScript numbers

    Prices and totals are JavaScript numbers.  The model does not fix
    their arithmetic: it only names the operations the server applies to
    them.  Quantities and stock are integer columns and are kept in [Z]. *)

Class JsNum (T : Type) := {
  num_of_Z : Z → T;            (* an integer read as a number *)
  num_add : T → T → T;         (* a + b *)
  num_mul : T → T → T;         (* a * b *)
  num_positive : T → bool;     (* x > 0 *)
  num_to_int : T → option Z;   (* Number.isInteger(x), and then its value *)
  num_truthy : T → bool;       (* neither 0 nor NaN *)
}.

(** Exact integer arithmetic is one instance. *)
#[export] Instance Z_JsNum : JsNum Z := {|
  num_of_Z z := z;
  num_add := Z.add;
  num_mul := Z.mul;
  num_positive z := bool_decide (0 < z);
  num_to_int z := Some z;
  num_truthy z := bool_decide (z ≠ 0);
|}.

(** ** JSON values of request bodies and socket events *)

Inductive jvalue (T : Type) : Type :=
  | JUndefined
  | JNull
  | JBool (b : bool)
  | JNum (x : T)
  | JStr (s : string).
Arguments JUndefined {T}.
Arguments JNull {T}.
Arguments JBool {T} b.
Arguments JNum {T} x.
Arguments JStr {T} s.

(** An object is a list of fields; reading a missing field gives
    [undefined]. *)
Fixpoint field {T} (k : string) (o : list (string * jvalue T)) : jvalue T :=
  match o with
  | [] => JUndefined
  | (k', v) :: o' => if decide (k = k') then v else field k o'
  end.

(** JavaScript truthiness, as used by [if (recipientId)]. *)
Definition truthy {T} {num : JsNum T} (v : jvalue T) : bool :=
  match v with
  | JUndefined | JNull => false
  | JBool b => b
  | JNum x => num_truthy x
  | JStr s => negb (bool_decide (s = ""))
  end.

(** ** Rows of the relational store

    The Prisma schema is not among the sources; the columns are the ones
    the handlers read and write.  Creation timestamps are left out: the
    rows of a table are kept in the order of their creation, but for the
    cart items, which no query orders: they are kept in the order in
    which the store has them, where a row that is updated comes last. *)

Record User := {
  user_id : string;
  user_email : string;
  user_name : option string;
  user_password : string;
  user_isAdmin : bool;
}.

Record Product (T : Type) := {
  product_id : string;
  product_name : string;
  product_description : option string;
  product_price : T;
  product_stock : Z;
}.
Arguments product_id {T} _.
Arguments product_name {T} _.
Arguments product_description {T} _.
Arguments product_price {T} _.
Arguments product_stock {T} _.

Record Cart := {
  cart_id : string;
  cart_userId : string;
}.

Record CartItem := {
  ci_id : string;
  ci_cartId : string;
  ci_productId : string;
  ci_quantity : Z;
}.

Record OrderItem (T : Type) := {
  oi_id : string;
  oi_orderId : string;
  oi_productId : string;
  oi_quantity : Z;
  oi_price : T;
}.
Arguments oi_id {T} _.
Arguments oi_orderId {T} _.
Arguments oi_productId {T} _.
Arguments oi_quantity {T} _.
Arguments oi_price {T} _.

Record Order (T : Type) := {
  order_id : string;
  order_userId : string;
  order_total : T;
  order_status : string;
}.
Arguments order_id {T} _.
Arguments order_userId {T} _.
Arguments order_total {T} _.
Arguments order_status {T} _.

Record Message := {
  msg_id : string;
  msg_userId : string;
  msg_content : string;
}.

(** The database: one list of rows per table, and the number of
    identifiers handed out so far. *)
Record Db (T : Type) := {
  users : list User;
  products : list (Product T);
  carts : list Cart;
  cartItems : list CartItem;
  orders : list (Order T);
  orderItems : list (OrderItem T);
  messages : list Message;
  next_id : nat;
}.
Arguments users {T} _.
Arguments products {T} _.
Arguments carts {T} _.
Arguments cartItems {T} _.
Arguments orders {T} _.
Arguments orderItems {T} _.
Arguments messages {T} _.
Arguments next_id {T} _.

(** The world a handler runs in: the database and the schedule of the
    store's refusals ([true]: the next Prisma call throws).  An exhausted
    schedule refuses nothing. *)
Record World (T : Type) := {
  db : Db T;
  faults : list bool;
}.
Arguments db {T} _.
Arguments faults {T} _.

(** ** What the server takes from its libraries and from its schema *)

Record Claims := {
  claims_id : string;
  claims_email : string;
}.

Class Externals := {
  (* jwt.sign(payload, JWT_SECRET) in the given second: the library adds
     the time of issue (iat) to the payload, so that the token of one
     payload differs from one second to the next *)
  jwt_sign : nat → Claims → string;
  (* jwt.verify(token, JWT_SECRET): [None] when it reports an error
     (malformed, wrong signature, expired) *)
  jwt_verify : string → option Claims;
  (* bcrypt.hash(password, 10) *)
  bcrypt_hash : string → string;
  (* the test behind z.string().email() *)
  zod_email : string → bool;
  (* the identifier the store gives to its n-th new row *)
  gen_id : nat → string;
  gen_id_inj : Inj (=) (=) gen_id;
  (* the defaults that prisma/schema.prisma, which is not among the
     sources, declares for the columns the handlers do not set *)
  default_isAdmin : bool;
  default_status : string;
}.

(** ** Exceptions, outcomes and the handler monad *)

Inductive Exn :=
  | ZodError (issues : list string)
  | PrismaError (code : string)
  | TypeError.

Inductive Outcome (A : Type) :=
  | Ok (a : A)
  | Throw (e : Exn).
Arguments Ok {A} a.
Arguments Throw {A} e.

Definition M (T A : Type) : Type := World T → Outcome A * World T.

Definition ret {T A} (a : A) : M T A := λ w, (Ok a, w).

Definition throw {T A} (e : Exn) : M T A := λ w, (Throw e, w).

Definition bind {T A B} (m : M T A) (k : A → M T B) : M T B :=
  λ w, match m w with
       | (Ok a, w') => k a w'
       | (Throw e, w') => (Throw e, w')
       end.

(** [try { m } catch (error) { return h error }]: the handlers' catch
    blocks only build a response. *)
Definition try_catch {T A} (m : M T A) (h : Exn → A) : World T → A * World T :=
  λ w, match m w with
       | (Ok a, w') => (a, w')
       | (Throw e, w') => (h e, w')
       end.

(** A value or an exception computed without the store. *)
Definition lift {T A} (r : Outcome A) : M T A := λ w, (r, w).

Notation "x <- m ;; k" := (bind m (λ x, k))
  (at level 100, m at next level, right associativity).
Notation "m ;;; k" := (bind m (λ _, k))
  (at level 100, right associativity).

(** ** The store

    Each Prisma call consults the schedule of refusals first and then runs
    a query, a function on the database that may itself throw: for a key
    that is taken, for a row that is not there, for a row that would
    refer to none, and for a quantity that does not fit its column. *)

Definition Query (T A : Type) : Type := Db T → Outcome A * Db T.

Definition prisma {T A} (q : Query T A) : M T A :=
  λ w, match faults w with
       | true :: fs => (Throw (PrismaError "P1001"), {| db := db w; faults := fs |})
       | false :: fs => let '(r, d) := q (db w) in (r, {| db := d; faults := fs |})
       | [] => let '(r, d) := q (db w) in (r, {| db := d; faults := [] |})
       end.

Section Store.
Context {T : Type} {num : JsNum T} {ext : Externals}.

Definition with_users (f : list User → list User) (d : Db T) : Db T :=
  {| users := f (users d); products := products d; carts := carts d;
     cartItems := cartItems d; orders := orders d; orderItems := orderItems d;
     messages := messages d; next_id := next_id d |}.

Definition with_products (f : list (Product T) → list (Product T)) (d : Db T) : Db T :=
  {| users := users d; products := f (products d); carts := carts d;
     cartItems := cartItems d; orders := orders d; orderItems := orderItems d;
     messages := messages d; next_id := next_id d |}.

Definition with_carts (f : list Cart → list Cart) (d : Db T) : Db T :=
  {| users := users d; products := products d; carts := f (carts d);
     cartItems := cartItems d; orders := orders d; orderItems := orderItems d;
     messages := messages d; next_id := next_id d |}.

Definition with_cartItems (f : list CartItem → list CartItem) (d : Db T) : Db T :=
  {| users := users d; products := products d; carts := carts d;
     cartItems := f (cartItems d); orders := orders d; orderItems := orderItems d;
     messages := messages d; next_id := next_id d |}.

Definition with_orders (f : list (Order T) → list (Order T)) (d : Db T) : Db T :=
  {| users := users d; products := products d; carts := carts d;
     cartItems := cartItems d; orders := f (orders d); orderItems := orderItems d;
     messages := messages d; next_id := next_id d |}.

Definition with_orderItems (f : list (OrderItem T) → list (OrderItem T)) (d : Db T) : Db T :=
  {| users := users d; products := products d; carts := carts d;
     cartItems := cartItems d; orders := orders d; orderItems := f (orderItems d);
     messages := messages d; next_id := next_id d |}.

Definition with_messages (f : list Message → list Message) (d : Db T) : Db T :=
  {| users := users d; products := products d; carts := carts d;
     cartItems := cartItems d; orders := orders d; orderItems := orderItems d;
     messages := f (messages d); next_id := next_id d |}.

(** Taking [n] new identifiers. *)
Definition bump (n : nat) (d : Db T) : Db T :=
  {| users := users d; products := products d; carts := carts d;
     cartItems := cartItems d; orders := orders d; orderItems := orderItems d;
     messages := messages d; next_id := (next_id d + n)%nat |}.

(** *** user *)

Definition find_user (id : string) (d : Db T) : option User :=
  List.find (λ u, bool_decide (user_id u = id)) (users d).

Definition find_user_by_email (email : string) (d : Db T) : option User :=
  List.find (λ u, bool_decide (user_email u = email)) (users d).

(** prisma.user.findUnique({ where: { id } }) *)
Definition user_findUnique (id : string) : Query T (option User) :=
  λ d, (Ok (find_user id d), d).

(** Modelled from the spec: the schema is not among the sources; the
    data model of the spec makes the email of a user unique (and the
    login handler uses it as the key of a findUnique).  A second row with
    the same email is refused with Prisma's unique-constraint error.

    prisma.user.create({ data: { email, name, password } }) *)
Definition user_create (email name password : string) : Query T User :=
  λ d, match find_user_by_email email d with
       | Some _ => (Throw (PrismaError "P2002"), d)
       | None =>
           let u := {| user_id := gen_id (next_id d); user_email := email;
                       user_name := Some name; user_password := password;
                       user_isAdmin := default_isAdmin |} in
           (Ok u, bump 1 (with_users (λ us, us ++ [u]) d))
       end.

Definition set_isAdmin (b : bool) (u : User) : User :=
  {| user_id := user_id u; user_email := user_email u; user_name := user_name u;
     user_password := user_password u; user_isAdmin := b |}.

(** prisma.user.update({ where: { id }, data: { isAdmin: true } }) *)
Definition user_update_isAdmin (id : string) : Query T User :=
  λ d, match find_user id d with
       | None => (Throw (PrismaError "P2025"), d)
       | Some u =>
           (Ok (set_isAdmin true u),
            with_users (fmap (λ u', if bool_decide (user_id u' = id)
                                   then set_isAdmin true u' else u')) d)
       end.

(** *** product *)

Definition find_product (id : string) (d : Db T) : option (Product T) :=
  List.find (λ p, bool_decide (product_id p = id)) (products d).

(** The data of an update; a field left [undefined] is not written. *)
Definition set_product (name : string) (description : option string)
    (price : T) (stock : Z) (p : Product T) : Product T :=
  {| product_id := product_id p; product_name := name;
     product_description :=
       match description with Some s => Some s | None => product_description p end;
     product_price := price; product_stock := stock |}.

(** prisma.product.update({ where: { id }, data: { name, description, price, stock } }) *)
Definition product_update (id name : string) (description : option string)
    (price : T) (stock : Z) : Query T (Product T) :=
  λ d, match find_product id d with
       | None => (Throw (PrismaError "P2025"), d)
       | Some p =>
           (Ok (set_product name description price stock p),
            with_products (fmap (λ p', if bool_decide (product_id p' = id)
                                      then set_product name description price stock p'
                                      else p')) d)
       end.

(** *** cart and cartItem *)

Definition find_cart (userId : string) (d : Db T) : option Cart :=
  List.find (λ c, bool_decide (cart_userId c = userId)) (carts d).

(** prisma.cart.findUnique({ where: { userId } }) *)
Definition cart_findUnique (userId : string) : Query T (option Cart) :=
  λ d, (Ok (find_cart userId d), d).

(** The rows of a cart, each with its product:
    include: { items: { include: { product: true } } } *)
Definition items_of (cartId : string) (d : Db T) : list CartItem :=
  filter (λ i, ci_cartId i = cartId) (cartItems d).

Definition with_product (d : Db T) (i : CartItem) : CartItem * option (Product T) :=
  (i, find_product (ci_productId i) d).

Definition cart_findUnique_include (userId : string)
    : Query T (option (Cart * list (CartItem * option (Product T)))) :=
  λ d, (Ok (match find_cart userId d with
            | None => None
            | Some c => Some (c, fmap (with_product d) (items_of (cart_id c) d))
            end), d).

(** Modelled from the spec: the schema is not among the sources; the
    data model of the spec makes the cart one-to-one with its user (and
    userId is the key of the findUnique above).  A cart for a userId
    that no user has is refused, and so is a second cart of the same
    user.

    prisma.cart.create({ data: { userId } }) *)
Definition cart_create (userId : string) : Query T Cart :=
  λ d, match find_user userId d with
       | None => (Throw (PrismaError "P2003"), d)
       | Some _ =>
           match find_cart userId d with
           | Some _ => (Throw (PrismaError "P2002"), d)
           | None =>
               let c := {| cart_id := gen_id (next_id d); cart_userId := userId |} in
               (Ok c, bump 1 (with_carts (λ cs, cs ++ [c]) d))
           end
       end.

(** prisma.cartItem.findFirst({ where: { cartId, productId } }) *)
Definition cartItem_findFirst (cartId productId : string) : Query T (option CartItem) :=
  λ d, (Ok (List.find (λ i, bool_decide (ci_cartId i = cartId)
                            && bool_decide (ci_productId i = productId))
                      (cartItems d)), d).

Definition set_quantity (q : Z) (i : CartItem) : CartItem :=
  {| ci_id := ci_id i; ci_cartId := ci_cartId i; ci_productId := ci_productId i;
     ci_quantity := q |}.

(** Modelled from the spec: the schema is not among the sources; the
    quantity of a cart item is an integer in the data model of the spec,
    and an integer column of the store that the README names (PostgreSQL,
    through Prisma) has 32 bits. *)
Definition int_column (z : Z) : bool :=
  bool_decide (-2147483648 ≤ z ≤ 2147483647).

(** prisma.cartItem.update({ where: { id }, data: { quantity } }): a
    quantity that does not fit the column is refused.  The store writes
    the new version of the row behind the other rows, and that is where
    the reads of the cart, which ask for no order, find it. *)
Definition cartItem_update (id : string) (quantity : Z) : Query T CartItem :=
  λ d, match List.find (λ i, bool_decide (ci_id i = id)) (cartItems d) with
       | None => (Throw (PrismaError "P2025"), d)
       | Some i =>
           if int_column quantity
           then (Ok (set_quantity quantity i),
                 with_cartItems (λ l, filter (λ i', ci_id i' ≠ id) l
                                      ++ [set_quantity quantity i]) d)
           else (Throw (PrismaError "P2020"), d)
       end.

(** Modelled from the spec: the schema is not among the sources; in the
    data model of the spec a cart item is a pair of a cart and a product
    (and the reads of the cart include the product of an item).  An item
    for a productId that no product has is refused, and so is a quantity
    that does not fit the column.

    prisma.cartItem.create({ data: { cartId, productId, quantity } }) *)
Definition cartItem_create (cartId productId : string) (quantity : Z) : Query T CartItem :=
  λ d, match find_product productId d with
       | None => (Throw (PrismaError "P2003"), d)
       | Some _ =>
           if int_column quantity
           then let i := {| ci_id := gen_id (next_id d); ci_cartId := cartId;
                            ci_productId := productId; ci_quantity := quantity |} in
                (Ok i, bump 1 (with_cartItems (λ l, l ++ [i]) d))
           else (Throw (PrismaError "P2020"), d)
       end.

(** prisma.cartItem.deleteMany({ where: { cartId, productId } }) *)
Definition cartItem_deleteMany_product (cartId productId : string) : Query T unit :=
  λ d, (Ok (),
        with_cartItems (filter (λ i, ¬ (ci_cartId i = cartId ∧ ci_productId i = productId))) d).

(** prisma.cartItem.deleteMany({ where: { cartId } }) *)
Definition cartItem_deleteMany (cartId : string) : Query T unit :=
  λ d, (Ok (), with_cartItems (filter (λ i, ci_cartId i ≠ cartId)) d).

(** *** order *)

(** The data of one nested item: productId, quantity, price. *)
Definition new_item (orderId : string) (first : nat) (k : nat)
    (data : string * Z * T) : OrderItem T :=
  {| oi_id := gen_id (first + k)%nat; oi_orderId := orderId;
     oi_productId := data.1.1; oi_quantity := data.1.2; oi_price := data.2 |}.

(** prisma.order.create({ data: { userId, total, items: { create: [...] } },
                          include: { items: { include: { product: true } } } }).
    The order and its nested items are written by this one call.  The
    handler calls it for the user whose cart it has just read, with the
    products it has read with the cart. *)
Definition order_create (userId : string) (total : T) (items : list (string * Z * T))
    : Query T (Order T * list (OrderItem T * option (Product T))) :=
  λ d, let o := {| order_id := gen_id (next_id d); order_userId := userId;
                   order_total := total; order_status := default_status |} in
       let rows := imap (new_item (order_id o) (next_id d + 1)) items in
       (Ok (o, fmap (λ r, (r, find_product (oi_productId r) d)) rows),
        bump (1 + length items)
             (with_orderItems (λ l, l ++ rows) (with_orders (λ l, l ++ [o]) d))).

(** *** message *)

(** Modelled from the spec: the schema is not among the sources; in the
    data model of the spec a message has an authoring user (and the
    create below includes the user of the message).  A message for a
    userId that no user has is refused.

    prisma.message.create({ data: { userId, content }, include: { user: true } }) *)
Definition message_insert (userId content : string) : Query T (Message * option User) :=
  λ d, match find_user userId d with
       | None => (Throw (PrismaError "P2003"), d)
       | Some u =>
           let m := {| msg_id := gen_id (next_id d); msg_userId := userId;
                       msg_content := content |} in
           (Ok (m, Some u), bump 1 (with_messages (λ l, l ++ [m]) d))
       end.

(** Both columns are strings: Prisma rejects any other value before it
    reaches the store. *)
Definition message_create (userId content : jvalue T) : M T (Message * option User) :=
  match userId, content with
  | JStr u, JStr c => prisma (message_insert u c)
  | _, _ => throw (PrismaError "validation")
  end.

End Store.

(** ** Requests and responses *)

Record Request (T : Type) := {
  req_authorization : option string;        (* req.headers['authorization'] *)
  req_param : string;                       (* the route's parameter, if it has one *)
  req_body : list (string * jvalue T);      (* req.body, after express.json() *)
  req_time : nat;                           (* the second in which it is handled *)
}.
Arguments req_authorization {T} _.
Arguments req_param {T} _.
Arguments req_body {T} _.
Arguments req_time {T} _.

Inductive Body (T : Type) : Type :=
  | ErrorBody (error : string)
  | InvalidInput (details : list string)
  | MessageBody (message : string)
  | AuthBody (id email : string) (name : option string) (token : string)
  | OrderBody (order : Order T) (items : list (OrderItem T * option (Product T)))
  | ProductBody (product : Product T)
  | ChatBody (message : Message) (user : option User)
  | MadeAdminBody (message : string) (user : User).
Arguments ErrorBody {T} error.
Arguments InvalidInput {T} details.
Arguments MessageBody {T} message.
Arguments AuthBody {T} id email name token.
Arguments OrderBody {T} order items.
Arguments ProductBody {T} product.
Arguments ChatBody {T} message user.
Arguments MadeAdminBody {T} message user.

Record Response (T : Type) := {
  status : nat;
  body : Body T;
}.
Arguments status {T} _.
Arguments body {T} _.

(** res.status(code).json(b); res.json(b) answers 200. *)
Definition respond {T} (code : nat) (b : Body T) : Response T :=
  {| status := code; body := b |}.
Definition json {T} (b : Body T) : Response T := respond 200 b.

Definition Handler (T : Type) : Type := World T → Response T * World T.

(** ** Validation schemas *)

Section Schemas.
Context {T : Type} {num : JsNum T} {ext : Externals}.

Definition issue {A} (path : string) (v : option A) : list string :=
  match v with Some _ => [] | None => [path] end.

(** z.string() *)
Definition zod_string (v : jvalue T) : option string :=
  match v with JStr s => Some s | _ => None end.

(** z.string().min(n) *)
Definition zod_string_min (n : nat) (v : jvalue T) : option string :=
  match v with
  | JStr s => if (n <=? String.length s)%nat then Some s else None
  | _ => None
  end.

(** const registerSchema = z.object({ email: z.string().email(),
      name: z.string().min(1), password: z.string().min(6) }) *)
Definition registerSchema (o : list (string * jvalue T))
    : Outcome (string * string * string) :=
  let email := match field "email" o with
               | JStr s => if zod_email s then Some s else None
               | _ => None
               end in
  let name := zod_string_min 1 (field "name" o) in
  let password := zod_string_min 6 (field "password" o) in
  match email, name, password with
  | Some e, Some n, Some p => Ok (e, n, p)
  | _, _, _ =>
      Throw (ZodError (issue "email" email ++ issue "name" name ++ issue "password" password))
  end.

(** const cartSchema = z.object({ productId: z.string(),
      quantity: z.number().int().positive() }) *)
Definition cartSchema (o : list (string * jvalue T)) : Outcome (string * Z) :=
  let productId := zod_string (field "productId" o) in
  let quantity := match field "quantity" o with
                  | JNum x => match num_to_int x with
                              | Some q => if bool_decide (0 < q) then Some q else None
                              | None => None
                              end
                  | _ => None
                  end in
  match productId, quantity with
  | Some p, Some q => Ok (p, q)
  | _, _ => Throw (ZodError (issue "productId" productId ++ issue "quantity" quantity))
  end.

(** const productSchema = z.object({ name: z.string().min(1),
      description: z.string().optional(), price: z.number().positive(),
      stock: z.number().int().min(0) }) *)
Definition productSchema (o : list (string * jvalue T))
    : Outcome (string * option string * T * Z) :=
  let name := zod_string_min 1 (field "name" o) in
  let description := match field "description" o with
                     | JUndefined => Some None
                     | JStr s => Some (Some s)
                     | _ => None
                     end in
  let price := match field "price" o with
               | JNum x => if num_positive x then Some x else None
               | _ => None
               end in
  let stock := match field "stock" o with
               | JNum x => match num_to_int x with
                           | Some n => if bool_decide (0 ≤ n) then Some n else None
                           | None => None
                           end
               | _ => None
               end in
  match name, description, price, stock with
  | Some n, Some d, Some p, Some s => Ok (n, d, p, s)
  | _, _, _, _ =>
      Throw (ZodError (issue "name" name ++ issue "description" description
                       ++ issue "price" price ++ issue "stock" stock))
  end.

End Schemas.

(** ** Middlewares *)

(** String.prototype.split with a one-character separator. *)
Fixpoint split_go (sep : ascii) (cur : string) (s : string) : list string :=
  match s with
  | EmptyString => [cur]
  | String c s' =>
      if bool_decide (c = sep) then cur :: split_go sep "" s'
      else split_go sep (cur +:+ String c "") s'
  end.

Definition split (sep : ascii) (s : string) : list string := split_go sep "" s.

(** A string, when it is truthy. *)
Definition nonempty (s : string) : option string :=
  if bool_decide (s = "") then None else Some s.

Section Middlewares.
Context {T : Type} {num : JsNum T} {ext : Externals}.

(** const token = authHeader && authHeader.split(' ')[1], when truthy *)
Definition bearer_token (req : Request T) : option string :=
  authHeader ← req_authorization req;
  _ ← nonempty authHeader;
  token ← split " "%char authHeader !! 1%nat;
  nonempty token.

(** const authenticateToken = (req, res, next) => { ... }.
    [next] receives the decoded payload, which the source stores in
    req.user. *)
Definition authenticateToken (req : Request T) (next : Claims → Handler T) : Handler T :=
  match bearer_token req with
  | None => λ w, (respond 401 (ErrorBody "Access token required"), w)
  | Some token =>
      match jwt_verify token with
      | None => λ w, (respond 403 (ErrorBody "Invalid token"), w)
      | Some user => next user
      end
  end.

(** const requireAdmin = async (req, res, next) => { ... } *)
Definition requireAdmin (user : Claims) (next : Handler T) : Handler T :=
  λ w, match prisma (user_findUnique (claims_id user)) w with
       | (Ok found, w') =>
           match found with
           | Some u =>
               if user_isAdmin u then next w'
               else (respond 403 (ErrorBody "Admin access required"), w')
           | None => (respond 403 (ErrorBody "Admin access required"), w')
           end
       | (Throw _, w') => (respond 500 (ErrorBody "Failed to verify admin status"), w')
       end.

End Middlewares.

(** ** Handlers *)

(** Array.prototype.reduce and Array.prototype.map with a callback that
    may throw. *)
Fixpoint reduce {A B} (f : B → A → Outcome B) (l : list A) (init : B) : Outcome B :=
  match l with
  | [] => Ok init
  | a :: l' => match f init a with
               | Ok b => reduce f l' b
               | Throw e => Throw e
               end
  end.

Fixpoint map_throwing {A B} (f : A → Outcome B) (l : list A) : Outcome (list B) :=
  match l with
  | [] => Ok []
  | a :: l' => match f a with
               | Ok b => match map_throwing f l' with
                         | Ok bs => Ok (b :: bs)
                         | Throw e => Throw e
                         end
               | Throw e => Throw e
               end
  end.

Section Handlers.
Context {T : Type} {num : JsNum T} {ext : Externals}.

(** item.product.price: reading a property of null throws. *)
Definition price_of (item : CartItem * option (Product T)) : Outcome T :=
  match item.2 with
  | Some p => Ok (product_price p)
  | None => Throw TypeError
  end.

(** (sum, item) => sum + item.product.price * item.quantity *)
Definition add_item (sum : T) (item : CartItem * option (Product T)) : Outcome T :=
  match price_of item with
  | Ok price => Ok (num_add sum (num_mul price (num_of_Z (ci_quantity item.1))))
  | Throw e => Throw e
  end.

(** item => ({ productId: item.productId, quantity: item.quantity,
               price: item.product.price }) *)
Definition item_data (item : CartItem * option (Product T)) : Outcome (string * Z * T) :=
  match price_of item with
  | Ok price => Ok (ci_productId item.1, ci_quantity item.1, price)
  | Throw e => Throw e
  end.

(** app.post('/auth/register', ...) *)
Definition register (req : Request T) : Handler T :=
  try_catch
    (parsed <- lift (registerSchema (req_body req)) ;;
     let '(email, name, password) := parsed in
     let hashedPassword := bcrypt_hash password in
     user <- prisma (user_create email name hashedPassword) ;;
     let token := jwt_sign (req_time req)
                    {| claims_id := user_id user; claims_email := user_email user |} in
     ret (json (AuthBody (user_id user) (user_email user) (user_name user) token)))
    (λ error, match error with
              | ZodError issues => respond 400 (InvalidInput issues)
              | _ => respond 500 (ErrorBody "Failed to register")
              end).

(** app.post('/cart', authenticateToken, ...) *)
Definition addToCart (user : Claims) (req : Request T) : Handler T :=
  try_catch
    (parsed <- lift (cartSchema (req_body req)) ;;
     let '(productId, quantity) := parsed in
     found <- prisma (cart_findUnique (claims_id user)) ;;
     cart <- match found with
             | Some c => ret c
             | None => prisma (cart_create (claims_id user))
             end ;;
     existingItem <- prisma (cartItem_findFirst (cart_id cart) productId) ;;
     match existingItem with
     | Some e => prisma (cartItem_update (ci_id e) (ci_quantity e + quantity))
     | None => prisma (cartItem_create (cart_id cart) productId quantity)
     end ;;;
     ret (json (MessageBody "Added to cart")))
    (λ error, match error with
              | ZodError issues => respond 400 (InvalidInput issues)
              | _ => respond 500 (ErrorBody "Failed to add to cart")
              end).

(** app.delete('/cart/:productId', authenticateToken, ...) *)
Definition removeFromCart (user : Claims) (req : Request T) : Handler T :=
  try_catch
    (cart <- prisma (cart_findUnique (claims_id user)) ;;
     match cart with
     | None => ret (respond 404 (ErrorBody "Cart not found"))
     | Some c =>
         prisma (cartItem_deleteMany_product (cart_id c) (req_param req)) ;;;
         ret (json (MessageBody "Removed from cart"))
     end)
    (λ _, respond 500 (ErrorBody "Failed to remove from cart")).

(** app.post('/orders', authenticateToken, ...) *)
Definition createOrder (user : Claims) (req : Request T) : Handler T :=
  try_catch
    (cart <- prisma (cart_findUnique_include (claims_id user)) ;;
     match cart with
     | None => ret (respond 400 (ErrorBody "Cart is empty"))
     | Some (c, items) =>
         if bool_decide (length items = 0%nat)
         then ret (respond 400 (ErrorBody "Cart is empty"))
         else
           total <- lift (reduce add_item items (num_of_Z 0)) ;;
           data <- lift (map_throwing item_data items) ;;
           order <- prisma (order_create (claims_id user) total data) ;;
           (* Clear cart *)
           prisma (cartItem_deleteMany (cart_id c)) ;;;
           ret (json (OrderBody order.1 order.2))
     end)
    (λ _, respond 500 (ErrorBody "Failed to create order")).

(** app.post('/messages', ...) *)
Definition postMessage (req : Request T) : Handler T :=
  try_catch
    (let userId := field "userId" (req_body req) in
     let content := field "content" (req_body req) in
     message <- message_create userId content ;;
     ret (json (ChatBody message.1 message.2)))
    (λ _, respond 500 (ErrorBody "Failed to create message")).

(** app.put('/admin/products/:id', authenticateToken, requireAdmin, ...) *)
Definition updateProduct (req : Request T) : Handler T :=
  try_catch
    (let id := req_param req in
     parsed <- lift (productSchema (req_body req)) ;;
     let '(name, description, price, stock) := parsed in
     product <- prisma (product_update id name description price stock) ;;
     ret (json (ProductBody product)))
    (λ error, match error with
              | ZodError issues => respond 400 (InvalidInput issues)
              | _ => respond 500 (ErrorBody "Failed to update product")
              end).

(** app.post('/admin/make-admin/:userId', authenticateToken, ...) *)
Definition makeAdmin (req : Request T) : Handler T :=
  try_catch
    (let userId := req_param req in
     user <- prisma (user_update_isAdmin userId) ;;
     ret (json (MadeAdminBody "User made admin" user)))
    (λ _, respond 500 (ErrorBody "Failed to make user admin")).

(** *** The routes, with their middlewares *)

Definition POST_auth_register (req : Request T) : Handler T := register req.

Definition POST_cart (req : Request T) : Handler T :=
  authenticateToken req (λ user, addToCart user req).

Definition DELETE_cart (req : Request T) : Handler T :=
  authenticateToken req (λ user, removeFromCart user req).

Definition POST_orders (req : Request T) : Handler T :=
  authenticateToken req (λ user, createOrder user req).

Definition POST_messages (req : Request T) : Handler T := postMessage req.

Definition PUT_admin_products (req : Request T) : Handler T :=
  authenticateToken req (λ user, requireAdmin user (updateProduct req)).

Definition POST_admin_make_admin (req : Request T) : Handler T :=
  authenticateToken req (λ _, makeAdmin req).

End Handlers.

(** ** The socket relay

    The server's registry of connections: for every connected socket, the
    set of rooms it is in.  Room names are strings (socket identifiers and
    the user identifiers sent with [join]). *)

Abbreviation Io := (gmap string (gset string)).

(** The payload of a [newMessage] event, and its delivery to one socket. *)
Abbreviation Payload := (Message * option User)%type.
Abbreviation Delivery := (string * (Message * option User))%type.

(** io.on('connection', (socket) => ...): a new socket is in the room
    named by its own id. *)
Definition connect (sid : string) (io : Io) : Io := <[sid := {[sid]}]> io.

(** socket.on('join', (userId) => { socket.join(userId); }) *)
Definition join (sid userId : string) (io : Io) : Io :=
  alter (λ rooms, rooms ∪ {[userId]}) sid io.

(** socket.on('disconnect', ...): the handler only logs; socket.io takes
    the socket out of its rooms. *)
Definition disconnect (sid : string) (io : Io) : Io := delete sid io.

(** io.emit('newMessage', message): one event per connected socket. *)
Definition io_emit (io : Io) (message : Payload) : list Delivery :=
  (λ sid, (sid, message)) <$> (map_to_list io).*1.

(** io.to(room).emit('newMessage', message): one event per socket of the room. *)
Definition io_to_emit (room : string) (io : Io) (message : Payload) : list Delivery :=
  (λ sid, (sid, message)) <$> (map_to_list (filter (λ kv, room ∈ kv.2) io)).*1.

Section Relay.
Context {T : Type} {num : JsNum T} {ext : Externals}.

(** socket.on('sendMessage', async (data) => { ... }).  A room that is
    not named by a string has no socket in it. *)
Definition sendMessage (io : Io) (data : list (string * jvalue T))
    : World T → list Delivery * World T :=
  try_catch
    (let userId := field "userId" data in
     let content := field "content" data in
     let recipientId := field "recipientId" data in
     message <- message_create userId content ;;
     (* Send to recipient if specified, else broadcast *)
     if truthy recipientId
     then ret (match recipientId with
               | JStr room => io_to_emit room io message
               | _ => []
               end)
     else ret (io_emit io message))
    (λ _, []).

End Relay.

(** The number of events a socket receives. *)
Definition received (sid : string) (ds : list Delivery) : nat :=
  length (filter (λ d, d.1 = sid) ds).

(** The sockets of a room, and the connected sockets. *)
Definition in_room (io : Io) (room sid : string) : bool :=
  match io !! sid with
  | Some rooms => bool_decide (room ∈ rooms)
  | None => false
  end.

Definition connected (io : Io) (sid : string) : bool :=
  bool_decide (is_Some (io !! sid)).

(** ** A concrete environment, for running the model

    Tokens are the claims and the time of issue written out, the hash
    marks the password, every
    string with an [@] passes for an email, identifiers are decimal
    numerals, a new user is no admin and a new order is [pending] (the
    first status of the admin console). *)

Definition demo_sign (iat : nat) (c : Claims) : string :=
  claims_id c +:+ "|" +:+ claims_email c +:+ "|" +:+ pretty iat.

Definition demo_verify (t : string) : option Claims :=
  match split "|"%char t with
  | [i; e; _] => Some {| claims_id := i; claims_email := e |}
  | _ => None
  end.

Fixpoint has_at (s : string) : bool :=
  match s with
  | EmptyString => false
  | String c s' => bool_decide (c = "@"%char) || has_at s'
  end.

#[export] Instance demo_externals : Externals := {|
  jwt_sign := demo_sign;
  jwt_verify := demo_verify;
  bcrypt_hash p := "#" +:+ p;
  zod_email := has_at;
  gen_id n := pretty n;
  gen_id_inj := pretty_nat_inj;
  default_isAdmin := false;
  default_status := "pending";
|}.

(** ** The vocabulary of the specification *)

(** A world whose store refuses no call. *)
Definition quiet {T} (w : World T) : Prop := Forall (λ b, b = false) (faults w).

(** The world after a call that the store performed. *)
Definition advance {T} (d : Db T) (w : World T) : World T :=
  {| db := d; faults := tail (faults w) |}.

(** The cart of the specification: the lines (product, quantity) of a
    user.  The specification gives them no order; the code is compared
    with these operations up to the order of the lines. *)
Fixpoint cart_add (productId : string) (qty : Z) (ls : list (string * Z))
    : list (string * Z) :=
  match ls with
  | [] => [(productId, qty)]
  | l :: ls' =>
      if decide (l.1 = productId) then (l.1, l.2 + qty) :: ls'
      else l :: cart_add productId qty ls'
  end.

Definition cart_remove (productId : string) (ls : list (string * Z)) : list (string * Z) :=
  filter (λ l, l.1 ≠ productId) ls.

(** A string without a space. *)
Fixpoint spaceless (s : string) : bool :=
  match s with
  | EmptyString => true
  | String c s' => negb (bool_decide (c = " "%char)) && spaceless s'
  end.

Section Vocabulary.
Context {T : Type} {num : JsNum T} {ext : Externals}.

Definition line_of (i : CartItem) : string * Z := (ci_productId i, ci_quantity i).

(** The lines of a user's cart in the database; none without a cart. *)
Definition lines_of (userId : string) (d : Db T) : list (string * Z) :=
  match find_cart userId d with
  | None => []
  | Some c => line_of <$> items_of (cart_id c) d
  end.

(** Summing from left to right, starting from 0. *)
Fixpoint sum_from (acc : T) (amounts : list T) : T :=
  match amounts with
  | [] => acc
  | a :: rest => sum_from (num_add acc a) rest
  end.

Definition sum_of (amounts : list T) : T := sum_from (num_of_Z 0) amounts.

(** Price times quantity of a line, at the current price of its
    product; none when the catalog has no such product. *)
Definition amount (d : Db T) (l : string * Z) : option T :=
  p ← find_product l.1 d; Some (num_mul (product_price p) (num_of_Z l.2)).

(** The total of a list of lines: the sum of price times quantity. *)
Definition lines_total (d : Db T) (ls : list (string * Z)) : option T :=
  sum_of <$> mapM (amount d) ls.

(** The total the server computes for a user's cart (the reduce of
    the order handler over the cart with its items and products). *)
Definition cart_total (userId : string) (d : Db T) : option T :=
  match (cart_findUnique_include userId d).1 with
  | Ok (Some (c, items)) =>
      match reduce add_item items (num_of_Z 0) with
      | Ok total => Some total
      | Throw _ => None
      end
  | _ => Some (num_of_Z 0)
  end.

(** Identifiers that the store has handed out. *)
Definition issued (d : Db T) (id : string) : Prop :=
  ∃ n, (n < next_id d)%nat ∧ id = gen_id n.

(** Well-formed carts: identifiers are distinct and were handed out by
    the store. *)
Record wf_carts (d : Db T) : Prop := {
  wf_cart_ids : NoDup (cart_id <$> carts d);
  wf_item_ids : NoDup (ci_id <$> cartItems d);
  wf_cart_issued : ∀ c, c ∈ carts d → issued d (cart_id c);
  wf_item_issued : ∀ i, i ∈ cartItems d → issued d (ci_id i);
  wf_item_cart : ∀ i, i ∈ cartItems d → issued d (ci_cartId i);
}.

(** A call of one of the two cart operations by an authenticated user. *)
Inductive CartCall :=
  | CallAdd (user : Claims) (req : Request T)
  | CallRemove (user : Claims) (req : Request T).

Definition run_call (c : CartCall) : Handler T :=
  match c with
  | CallAdd user req => addToCart user req
  | CallRemove user req => removeFromCart user req
  end.

Fixpoint run_calls (cs : list CartCall) (w : World T) : World T :=
  match cs with
  | [] => w
  | c :: cs' => run_calls cs' (run_call c w).2
  end.

Definition caller (c : CartCall) : Claims :=
  match c with CallAdd user _ | CallRemove user _ => user end.

(** The quantity a cart has of a product: that of its first line for
    it, and 0 without one. *)
Definition quantity_in (productId : string) (ls : list (string * Z)) : Z :=
  match List.find (λ l, bool_decide (l.1 = productId)) ls with
  | Some l => l.2
  | None => 0
  end.

(** The adds that the store takes: the quantity that the line gets fits
    the column and, for a new line, the product is in the catalog. *)
Definition admitted (d : Db T) (productId : string) (qty : Z) (ls : list (string * Z))
    : bool :=
  match List.find (λ l, bool_decide (l.1 = productId)) ls with
  | Some l => int_column (l.2 + qty)
  | None => bool_decide (is_Some (find_product productId d)) && int_column qty
  end.

(** What a call does to the lines of user [userId], in the words of the
    specification: an add with a valid body that the store takes merges
    or inserts, a remove deletes, and the calls of other users do
    nothing.  The catalog is that of [d]. *)
Definition apply_call (d : Db T) (userId : string) (ls : list (string * Z)) (c : CartCall)
    : list (string * Z) :=
  match c with
  | CallAdd user req =>
      if decide (claims_id user = userId) then
        match cartSchema (req_body req) with
        | Ok (productId, qty) =>
            if admitted d productId qty ls then cart_add productId qty ls else ls
        | Throw _ => ls
        end
      else ls
  | CallRemove user req =>
      if decide (claims_id user = userId) then cart_remove (req_param req) ls else ls
  end.

End Vocabulary.

(** ** Sample data *)

Module Sample.

Definition alice : User :=
  {| user_id := "0"; user_email := "alice@example.com"; user_name := Some "Alice";
     user_password := "#wonderland"; user_isAdmin := false |}.

Definition bob : User :=
  {| user_id := "1"; user_email := "bob@example.com"; user_name := Some "Bob";
     user_password := "#builder"; user_isAdmin := false |}.

Definition carol : User :=
  {| user_id := "2"; user_email := "carol@example.com"; user_name := Some "Carol";
     user_password := "#keeper"; user_isAdmin := true |}.

Definition widget : Product Z :=
  {| product_id := "3"; product_name := "Widget"; product_description := None;
     product_price := 10; product_stock := 7 |}.

Definition gadget : Product Z :=
  {| product_id := "4"; product_name := "Gadget"; product_description := Some "small";
     product_price := 5; product_stock := 0 |}.

Definition claims_of (u : User) : Claims :=
  {| claims_id := user_id u; claims_email := user_email u |}.

(** Alice has a cart with two widgets and one gadget; Bob has no cart;
    Carol is an admin. *)
Definition shop : Db Z :=
  {| users := [alice; bob; carol];
     products := [widget; gadget];
     carts := [{| cart_id := "5"; cart_userId := "0" |}];
     cartItems := [{| ci_id := "6"; ci_cartId := "5"; ci_productId := "3"; ci_quantity := 2 |};
                   {| ci_id := "7"; ci_cartId := "5"; ci_productId := "4"; ci_quantity := 1 |}];
     orders := []; orderItems := []; messages := [];
     next_id := 8 |}.

Definition calm : World Z := {| db := shop; faults := [] |}.

Definition request (authorization : option string) (param : string)
    (body : list (string * jvalue Z)) : Request Z :=
  {| req_authorization := authorization; req_param := param; req_body := body;
     req_time := 0 |}.

Definition bearer (u : User) : option string :=
  Some ("Bearer " +:+ jwt_sign 0 (claims_of u)).

(** A store that performs two calls and refuses the third. *)
Definition flaky : World Z := {| db := shop; faults := [false; false; true] |}.

(** Two sockets of Alice (one is a second tab) and one of Bob; each
    joined the room of its user. *)
Definition sockets : Io :=
  join "tab-b" "1" (connect "tab-b"
    (join "tab-a2" "0" (connect "tab-a2"
      (join "tab-a1" "0" (connect "tab-a1" ∅))))).

(** Alice orders what is in her cart. *)
Definition order_request : Request Z := request (bearer alice) "" [].

(** Carol raises the price of the widget to 12. *)
Definition price_request : Request Z :=
  request (bearer carol) "3"
    [("name", JStr "Widget"); ("price", JNum 12); ("stock", JNum 7)].

End Sample.

(** * The other routes of the server

    The routes below answer with JSON values of their own.  A reply is
    either a response as above (an error or a message) or the value that
    [res.json] sends with status 200. *)

Inductive Reply (T A : Type) : Type :=
  | Plain (r : Response T)
  | Json (a : A).
Arguments Plain {T A} r.
Arguments Json {T A} a.

Definition reply_status {T A} (r : Reply T A) : nat :=
  match r with
  | Plain r => status r
  | Json _ => 200
  end.

Definition JsonHandler (T A : Type) : Type := World T → Reply T A * World T.

(** bcrypt.compare(password, hash) *)
Class Bcrypt := {
  bcrypt_compare : string → string → bool;
}.

(** The values that prisma/schema.prisma, which is not among the sources,
    admits in the status column of an order. *)
Class StatusColumn := {
  status_ok : string → bool;
}.

(** The order in which the store returns the rows of a query that asks
    for none: some arrangement of them, of which nothing else is known. *)
Class Unordered := {
  arrange : ∀ {A : Type}, list A → list A;
  arrange_perm : ∀ {A : Type} (l : list A), arrange l ≡ₚ l;
}.

(** The public fields of a user, with the admin flag when the route
    sends it. *)
Record LoginReply := {
  login_id : string;
  login_email : string;
  login_name : option string;
  login_isAdmin : bool;
  login_token : string;
}.

(** select: { id, email, name, isAdmin, createdAt, _count: { orders, messages } } *)
Record UserRow := {
  row_id : string;
  row_email : string;
  row_name : option string;
  row_isAdmin : bool;
  row_orders : nat;
  row_messages : nat;
}.

Record Stats (T : Type) := {
  stats_users : nat;
  stats_products : nat;
  stats_orders : nat;
  stats_revenue : T;
}.
Arguments stats_users {T} _.
Arguments stats_products {T} _.
Arguments stats_orders {T} _.
Arguments stats_revenue {T} _.

Section MoreStore.
Context {T : Type} {num : JsNum T} {ext : Externals} {status : StatusColumn}
  {un : Unordered}.

(** prisma.user.findUnique({ where: { email } }) *)
Definition user_findUnique_email (email : string) : Query T (option User) :=
  λ d, (Ok (find_user_by_email email d), d).

(** prisma.product.findMany() *)
Definition product_findMany : Query T (list (Product T)) :=
  λ d, (Ok (products d), d).

(** prisma.product.create({ data }) *)
Definition product_create (name : string) (description : option string)
    (price : T) (stock : Z) : Query T (Product T) :=
  λ d, let p := {| product_id := gen_id (next_id d); product_name := name;
                   product_description := description; product_price := price;
                   product_stock := stock |} in
       (Ok p, bump 1 (with_products (λ l, l ++ [p]) d)).

(** Modelled from the spec: the schema is not among the sources; in the
    data model of the spec a cart item is a pair of a cart and a product
    (and the reads of carts and orders include the product of an item).
    A product that a cart item or an order item refers to is not
    deleted: the store refuses.

    prisma.product.delete({ where: { id } }) *)
Definition product_delete (id : string) : Query T (Product T) :=
  λ d, match find_product id d with
       | None => (Throw (PrismaError "P2025"), d)
       | Some p =>
           if existsb (λ i, bool_decide (ci_productId i = id)) (cartItems d)
              || existsb (λ r, bool_decide (oi_productId r = id)) (orderItems d)
           then (Throw (PrismaError "P2003"), d)
           else (Ok p, with_products (filter (λ p', product_id p' ≠ id)) d)
       end.

(** The items of an order, each with its product:
    include: { items: { include: { product: true } } } *)
Definition items_of_order (orderId : string) (d : Db T) : list (OrderItem T) :=
  filter (λ r, oi_orderId r = orderId) (orderItems d).

Definition order_with_items (d : Db T) (o : Order T)
    : Order T * list (OrderItem T * option (Product T)) :=
  (o, (λ r, (r, find_product (oi_productId r) d)) <$> items_of_order (order_id o) d).

(** prisma.order.findMany({ where: { userId },
      include: { items: { include: { product: true } } } }): the query
    asks for no order, and the orders come as the store arranges them. *)
Definition order_findMany_user (userId : string)
    : Query T (list (Order T * list (OrderItem T * option (Product T)))) :=
  λ d, (Ok (arrange (order_with_items d
                       <$> filter (λ o, order_userId o = userId) (orders d))), d).

(** select: { id: true, email: true, name: true } *)
Definition public_fields (u : User) : string * string * option string :=
  (user_id u, user_email u, user_name u).

(** prisma.order.findMany({ include: { user: { select: ... }, items: ... },
      orderBy: { createdAt: 'desc' } }): the newest row first. *)
Definition order_findMany_desc
    : Query T (list (Order T * option (string * string * option string)
                     * list (OrderItem T * option (Product T)))) :=
  λ d, (Ok (reverse ((λ o, (o, public_fields <$> find_user (order_userId o) d,
                            (order_with_items d o).2)) <$> orders d)), d).

Definition set_status (s : string) (o : Order T) : Order T :=
  {| order_id := order_id o; order_userId := order_userId o;
     order_total := order_total o; order_status := s |}.

(** prisma.order.update({ where: { id }, data: { status } }): an undefined
    status writes nothing, a string must be one the column admits, and
    anything else is rejected before it reaches the store. *)
Definition order_update (id : string) (status : option string) : Query T (Order T) :=
  λ d, match List.find (λ o, bool_decide (order_id o = id)) (orders d) with
       | None => (Throw (PrismaError "P2025"), d)
       | Some o =>
           match status with
           | None => (Ok o, d)
           | Some s =>
               (Ok (set_status s o),
                with_orders (fmap (λ o', if bool_decide (order_id o' = id)
                                         then set_status s o' else o')) d)
           end
       end.

Definition order_update_status (id : string) (status : jvalue T) : M T (Order T) :=
  match status with
  | JUndefined => prisma (order_update id None)
  | JStr s => if status_ok s then prisma (order_update id (Some s))
              else throw (PrismaError "validation")
  | _ => throw (PrismaError "validation")
  end.

(** prisma.message.findMany({ include: { user: true },
      orderBy: { createdAt: 'asc' } }): the oldest row first. *)
Definition message_findMany : Query T (list (Message * option User)) :=
  λ d, (Ok ((λ m, (m, find_user (msg_userId m) d)) <$> messages d), d).

(** prisma.user.findMany({ select: { ..., _count: { select: { orders, messages } } } }) *)
Definition user_row (d : Db T) (u : User) : UserRow :=
  {| row_id := user_id u; row_email := user_email u; row_name := user_name u;
     row_isAdmin := user_isAdmin u;
     row_orders := length (filter (λ o, order_userId o = user_id u) (orders d));
     row_messages := length (filter (λ m, msg_userId m = user_id u) (messages d)) |}.

(** The query asks for no order. *)
Definition user_findMany : Query T (list UserRow) :=
  λ d, (Ok (arrange (user_row d <$> users d)), d).

(** prisma.user.count(), prisma.product.count(), prisma.order.count() *)
Definition user_count : Query T nat := λ d, (Ok (length (users d)), d).
Definition product_count : Query T nat := λ d, (Ok (length (products d)), d).
Definition order_count : Query T nat := λ d, (Ok (length (orders d)), d).

(** prisma.order.aggregate({ _sum: { total: true } }): null without rows,
    else the totals added up from the first one. *)
Definition order_aggregate_sum : Query T (option T) :=
  λ d, (Ok (match order_total <$> orders d with
            | [] => None
            | t :: ts => Some (sum_from t ts)
            end), d).

End MoreStore.

Section MoreRoutes.
Context {T : Type} {num : JsNum T} {ext : Externals} {bc : Bcrypt}
  {status : StatusColumn} {un : Unordered}.

(** const loginSchema = z.object({ email: z.string().email(),
      password: z.string().min(1) }) *)
Definition loginSchema (o : list (string * jvalue T)) : Outcome (string * string) :=
  let email := match field "email" o with
               | JStr s => if zod_email s then Some s else None
               | _ => None
               end in
  let password := zod_string_min 1 (field "password" o) in
  match email, password with
  | Some e, Some p => Ok (e, p)
  | _, _ => Throw (ZodError (issue "email" email ++ issue "password" password))
  end.

(** The two middlewares, in front of a handler that answers with a JSON
    value of its own. *)
Definition authenticateToken_json {A} (req : Request T) (next : Claims → JsonHandler T A)
    : JsonHandler T A :=
  match bearer_token req with
  | None => λ w, (Plain (respond 401 (ErrorBody "Access token required")), w)
  | Some token =>
      match jwt_verify token with
      | None => λ w, (Plain (respond 403 (ErrorBody "Invalid token")), w)
      | Some user => next user
      end
  end.

Definition requireAdmin_json {A} (user : Claims) (next : JsonHandler T A)
    : JsonHandler T A :=
  λ w, match prisma (user_findUnique (claims_id user)) w with
       | (Ok found, w') =>
           match found with
           | Some u =>
               if user_isAdmin u then next w'
               else (Plain (respond 403 (ErrorBody "Admin access required")), w')
           | None => (Plain (respond 403 (ErrorBody "Admin access required")), w')
           end
       | (Throw _, w') =>
           (Plain (respond 500 (ErrorBody "Failed to verify admin status")), w')
       end.

(** app.post('/auth/login', ...) *)
Definition login (req : Request T) : JsonHandler T LoginReply :=
  try_catch
    (parsed <- lift (loginSchema (req_body req)) ;;
     let '(email, password) := parsed in
     user <- prisma (user_findUnique_email email) ;;
     match user with
     | None => ret (Plain (respond 401 (ErrorBody "Invalid credentials")))
     | Some u =>
         if bool_decide (user_password u = "")
            || negb (bcrypt_compare password (user_password u))
         then ret (Plain (respond 401 (ErrorBody "Invalid credentials")))
         else
           let token := jwt_sign (req_time req)
                          {| claims_id := user_id u; claims_email := user_email u |} in
           ret (Json {| login_id := user_id u; login_email := user_email u;
                        login_name := user_name u; login_isAdmin := user_isAdmin u;
                        login_token := token |})
     end)
    (λ error, match error with
              | ZodError issues => Plain (respond 400 (InvalidInput issues))
              | _ => Plain (respond 500 (ErrorBody "Failed to login"))
              end).

(** app.get('/products', ...) *)
Definition getProducts (req : Request T) : JsonHandler T (list (Product T)) :=
  try_catch
    (products <- prisma product_findMany ;; ret (Json products))
    (λ _, Plain (respond 500 (ErrorBody "Failed to fetch products"))).

(** app.post('/products', ...) *)
Definition createProduct (req : Request T) : Handler T :=
  try_catch
    (data <- lift (productSchema (req_body req)) ;;
     let '(name, description, price, stock) := data in
     product <- prisma (product_create name description price stock) ;;
     ret (json (ProductBody product)))
    (λ error, match error with
              | ZodError issues => respond 400 (InvalidInput issues)
              | _ => respond 500 (ErrorBody "Failed to create product")
              end).

(** app.get('/cart', authenticateToken, ...): res.json(cart || { items: [] }) *)
Definition getCart (user : Claims) (req : Request T)
    : JsonHandler T (option Cart * list (CartItem * option (Product T))) :=
  try_catch
    (cart <- prisma (cart_findUnique_include (claims_id user)) ;;
     ret (Json (match cart with
                | Some (c, items) => (Some c, items)
                | None => (None, [])
                end)))
    (λ _, Plain (respond 500 (ErrorBody "Failed to fetch cart"))).

(** app.get('/orders', authenticateToken, ...) *)
Definition getOrders (user : Claims) (req : Request T)
    : JsonHandler T (list (Order T * list (OrderItem T * option (Product T)))) :=
  try_catch
    (orders <- prisma (order_findMany_user (claims_id user)) ;; ret (Json orders))
    (λ _, Plain (respond 500 (ErrorBody "Failed to fetch orders"))).

(** app.get('/messages', ...) *)
Definition getMessages (req : Request T) : JsonHandler T (list (Message * option User)) :=
  try_catch
    (messages <- prisma message_findMany ;; ret (Json messages))
    (λ _, Plain (respond 500 (ErrorBody "Failed to fetch messages"))).

(** app.get('/admin/users', authenticateToken, requireAdmin, ...) *)
Definition adminUsers (req : Request T) : JsonHandler T (list UserRow) :=
  try_catch
    (users <- prisma user_findMany ;; ret (Json users))
    (λ _, Plain (respond 500 (ErrorBody "Failed to fetch users"))).

(** app.get('/admin/orders', authenticateToken, requireAdmin, ...) *)
Definition adminOrders (req : Request T)
    : JsonHandler T (list (Order T * option (string * string * option string)
                           * list (OrderItem T * option (Product T)))) :=
  try_catch
    (orders <- prisma order_findMany_desc ;; ret (Json orders))
    (λ _, Plain (respond 500 (ErrorBody "Failed to fetch orders"))).

(** app.put('/admin/orders/:id/status', authenticateToken, requireAdmin, ...) *)
Definition updateOrderStatus (req : Request T) : JsonHandler T (Order T) :=
  try_catch
    (let id := req_param req in
     let status := field "status" (req_body req) in
     order <- order_update_status id status ;;
     ret (Json order))
    (λ _, Plain (respond 500 (ErrorBody "Failed to update order status"))).

(** app.delete('/admin/products/:id', authenticateToken, requireAdmin, ...) *)
Definition deleteProduct (req : Request T) : Handler T :=
  try_catch
    (let id := req_param req in
     prisma (product_delete id) ;;;
     ret (json (MessageBody "Product deleted")))
    (λ _, respond 500 (ErrorBody "Failed to delete product")).

(** app.get('/admin/stats', authenticateToken, requireAdmin, ...): the four
    queries of the Promise.all; the first refusal rejects it.
    revenue: totalRevenue._sum.total || 0 *)
Definition adminStats (req : Request T) : JsonHandler T (Stats T) :=
  try_catch
    (userCount <- prisma user_count ;;
     productCount <- prisma product_count ;;
     orderCount <- prisma order_count ;;
     totalRevenue <- prisma order_aggregate_sum ;;
     ret (Json {| stats_users := userCount; stats_products := productCount;
                  stats_orders := orderCount;
                  stats_revenue := match totalRevenue with
                                   | Some total =>
                                       if num_truthy total then total else num_of_Z 0
                                   | None => num_of_Z 0
                                   end |}))
    (λ _, Plain (respond 500 (ErrorBody "Failed to fetch stats"))).

(** *** The routes, with their middlewares *)

Definition POST_auth_login (req : Request T) : JsonHandler T LoginReply := login req.

Definition GET_products (req : Request T) : JsonHandler T (list (Product T)) :=
  getProducts req.

Definition POST_products (req : Request T) : Handler T := createProduct req.

Definition GET_cart (req : Request T)
    : JsonHandler T (option Cart * list (CartItem * option (Product T))) :=
  authenticateToken_json req (λ user, getCart user req).

Definition GET_orders (req : Request T)
    : JsonHandler T (list (Order T * list (OrderItem T * option (Product T)))) :=
  authenticateToken_json req (λ user, getOrders user req).

Definition GET_messages (req : Request T) : JsonHandler T (list (Message * option User)) :=
  getMessages req.

Definition GET_admin_users (req : Request T) : JsonHandler T (list UserRow) :=
  authenticateToken_json req (λ user, requireAdmin_json user (adminUsers req)).

Definition GET_admin_orders (req : Request T)
    : JsonHandler T (list (Order T * option (string * string * option string)
                           * list (OrderItem T * option (Product T)))) :=
  authenticateToken_json req (λ user, requireAdmin_json user (adminOrders req)).

Definition PUT_admin_orders_status (req : Request T) : JsonHandler T (Order T) :=
  authenticateToken_json req (λ user, requireAdmin_json user (updateOrderStatus req)).

Definition DELETE_admin_products (req : Request T) : Handler T :=
  authenticateToken req (λ user, requireAdmin user (deleteProduct req)).

Definition GET_admin_stats (req : Request T) : JsonHandler T (Stats T) :=
  authenticateToken_json req (λ user, requireAdmin_json user (adminStats req)).

End MoreRoutes.

(** ** The whole server, and what its data keeps *)

Inductive Route :=
  | Register | Login
  | ListProducts | CreateProduct
  | ShowCart | AddToCart | RemoveFromCart
  | CreateOrder | ListOrders
  | ListMessages | PostMessage
  | AdminUsers | AdminOrders | UpdateOrderStatus
  | UpdateProduct | DeleteProduct | AdminStats
  | MakeAdmin
  | SendMessage (io : Io).

Section Server.
Context {T : Type} {num : JsNum T} {ext : Externals} {bc : Bcrypt}
  {status : StatusColumn} {un : Unordered}.

(** The world after a request to a route (for the socket event, the
    body of the request is the data of the event). *)
Definition serve (r : Route) (req : Request T) (w : World T) : World T :=
  match r with
  | Register => (POST_auth_register req w).2
  | Login => (POST_auth_login req w).2
  | ListProducts => (GET_products req w).2
  | CreateProduct => (POST_products req w).2
  | ShowCart => (GET_cart req w).2
  | AddToCart => (POST_cart req w).2
  | RemoveFromCart => (DELETE_cart req w).2
  | CreateOrder => (POST_orders req w).2
  | ListOrders => (GET_orders req w).2
  | ListMessages => (GET_messages req w).2
  | PostMessage => (POST_messages req w).2
  | AdminUsers => (GET_admin_users req w).2
  | AdminOrders => (GET_admin_orders req w).2
  | UpdateOrderStatus => (PUT_admin_orders_status req w).2
  | UpdateProduct => (PUT_admin_products req w).2
  | DeleteProduct => (DELETE_admin_products req w).2
  | AdminStats => (GET_admin_stats req w).2
  | MakeAdmin => (POST_admin_make_admin req w).2
  | SendMessage io => (sendMessage io (req_body req) w).2
  end.

Fixpoint serve_all (calls : list (Route * Request T)) (w : World T) : World T :=
  match calls with
  | [] => w
  | (r, req) :: calls' => serve_all calls' (serve r req w)
  end.

(** The database before the first request. *)
Definition empty_db : Db T :=
  {| users := []; products := []; carts := []; cartItems := []; orders := [];
     orderItems := []; messages := []; next_id := 0 |}.

(** What the data model asks of the rows: a user has at most one cart, a
    cart at most one line per product, quantities and prices are
    positive, stock is not negative, products and orders have distinct
    identifiers of the store, and every order item belongs to an order
    that is there. *)
Record consistent (d : Db T) : Prop := {
  consistent_carts : wf_carts d;
  consistent_owner : NoDup (cart_userId <$> carts d);
  consistent_lines : NoDup ((λ i, (ci_cartId i, ci_productId i)) <$> cartItems d);
  consistent_quantity : ∀ i, i ∈ cartItems d → 0 < ci_quantity i;
  consistent_catalog :
    ∀ p, p ∈ products d → num_positive (product_price p) = true ∧ 0 ≤ product_stock p;
  consistent_product_ids : NoDup (product_id <$> products d);
  consistent_products : ∀ p, p ∈ products d → issued d (product_id p);
  consistent_order_ids : NoDup (order_id <$> orders d);
  consistent_orders : ∀ o, o ∈ orders d → issued d (order_id o);
  consistent_items : ∀ r, r ∈ orderItems d → oi_orderId r ∈ order_id <$> orders d;
}.

End Server.

(** ** What a route writes, and what no route takes away *)

Inductive Table := Users | Products | Carts | CartItems | Orders | OrderItems | Messages.

(** The tables for which the handler of a route has a write. *)
Definition writes (r : Route) (t : Table) : bool :=
  match r, t with
  | Register, Users | MakeAdmin, Users => true
  | CreateProduct, Products | UpdateProduct, Products | DeleteProduct, Products => true
  | AddToCart, Carts | AddToCart, CartItems => true
  | RemoveFromCart, CartItems => true
  | CreateOrder, Orders | CreateOrder, OrderItems | CreateOrder, CartItems => true
  | UpdateOrderStatus, Orders => true
  | PostMessage, Messages | SendMessage _, Messages => true
  | _, _ => false
  end.

Section Changes.
Context {T : Type}.

Definition table_same (t : Table) (d d' : Db T) : Prop :=
  match t with
  | Users => users d' = users d
  | Products => products d' = products d
  | Carts => carts d' = carts d
  | CartItems => cartItems d' = cartItems d
  | Orders => orders d' = orders d
  | OrderItems => orderItems d' = orderItems d
  | Messages => messages d' = messages d
  end.

(** A user without the admin flag, and an order without its status. *)
Definition account (u : User) : string * string * option string * string :=
  (user_id u, user_email u, user_name u, user_password u).

Definition placed (o : Order T) : string * string * T :=
  (order_id o, order_userId o, order_total o).

(** Nothing was taken away or rewritten between [d] and [d']: the
    accounts, the orders, their items and the messages of [d] are still
    there, in their places, and no identifier is handed out again. *)
Record kept (d d' : Db T) : Prop := {
  kept_accounts : account <$> users d `prefix_of` account <$> users d';
  kept_orders : placed <$> orders d `prefix_of` placed <$> orders d';
  kept_items : orderItems d `prefix_of` orderItems d';
  kept_messages : messages d `prefix_of` messages d';
  kept_ids : (next_id d ≤ next_id d')%nat;
}.

Definition changes (r : Route) (d d' : Db T) : Prop :=
  (∀ t, writes r t = false → table_same t d d') ∧ kept d d'.

End Changes.

(** The rest of the concrete environment: a hash is accepted for the
    password it marks, and the status column admits the four values of
    the admin console. *)
#[export] Instance demo_bcrypt : Bcrypt := {|
  bcrypt_compare p h := bool_decide (h = "#" +:+ p);
|}.

#[export] Instance demo_status : StatusColumn := {|
  status_ok s := bool_decide (s ∈ ["pending"; "processing"; "completed"; "cancelled"]);
|}.

(** A store that returns the rows it was not asked to order in the
    reverse of their creation. *)
#[export] Instance demo_unordered : Unordered := {|
  arrange A l := reverse l;
  arrange_perm A l := reverse_Permutation l;
|}.

(** * Properties *)

Section Basics.
Context {T : Type} {num : JsNum T} {ext : Externals}.

Lemma prisma_quiet {A} (q : Query T A) (w : World T) :
  quiet w → prisma q w = ((q (db w)).1, advance (q (db w)).2 w).
Proof.
  destruct w as [d fs]. unfold quiet, prisma, advance. simpl. intros Hq.
  destruct fs as [|b fs]; simpl.
  - by destruct (q d).
  - inversion Hq as [|? ? Hb Hfs]; subst. by destruct (q d).
Qed.

Lemma quiet_advance (d : Db T) (w : World T) : quiet w → quiet (advance d w).
Proof.
  unfold quiet, advance. simpl. intros Hq.
  destruct (faults w); simpl; [constructor|]. by inversion Hq.
Qed.

End Basics.

Create HintDb store discriminated.
#[export] Hint Resolve quiet_advance : store.

(** The next call of a handler, performed by a quiet store. *)
Ltac perform := rewrite prisma_quiet by eauto 10 with store.
Ltac perform_in H := rewrite prisma_quiet in H by eauto 10 with store.

(** ** The token middleware *)

Lemma string_app_assoc (a b c : string) : (a +:+ b) +:+ c = a +:+ (b +:+ c).
Proof.
  induction a as [|x a IH]; [done|].
  change (String x ((a +:+ b) +:+ c) = String x (a +:+ b +:+ c)). by rewrite IH.
Qed.

Lemma string_app_empty (a : string) : a +:+ "" = a.
Proof.
  induction a as [|x a IH]; [done|].
  change (String x (a +:+ "") = String x a). by rewrite IH.
Qed.

Lemma split_go_spaceless (cur s : string) :
  spaceless s = true → split_go " " cur s = [cur +:+ s].
Proof.
  revert cur. induction s as [|c s IH]; intros cur Hs; simpl in *.
  - by rewrite string_app_empty.
  - apply andb_prop in Hs as [Hc Hs].
    case_bool_decide; [done|].
    rewrite IH by done. by rewrite string_app_assoc.
Qed.

Section Authentication.
Context {T : Type} {num : JsNum T} {ext : Externals}.

(** A header [Bearer <token>] carries its token. *)
Lemma bearer_token_header (req : Request T) (token : string) :
  req_authorization req = Some ("Bearer " +:+ token) →
  spaceless token = true →
  bearer_token req = nonempty token.
Proof.
  intros Hh Hs. unfold bearer_token. rewrite Hh. simpl.
  unfold split. cbn. by rewrite split_go_spaceless.
Qed.

(** C7, as the code has it: a request without a token is answered 401
    and a request whose token does not verify (invalid or expired) is
    answered 403; in both cases the answer and the world do not depend
    on the protected handler, which is not run.  A missing
    Authorization header and a header [Bearer <token>] are instances. *)
Theorem authenticateToken_rejects (req : Request T) (next : Claims → Handler T)
    (w : World T) :
  (bearer_token req = None →
     authenticateToken req next w
     = (respond 401 (ErrorBody "Access token required"), w))
  ∧ (∀ token, bearer_token req = Some token → jwt_verify token = None →
     authenticateToken req next w = (respond 403 (ErrorBody "Invalid token"), w))
  ∧ (req_authorization req = None → bearer_token req = None)
  ∧ (∀ token, req_authorization req = Some ("Bearer " +:+ token) →
     spaceless token = true → token ≠ "" → bearer_token req = Some token).
Proof.
  repeat split.
  - intros Hb. unfold authenticateToken. by rewrite Hb.
  - intros token Hb Hv. unfold authenticateToken. by rewrite Hb, Hv.
  - intros Hh. unfold bearer_token. by rewrite Hh.
  - intros token Hh Hs Hne. rewrite (bearer_token_header _ token) by done.
    unfold nonempty. by case_bool_decide.
Qed.

End Authentication.

(** With a token that does not verify, the order route answers 403, not
    401, and changes nothing. *)
Lemma invalid_token_is_forbidden :
  let req := Sample.request (Some "Bearer junk") "" [] in
  bearer_token req = Some "junk"
  ∧ jwt_verify "junk" = None
  ∧ POST_orders req Sample.calm = (respond 403 (ErrorBody "Invalid token"), Sample.calm)
  ∧ status (POST_orders req Sample.calm).1 ≠ 401%nat.
Proof. vm_compute. repeat split; congruence. Qed.

Lemma authenticateToken_rejects_witness :
  let missing := Sample.request None "" [] in
  let invalid := Sample.request (Some "Bearer junk") "" [] in
  POST_orders missing Sample.calm
  = (respond 401 (ErrorBody "Access token required"), Sample.calm)
  ∧ POST_orders invalid Sample.calm
    = (respond 403 (ErrorBody "Invalid token"), Sample.calm).
Proof.
  split.
  - apply (authenticateToken_rejects (Sample.request None "" [])). reflexivity.
  - apply (authenticateToken_rejects (Sample.request (Some "Bearer junk") "" [])) with "junk";
      reflexivity.
Defined.

(** ** Removing a line from the cart *)

Lemma filter_all {A} (P : A → Prop) `{!∀ x, Decision (P x)} (l : list A) :
  (∀ x, x ∈ l → P x) → filter P l = l.
Proof.
  induction l as [|a l IH]; intros Hall; [done|].
  rewrite filter_cons_True by (apply Hall; left).
  f_equal. apply IH. intros x Hx. apply Hall. by right.
Qed.

(** Deleting the rows of a cart for a product is the removal of the
    specification. *)
Lemma lines_after_delete (cartId productId : string) (l : list CartItem) :
  line_of <$> filter (λ i, ci_cartId i = cartId)
                (filter (λ i, ¬ (ci_cartId i = cartId ∧ ci_productId i = productId)) l)
  = cart_remove productId (line_of <$> filter (λ i, ci_cartId i = cartId) l).
Proof.
  unfold cart_remove. induction l as [|i l IH]; [done|].
  destruct (decide (ci_cartId i = cartId)) as [Hi|Hi],
           (decide (ci_productId i = productId)) as [Hp|Hp].
  - rewrite (filter_cons_False (λ i, ¬ _)) by (intros Hn; by apply Hn).
    rewrite (filter_cons_True _ i l) by done. rewrite fmap_cons.
    rewrite (filter_cons_False (λ l, l.1 ≠ _)) by (intros Hn; by apply Hn). done.
  - rewrite (filter_cons_True (λ i, ¬ _)) by (by intros [_ ?]).
    rewrite !(filter_cons_True _ i) by done. rewrite !fmap_cons.
    rewrite (filter_cons_True (λ l, l.1 ≠ _)) by done. by rewrite IH.
  - rewrite (filter_cons_True (λ i, ¬ _)) by (by intros [? _]).
    by rewrite !(filter_cons_False _ i) by done.
  - rewrite (filter_cons_True (λ i, ¬ _)) by (by intros [? _]).
    by rewrite !(filter_cons_False _ i) by done.
Qed.

Section RemoveFromCart.
Context {T : Type} {num : JsNum T} {ext : Externals}.

(** C5, as the code has it: when the user has a cart, the call succeeds
    and deletes exactly the lines of that cart for the product (so it
    changes nothing when there is none); when the user has no cart it is
    answered 404 and changes nothing. *)
Theorem removeFromCart_spec (user : Claims) (req : Request T) (w : World T) :
  quiet w →
  match find_cart (claims_id user) (db w) with
  | Some c =>
      let gone i := ci_cartId i = cart_id c ∧ ci_productId i = req_param req in
      (removeFromCart user req w).1 = json (MessageBody "Removed from cart")
      ∧ db (removeFromCart user req w).2
        = with_cartItems (filter (λ i, ¬ gone i)) (db w)
      ∧ lines_of (claims_id user) (db (removeFromCart user req w).2)
        = cart_remove (req_param req) (lines_of (claims_id user) (db w))
      ∧ ((∀ i, i ∈ cartItems (db w) → ¬ gone i) →
         db (removeFromCart user req w).2 = db w)
  | None =>
      (removeFromCart user req w).1 = respond 404 (ErrorBody "Cart not found")
      ∧ db (removeFromCart user req w).2 = db w
  end.
Proof.
  intros Hq. unfold removeFromCart, try_catch, bind.
  perform. simpl.
  destruct (find_cart (claims_id user) (db w)) as [c|] eqn:Hc; simpl; [|done].
  perform. simpl.
  split; [done|]. split; [done|]. split.
  - unfold lines_of, find_cart in *. simpl. rewrite Hc.
    unfold items_of, cart_remove. simpl.
    apply lines_after_delete.
  - intros Hnone. destruct (db w) as [us ps cs cis os ois ms n] eqn:Hd.
    unfold with_cartItems. simpl in *. f_equal. by apply filter_all.
Qed.

End RemoveFromCart.

(** Bob has no cart: his removal is answered 404, which is not a success. *)
Lemma remove_without_cart_is_not_found :
  let req := Sample.request (Sample.bearer Sample.bob) "3" [] in
  find_cart "1" Sample.shop = None
  ∧ DELETE_cart req Sample.calm
    = (respond 404 (ErrorBody "Cart not found"), Sample.calm)
  ∧ status (DELETE_cart req Sample.calm).1 ≠ 200%nat.
Proof. vm_compute. repeat split; congruence. Qed.

Lemma removeFromCart_spec_witness :
  let req := Sample.request (Sample.bearer Sample.alice) "3" [] in
  lines_of "0" Sample.shop = [("3", 2); ("4", 1)]
  ∧ lines_of "0" (db (removeFromCart (Sample.claims_of Sample.alice) req Sample.calm).2)
    = cart_remove "3" (lines_of "0" Sample.shop).
Proof.
  split; [reflexivity|].
  pose proof (removeFromCart_spec (Sample.claims_of Sample.alice)
                (Sample.request (Sample.bearer Sample.alice) "3" []) Sample.calm) as Hs.
  simpl in Hs. apply Hs. constructor.
Defined.

(** ** Calls that the store may refuse *)

Section Refusals.
Context {T : Type} {num : JsNum T} {ext : Externals}.

(** A call is either refused, which leaves the database as it was, or
    performed. *)
Lemma prisma_cases {A} (q : Query T A) (w : World T) :
  (∃ fs, prisma q w = (Throw (PrismaError "P1001"), {| db := db w; faults := fs |}))
  ∨ (∃ fs, prisma q w = ((q (db w)).1, {| db := (q (db w)).2; faults := fs |})).
Proof.
  unfold prisma. destruct (faults w) as [|[] fs].
  - right. exists []. by destruct (q (db w)).
  - left. by exists fs.
  - right. exists fs. by destruct (q (db w)).
Qed.

End Refusals.

(** ** Granting the admin flag *)

Section MakeAdmin.
Context {T : Type} {num : JsNum T} {ext : Externals}.

Lemma find_promoted (id : string) (l : list User) (u : User) :
  List.find (λ u, bool_decide (user_id u = id)) l = Some u →
  List.find (λ u, bool_decide (user_id u = id))
    (fmap (λ u', if bool_decide (user_id u' = id) then set_isAdmin true u' else u') l)
  = Some (set_isAdmin true u).
Proof.
  induction l as [|a l IH]; simpl; [done|].
  destruct (bool_decide (user_id a = id)) eqn:Ha; simpl.
  - rewrite Ha. by intros [= ->].
  - rewrite Ha. apply IH.
Qed.

(** C9: the make-admin route is guarded by the token check only.  With
    any token that verifies, whoever its bearer is, and the id of an
    existing user, the store willing, the user's admin flag is set, the
    other users are left as they are, and the answer is a success. *)
Theorem makeAdmin_any_bearer (req : Request T) (w : World T)
    (token : string) (bearer : Claims) (target : User) :
  bearer_token req = Some token →
  jwt_verify token = Some bearer →
  find_user (req_param req) (db w) = Some target →
  quiet w →
  (POST_admin_make_admin req w).1
  = json (MadeAdminBody "User made admin" (set_isAdmin true target))
  ∧ status (POST_admin_make_admin req w).1 = 200%nat
  ∧ find_user (req_param req) (db (POST_admin_make_admin req w).2)
    = Some (set_isAdmin true target)
  ∧ user_isAdmin (set_isAdmin true target) = true
  ∧ users (db (POST_admin_make_admin req w).2)
    = fmap (λ u, if bool_decide (user_id u = req_param req)
                then set_isAdmin true u else u) (users (db w)).
Proof.
  intros Hb Hv Hu Hq.
  unfold POST_admin_make_admin, authenticateToken. rewrite Hb, Hv.
  unfold makeAdmin, try_catch, bind. perform.
  unfold user_update_isAdmin. rewrite Hu. simpl.
  repeat split. unfold find_user in *. simpl. by apply find_promoted.
Qed.

End MakeAdmin.

(** Bob, who is not an admin, makes himself one. *)
Lemma makeAdmin_any_bearer_witness :
  let req := Sample.request (Sample.bearer Sample.bob) "1" [] in
  user_isAdmin Sample.bob = false
  ∧ status (POST_admin_make_admin req Sample.calm).1 = 200%nat
  ∧ find_user "1" (db (POST_admin_make_admin req Sample.calm).2)
    = Some (set_isAdmin true Sample.bob).
Proof.
  split; [reflexivity|].
  pose proof (makeAdmin_any_bearer (Sample.request (Sample.bearer Sample.bob) "1" [])
                Sample.calm "1|bob@example.com|0" (Sample.claims_of Sample.bob) Sample.bob) as Hs.
  destruct Hs as (_ & Hst & Hf & _); [reflexivity|reflexivity|reflexivity|constructor|].
  split; [exact Hst|exact Hf].
Defined.

(** ** Posting chat messages *)

Section PostMessage.
Context {T : Type} {num : JsNum T} {ext : Externals}.


End PostMessage.



(** ** Orders and later product updates *)

Section UpdateProduct.
Context {T : Type} {num : JsNum T} {ext : Externals}.

Lemma find_updated (id : string) (f : Product T → Product T) (l : list (Product T))
    (p : Product T) :
  (∀ p, product_id (f p) = product_id p) →
  List.find (λ p, bool_decide (product_id p = id)) l = Some p →
  List.find (λ p, bool_decide (product_id p = id))
    (fmap (λ p', if bool_decide (product_id p' = id) then f p' else p') l)
  = Some (f p).
Proof.
  intros Hf. induction l as [|a l IH]; simpl; [done|].
  destruct (bool_decide (product_id a = id)) eqn:Ha; simpl.
  - rewrite Hf, Ha. by intros [= ->].
  - rewrite Ha. apply IH.
Qed.

(** C4: whatever the request and whatever the store does, the
    product-update route leaves the orders and the order items, with the
    totals and prices recorded in them, as they were.  When an admin's
    valid update of an existing product goes through, the price in the
    catalog is the new one. *)
Theorem updateProduct_keeps_orders (req : Request T) (w : World T) :
  orders (db (PUT_admin_products req w).2) = orders (db w)
  ∧ orderItems (db (PUT_admin_products req w).2) = orderItems (db w)
  ∧ (∀ token bearer admin name description price stock p,
       bearer_token req = Some token →
       jwt_verify token = Some bearer →
       find_user (claims_id bearer) (db w) = Some admin →
       user_isAdmin admin = true →
       productSchema (req_body req) = Ok (name, description, price, stock) →
       find_product (req_param req) (db w) = Some p →
       quiet w →
       status (PUT_admin_products req w).1 = 200%nat
       ∧ product_price <$> find_product (req_param req) (db (PUT_admin_products req w).2)
         = Some price).
Proof.
  assert (Hframe : ∀ w, orders (db (updateProduct req w).2) = orders (db w)
                        ∧ orderItems (db (updateProduct req w).2) = orderItems (db w)).
  { intros w0. unfold updateProduct, try_catch, bind, lift.
    destruct (productSchema (req_body req)) as [[[[name description] price] stock]|e];
      simpl; [|done].
    destruct (prisma_cases (product_update (req_param req) name description price stock) w0)
      as [[fs ->]|[fs ->]]; simpl; [done|].
    unfold product_update. by destruct (find_product _ _). }
  assert (Hguard : ∀ w, orders (db (PUT_admin_products req w).2) = orders (db w)
                        ∧ orderItems (db (PUT_admin_products req w).2) = orderItems (db w)).
  { intros w0. unfold PUT_admin_products, authenticateToken.
    destruct (bearer_token req) as [token|]; [|done].
    destruct (jwt_verify token) as [bearer|]; [|done].
    unfold requireAdmin.
    destruct (prisma_cases (user_findUnique (claims_id bearer)) w0)
      as [[fs ->]|[fs ->]]; simpl; [done|].
    destruct (find_user _ _) as [u|]; [|done].
    destruct (user_isAdmin u); [|done].
    apply (Hframe {| db := db w0; faults := fs |}). }
  split; [apply Hguard|]. split; [apply Hguard|].
  intros token bearer admin name description price stock p Hb Hv Hu Ha Hs Hp Hq.
  unfold PUT_admin_products, authenticateToken. rewrite Hb, Hv.
  unfold requireAdmin. perform. simpl. rewrite Hu, Ha.
  unfold updateProduct, try_catch, bind, lift. rewrite Hs. simpl.
  perform. simpl.
  unfold product_update. rewrite Hp. simpl. split; [done|].
  unfold find_product in *. simpl.
  by rewrite (find_updated _ (set_product name description price stock) _ p).
Qed.

End UpdateProduct.

(** Alice orders at the prices 10 and 5; then the widget's price becomes
    12 in the catalog and stays 10 in her order. *)
Lemma updateProduct_keeps_orders_witness :
  let ordered := (POST_orders Sample.order_request Sample.calm).2 in
  let updated := (PUT_admin_products Sample.price_request ordered).2 in
  oi_price <$> orderItems (db ordered) = [10; 5]
  ∧ order_total <$> orders (db ordered) = [25]
  ∧ orderItems (db updated) = orderItems (db ordered)
  ∧ orders (db updated) = orders (db ordered)
  ∧ product_price <$> find_product "3" (db updated) = Some 12.
Proof.
  intros ordered updated.
  destruct (updateProduct_keeps_orders Sample.price_request ordered) as (Ho & Hi & Hp).
  split; [reflexivity|]. split; [reflexivity|]. split; [exact Hi|]. split; [exact Ho|].
  eapply (Hp "2|carol@example.com|0" (Sample.claims_of Sample.carol) Sample.carol
             "Widget" None 12 7 Sample.widget); try reflexivity.
  constructor.
Defined.

(** ** Registration *)

Section Register.
Context {T : Type} {num : JsNum T} {ext : Externals}.

(** C3, as the code has it: a valid registration whose email is taken is
    refused by the store and answered with the generic 500 of the catch
    block, and no user is stored; a valid registration with a new email
    stores the user with the hashed password and answers with the user's
    public fields and a token signed, at that moment, over the user's id
    and email. *)
Theorem register_spec (req : Request T) (w : World T) (email name password : string) :
  registerSchema (req_body req) = Ok (email, name, password) →
  quiet w →
  match find_user_by_email email (db w) with
  | Some _ =>
      (POST_auth_register req w).1 = respond 500 (ErrorBody "Failed to register")
      ∧ db (POST_auth_register req w).2 = db w
  | None =>
      let u := {| user_id := gen_id (next_id (db w)); user_email := email;
                  user_name := Some name; user_password := bcrypt_hash password;
                  user_isAdmin := default_isAdmin |} in
      (POST_auth_register req w).1
      = json (AuthBody (user_id u) email (Some name)
                (jwt_sign (req_time req)
                   {| claims_id := user_id u; claims_email := email |}))
      ∧ users (db (POST_auth_register req w).2) = users (db w) ++ [u]
  end.
Proof.
  intros Hs Hq. unfold POST_auth_register, register, try_catch, bind, lift.
  rewrite Hs. simpl. perform. unfold user_create.
  by destruct (find_user_by_email email (db w)).
Qed.

End Register.

(** Registering with Alice's email again is answered 500, not 409. *)
Lemma duplicate_email_is_server_error :
  let req := Sample.request None ""
               [("email", JStr "alice@example.com"); ("name", JStr "Alice II");
                ("password", JStr "looking-glass")] in
  find_user_by_email "alice@example.com" Sample.shop = Some Sample.alice
  ∧ POST_auth_register req Sample.calm
    = (respond 500 (ErrorBody "Failed to register"), Sample.calm)
  ∧ status (POST_auth_register req Sample.calm).1 ≠ 409%nat.
Proof. vm_compute. repeat split; congruence. Qed.

Lemma register_spec_witness :
  let taken := Sample.request None ""
                 [("email", JStr "alice@example.com"); ("name", JStr "Alice II");
                  ("password", JStr "looking-glass")] in
  let fresh := Sample.request None ""
                 [("email", JStr "dave@example.com"); ("name", JStr "Dave");
                  ("password", JStr "hunter22")] in
  (POST_auth_register taken Sample.calm).1 = respond 500 (ErrorBody "Failed to register")
  ∧ (POST_auth_register fresh Sample.calm).1
    = json (AuthBody "8" "dave@example.com" (Some "Dave") "8|dave@example.com|0").
Proof.
  split.
  - pose proof (register_spec
                  (Sample.request None ""
                     [("email", JStr "alice@example.com"); ("name", JStr "Alice II");
                      ("password", JStr "looking-glass")])
                  Sample.calm "alice@example.com" "Alice II" "looking-glass") as Hs.
    simpl in Hs. apply Hs; [reflexivity|constructor].
  - pose proof (register_spec
                  (Sample.request None ""
                     [("email", JStr "dave@example.com"); ("name", JStr "Dave");
                      ("password", JStr "hunter22")])
                  Sample.calm "dave@example.com" "Dave" "hunter22") as Hs.
    simpl in Hs. apply Hs; [reflexivity|constructor].
Defined.

(** ** Creating an order *)

Lemma filter_complement {A} (P : A → Prop) `{!∀ x, Decision (P x)} (l : list A) :
  filter P (filter (λ x, ¬ P x) l) = [].
Proof.
  induction l as [|a l IH]; [done|].
  destruct (decide (P a)) as [Ha|Ha].
  - by rewrite (filter_cons_False (λ x, ¬ P x)) by (intros Hn; by apply Hn).
  - rewrite (filter_cons_True (λ x, ¬ P x)) by done.
    by rewrite (filter_cons_False P) by done.
Qed.

Section CreateOrder.
Context {T : Type} {num : JsNum T} {ext : Externals}.

Lemma amount_line_of (d : Db T) (i : CartItem) :
  amount d (line_of i)
  = (λ p, num_mul (product_price p) (num_of_Z (ci_quantity i)))
      <$> find_product (ci_productId i) d.
Proof. unfold amount, line_of. simpl. by destruct (find_product _ _). Qed.

Lemma add_item_with_product (d : Db T) (i : CartItem) (acc : T) :
  add_item acc (with_product d i)
  = match find_product (ci_productId i) d with
    | Some p => Ok (num_add acc (num_mul (product_price p) (num_of_Z (ci_quantity i))))
    | None => Throw TypeError
    end.
Proof. unfold add_item, price_of, with_product. simpl. by destruct (find_product _ _). Qed.

Lemma item_data_with_product (d : Db T) (i : CartItem) :
  item_data (with_product d i)
  = match find_product (ci_productId i) d with
    | Some p => Ok (ci_productId i, ci_quantity i, product_price p)
    | None => Throw TypeError
    end.
Proof. unfold item_data, price_of, with_product. simpl. by destruct (find_product _ _). Qed.

(** The reduce of the handler computes the total of the lines, and throws
    when a line has no product. *)
Lemma reduce_add_item (d : Db T) (items : list CartItem) (acc : T) :
  match mapM (amount d) (line_of <$> items) with
  | Some amounts =>
      reduce add_item (with_product d <$> items) acc = Ok (sum_from acc amounts)
  | None => reduce add_item (with_product d <$> items) acc = Throw TypeError
  end.
Proof.
  revert acc. induction items as [|i items IH]; intros acc; [done|].
  rewrite !fmap_cons. cbn [mapM reduce].
  rewrite amount_line_of, add_item_with_product.
  destruct (find_product (ci_productId i) d) as [p|];
    cbn [fmap option_fmap option_map mbind option_bind]; [|done].
  specialize (IH (num_add acc (num_mul (product_price p) (num_of_Z (ci_quantity i))))).
  by destruct (mapM (amount d) (line_of <$> items)).
Qed.

(** The map of the handler copies product, quantity and current price of
    every line. *)
Lemma map_item_data (d : Db T) (items : list CartItem) :
  is_Some (mapM (amount d) (line_of <$> items)) →
  ∃ data, map_throwing item_data (with_product d <$> items) = Ok data
          ∧ length data = length items.
Proof.
  induction items as [|i items IH]; [by exists []|].
  rewrite !fmap_cons. cbn [mapM map_throwing].
  rewrite amount_line_of, item_data_with_product.
  destruct (find_product (ci_productId i) d) as [p|];
    cbn [fmap option_fmap option_map mbind option_bind]; [|by intros [? ?]].
  destruct (mapM (amount d) (line_of <$> items)) as [amounts|] eqn:Hm;
    cbn [fmap option_fmap option_map mbind option_bind]; [|by intros [? ?]].
  intros _. destruct IH as (data & -> & Hlen); [done|].
  eexists. split; [done|]. cbn [length]. by rewrite Hlen.
Qed.

(** C2: the store willing, an order from a cart with lines (each of a
    product of the catalog) succeeds, appends an order whose total is the
    sum of price times quantity over the lines the cart had, and leaves
    the cart without lines; an order from a cart without lines, or
    without a cart, is answered 400 'Cart is empty' and changes nothing. *)
Theorem createOrder_spec (user : Claims) (req : Request T) (w : World T) :
  quiet w →
  (∀ total,
     lines_of (claims_id user) (db w) ≠ [] →
     lines_total (db w) (lines_of (claims_id user) (db w)) = Some total →
     ∃ o items,
       (createOrder user req w).1 = json (OrderBody o items)
       ∧ order_total o = total
       ∧ order_userId o = claims_id user
       ∧ orders (db (createOrder user req w).2) = orders (db w) ++ [o]
       ∧ length items = length (lines_of (claims_id user) (db w))
       ∧ lines_of (claims_id user) (db (createOrder user req w).2) = [])
  ∧ (lines_of (claims_id user) (db w) = [] →
     (createOrder user req w).1 = respond 400 (ErrorBody "Cart is empty")
     ∧ db (createOrder user req w).2 = db w
     ∧ orders (db (createOrder user req w).2) = orders (db w)).
Proof.
  intros Hq. unfold createOrder, try_catch, bind, lift.
  perform. simpl. unfold lines_of.
  destruct (find_cart (claims_id user) (db w)) as [c|] eqn:Hc; simpl; [|done].
  split.
  - intros total Hne Htot.
    rewrite bool_decide_eq_false_2; last first.
    { rewrite length_fmap. intros Hl%nil_length_inv. by rewrite Hl in Hne. }
    unfold lines_total in Htot.
    pose proof (reduce_add_item (db w) (items_of (cart_id c) (db w)) (num_of_Z 0)) as Hr.
    destruct (map_item_data (db w) (items_of (cart_id c) (db w))) as (data & Hd & Hlen).
    { by destruct (mapM _ _). }
    destruct (mapM (amount (db w)) (line_of <$> items_of (cart_id c) (db w)))
      as [amounts|]; [|done].
    injection Htot as <-. rewrite Hr, Hd. simpl.
    perform. simpl.
    perform. simpl.
    eexists _, _. split; [done|]. repeat split.
    + by rewrite length_fmap, length_imap, Hlen, length_fmap.
    + unfold find_cart in *. simpl. rewrite Hc. unfold items_of. simpl.
      by rewrite (filter_complement (λ i, ci_cartId i = cart_id c)).
  - intros Hnil. apply fmap_nil_inv in Hnil.
    rewrite bool_decide_eq_true_2 by (by rewrite length_fmap, Hnil). done.
Qed.

End CreateOrder.

(** The example of the specification: Widget (10, twice) and Gadget (5,
    once) make an order of total 25 and an empty cart. *)
Lemma createOrder_spec_witness :
  lines_of "0" Sample.shop = [("3", 2); ("4", 1)]
  ∧ lines_total Sample.shop (lines_of "0" Sample.shop) = Some 25
  ∧ (∃ o items,
       (createOrder (Sample.claims_of Sample.alice) Sample.order_request Sample.calm).1
       = json (OrderBody o items)
       ∧ order_total o = 25)
  ∧ lines_of "0"
      (db (createOrder (Sample.claims_of Sample.alice) Sample.order_request Sample.calm).2)
    = [].
Proof.
  split; [reflexivity|]. split; [reflexivity|].
  destruct (createOrder_spec (Sample.claims_of Sample.alice) Sample.order_request
              Sample.calm) as [Hfull _]; [constructor|].
  destruct (Hfull 25) as (o & items & Hr & Ht & _ & _ & _ & Hl);
    [discriminate|reflexivity|].
  split; [by exists o, items|exact Hl].
Defined.

(** ** Order creation when the store fails partway *)

Lemma map_throwing_length {A B} (f : A → Outcome B) (l : list A) (bs : list B) :
  map_throwing f l = Ok bs → length bs = length l.
Proof.
  revert bs. induction l as [|a l IH]; intros bs Hm; cbn in Hm.
  - by injection Hm as <-.
  - destruct (f a); [|done]. destruct (map_throwing f l) as [bs'|]; [|done].
    injection Hm as <-. cbn. f_equal. by apply IH.
Qed.

Section Atomicity.
Context {T : Type} {num : JsNum T} {ext : Externals}.

(** C1, as the code has it: the order and its items are written by one
    call of the store and the cart is cleared by a second, later call,
    with no transaction around the two.  Every run of the handler,
    whatever the store refuses, ends in one of three ways: nothing was
    written and the answer is an error; the order was written and the
    cart cleared, with a 200; or the order was written, the clearing
    call was refused, the cart is as it was and the answer is 500.  The
    cart is never cleared without the order. *)
Theorem createOrder_outcomes (user : Claims) (req : Request T) (w : World T) :
  (db (createOrder user req w).2 = db w
   ∧ status (createOrder user req w).1 ≠ 200%nat)
  ∨ (∃ c o rows,
       find_cart (claims_id user) (db w) = Some c
       ∧ orders (db (createOrder user req w).2) = orders (db w) ++ [o]
       ∧ orderItems (db (createOrder user req w).2) = orderItems (db w) ++ rows
       ∧ length rows = length (items_of (cart_id c) (db w))
       ∧ ((cartItems (db (createOrder user req w).2)
           = filter (λ i, ci_cartId i ≠ cart_id c) (cartItems (db w))
           ∧ status (createOrder user req w).1 = 200%nat)
          ∨ (cartItems (db (createOrder user req w).2) = cartItems (db w)
             ∧ (createOrder user req w).1
               = respond 500 (ErrorBody "Failed to create order")))).
Proof.
  unfold createOrder, try_catch, bind, lift.
  destruct (prisma_cases (cart_findUnique_include (claims_id user)) w)
    as [[fs ->]|[fs ->]]; [by left|].
  cbn [fst snd cart_findUnique_include].
  destruct (find_cart (claims_id user) (db w)) as [c|] eqn:Hc; [|by left].
  case_bool_decide; [by left|].
  destruct (reduce add_item _ _) as [total|e]; [|by left].
  destruct (map_throwing item_data _) as [data|e] eqn:Hd; [|by left].
  set (w1 := {| db := db w; faults := fs |}).
  destruct (prisma_cases (order_create (claims_id user) total data) w1)
    as [[fs1 ->]|[fs1 ->]]; [by left|].
  cbn [fst snd order_create].
  match goal with |- context [prisma (cartItem_deleteMany (cart_id c)) ?w2] =>
    destruct (prisma_cases (cartItem_deleteMany (cart_id c)) w2) as [[fs2 ->]|[fs2 ->]]
  end.
  - right. eexists c, _, _. split; [done|]. cbn. split; [done|]. split; [done|].
    split; [|by right].
    rewrite length_imap, (map_throwing_length _ _ _ Hd). apply length_fmap.
  - right. eexists c, _, _. split; [done|]. cbn. split; [done|]. split; [done|].
    split; [|by left].
    rewrite length_imap, (map_throwing_length _ _ _ Hd). apply length_fmap.
Qed.

End Atomicity.

(** The store refuses the call that clears the cart: Alice's order and
    its two items are stored, her cart still has its two lines, and the
    answer is 500. *)
Lemma order_stored_cart_not_cleared :
  let after := (POST_orders Sample.order_request Sample.flaky).2 in
  order_total <$> orders (db after) = [25]
  ∧ oi_price <$> orderItems (db after) = [10; 5]
  ∧ lines_of "0" (db after) = [("3", 2); ("4", 1)]
  ∧ (POST_orders Sample.order_request Sample.flaky).1
    = respond 500 (ErrorBody "Failed to create order").
Proof. vm_compute. repeat split. Qed.

(** ** The relay's audience *)

Lemma count_NoDup {A} `{EqDecision A} (a : A) (l : list A) :
  NoDup l →
  length (filter (λ x, x = a) l) = if bool_decide (a ∈ l) then 1%nat else 0%nat.
Proof.
  induction 1 as [|x l Hx Hl IH]; [done|].
  destruct (decide (x = a)) as [->|Hne].
  - rewrite filter_cons_True by done. cbn [length].
    rewrite bool_decide_eq_true_2 by left.
    rewrite IH. by rewrite bool_decide_eq_false_2.
  - rewrite filter_cons_False by done. rewrite IH.
    apply (f_equal (λ b : bool, if b then 1%nat else 0%nat)).
    apply bool_decide_ext. rewrite elem_of_cons.
    split; [by right|]. by intros [->|Hin].
Qed.

Lemma received_emit (sid : string) (message : Payload) (l : list string) :
  received sid ((λ s, (s, message)) <$> l) = length (filter (λ x, x = sid) l).
Proof.
  unfold received. induction l as [|x l IH]; [done|].
  rewrite fmap_cons. destruct (decide (x = sid)) as [Hx|Hx].
  - rewrite !filter_cons_True by done. cbn [length]. by rewrite IH.
  - by rewrite !filter_cons_False by done.
Qed.

Lemma received_io_emit (io : Io) (message : Payload) (sid : string) :
  received sid (io_emit io message) = if connected io sid then 1%nat else 0%nat.
Proof.
  unfold io_emit, connected. rewrite received_emit.
  rewrite count_NoDup by apply NoDup_fst_map_to_list.
  apply (f_equal (λ b : bool, if b then 1%nat else 0%nat)).
  apply bool_decide_ext. rewrite list_elem_of_fmap. split.
  - intros ([k v] & -> & Hkv). apply elem_of_map_to_list in Hkv. by exists v.
  - intros [v Hv]. exists (sid, v). split; [done|]. by apply elem_of_map_to_list.
Qed.

Lemma received_io_to_emit (room : string) (io : Io) (message : Payload) (sid : string) :
  received sid (io_to_emit room io message) = if in_room io room sid then 1%nat else 0%nat.
Proof.
  unfold io_to_emit, in_room. rewrite received_emit.
  rewrite count_NoDup by apply NoDup_fst_map_to_list.
  destruct (io !! sid) as [rooms|] eqn:Hio.
  - apply (f_equal (λ b : bool, if b then 1%nat else 0%nat)).
    apply bool_decide_ext. rewrite list_elem_of_fmap. split.
    + intros ([k v] & -> & Hkv). apply elem_of_map_to_list in Hkv.
      apply map_lookup_filter_Some in Hkv as [Hk Hin]. simpl in *. congruence.
    + intros Hin. exists (sid, rooms). split; [done|].
      apply elem_of_map_to_list. by apply map_lookup_filter_Some.
  - rewrite bool_decide_eq_false_2; [done|].
    rewrite list_elem_of_fmap. intros ([k v] & -> & Hkv).
    apply elem_of_map_to_list in Hkv.
    apply map_lookup_filter_Some in Hkv as [Hk _]. simpl in *. congruence.
Qed.

Section Audience.
Context {T : Type} {num : JsNum T} {ext : Externals}.

(** C8: when the store has stored the message of a [sendMessage] event,
    which it does for an author who is a user, every event emitted
    carries that message with its author; with a recipient, each socket
    of the recipient's room receives it exactly once and no other socket
    receives it; without a recipient, each connected socket receives it
    exactly once.  Nothing is emitted unless a message was stored. *)
Theorem sendMessage_audience (io : Io) (data : list (string * jvalue T)) (w : World T)
    (userId content : string) (author : User) :
  field "userId" data = JStr userId →
  field "content" data = JStr content →
  find_user userId (db w) = Some author →
  quiet w →
  let message := ({| msg_id := gen_id (next_id (db w)); msg_userId := userId;
                     msg_content := content |}, Some author) in
  messages (db (sendMessage io data w).2) = messages (db w) ++ [message.1]
  ∧ (∀ d, d ∈ (sendMessage io data w).1 → d.2 = message)
  ∧ (∀ room, field "recipientId" data = JStr room → room ≠ "" →
       ∀ sid, received sid (sendMessage io data w).1
              = if in_room io room sid then 1%nat else 0%nat)
  ∧ (truthy (field "recipientId" data) = false →
       ∀ sid, received sid (sendMessage io data w).1
              = if connected io sid then 1%nat else 0%nat)
  ∧ (∀ w0 : World T,
       messages (db (sendMessage io data w0).2) = messages (db w0) →
       (sendMessage io data w0).1 = []).
Proof.
  intros Hu Hc Ha Hq message.
  assert (Hrun : sendMessage io data w
                 = (if truthy (field "recipientId" data)
                    then match field "recipientId" data with
                         | JStr room => io_to_emit room io message
                         | _ => []
                         end
                    else io_emit io message,
                    advance (bump 1 (with_messages (λ l, l ++ [message.1]) (db w))) w)).
  { unfold sendMessage, try_catch, bind, message_create. rewrite Hu, Hc.
    perform. unfold message_insert. rewrite Ha. cbn. by destruct (truthy _). }
  split; [by rewrite Hrun|]. split; [|split; [|split]].
  - intros d. rewrite Hrun. cbn [fst].
    destruct (truthy _); [destruct (field "recipientId" data)|];
      unfold io_to_emit, io_emit; rewrite ?list_elem_of_fmap;
      try (by intros (? & -> & _)); by intros ?%elem_of_nil.
  - intros room Hr Hne sid. rewrite Hrun, Hr. cbn.
    rewrite bool_decide_eq_false_2 by done. cbn. apply received_io_to_emit.
  - intros Hf sid. rewrite Hrun, Hf. cbn. apply received_io_emit.
  - intros w0. unfold sendMessage, try_catch, bind, message_create. rewrite Hu, Hc.
    destruct (prisma_cases (message_insert userId content) w0) as [[fs ->]|[fs ->]];
      [done|].
    unfold message_insert. destruct (find_user userId (db w0)); [|done].
    cbn. destruct (truthy _); cbn; intros Hm;
      apply (f_equal length) in Hm; rewrite length_app in Hm; cbn in Hm; lia.
Qed.

End Audience.

(** With Alice's two tabs and Bob's one connected: a message to Alice
    reaches each of her tabs once and not Bob's; a message to nobody in
    particular reaches all three once. *)
Lemma sendMessage_audience_witness :
  let directed := [("userId", JStr "1"); ("content", JStr "hi"); ("recipientId", JStr "0")] in
  let broadcast := [("userId", JStr "1"); ("content", JStr "hi all")] in
  (received "tab-a1" (sendMessage Sample.sockets directed Sample.calm).1 = 1
   ∧ received "tab-a2" (sendMessage Sample.sockets directed Sample.calm).1 = 1
   ∧ received "tab-b" (sendMessage Sample.sockets directed Sample.calm).1 = 0)%nat
  ∧ (received "tab-a1" (sendMessage Sample.sockets broadcast Sample.calm).1 = 1
     ∧ received "tab-a2" (sendMessage Sample.sockets broadcast Sample.calm).1 = 1
     ∧ received "tab-b" (sendMessage Sample.sockets broadcast Sample.calm).1 = 1)%nat.
Proof.
  intros directed broadcast.
  destruct (sendMessage_audience Sample.sockets directed Sample.calm "1" "hi" Sample.bob)
    as (_ & _ & Hd & _ & _); [reflexivity|reflexivity|reflexivity|constructor|].
  destruct (sendMessage_audience Sample.sockets broadcast Sample.calm "1" "hi all"
              Sample.bob)
    as (_ & _ & _ & Hb & _); [reflexivity|reflexivity|reflexivity|constructor|].
  split.
  - rewrite !(Hd "0") by done. by vm_compute.
  - rewrite !Hb by done. by vm_compute.
Defined.

(** ** Adding to the cart *)

Lemma find_Some_elem {A} (f : A → bool) (l : list A) (x : A) :
  List.find f l = Some x → x ∈ l ∧ f x = true.
Proof. intros Hf. apply find_some in Hf as [Hin Hx]. by rewrite list_elem_of_In. Qed.

Lemma find_None_elem {A} (f : A → bool) (l : list A) :
  List.find f l = None → ∀ x, x ∈ l → f x = false.
Proof. intros Hf x Hx. apply (find_none f l Hf). by rewrite <- list_elem_of_In. Qed.

Lemma find_app_None {A} (f : A → bool) (l : list A) (a : A) :
  List.find f l = None → List.find f (l ++ [a]) = if f a then Some a else None.
Proof. induction l as [|x l IH]; simpl; [done|]. by destruct (f x). Qed.

Lemma find_app_Some {A} (f : A → bool) (l k : list A) (x : A) :
  List.find f l = Some x → List.find f (l ++ k) = Some x.
Proof. induction l as [|y l IH]; simpl; [done|]. by destruct (f y). Qed.

Lemma NoDup_fmap_eq {A B} (f : A → B) (l : list A) (x y : A) :
  NoDup (f <$> l) → x ∈ l → y ∈ l → f x = f y → x = y.
Proof.
  induction l as [|a l IH]; [by intros _ ?%elem_of_nil|].
  rewrite fmap_cons, NoDup_cons, !elem_of_cons. intros [Ha Hl] [->|Hx] [->|Hy] Hf.
  - done.
  - destruct Ha. rewrite Hf. by apply list_elem_of_fmap_2.
  - destruct Ha. rewrite <- Hf. by apply list_elem_of_fmap_2.
  - by apply IH.
Qed.

Lemma cart_add_fresh (productId : string) (qty : Z) (ls : list (string * Z)) :
  (∀ l, l ∈ ls → l.1 ≠ productId) →
  cart_add productId qty ls = ls ++ [(productId, qty)].
Proof.
  induction ls as [|l ls IH]; intros Hall; [done|]. cbn [cart_add].
  rewrite decide_False by (apply Hall; left).
  cbn. f_equal. apply IH. intros l' Hl'. apply Hall. by right.
Qed.

Lemma find_NoDup {A} (key : A → string) (l : list A) (x : A) :
  NoDup (key <$> l) → x ∈ l →
  List.find (λ y, bool_decide (key y = key x)) l = Some x.
Proof.
  induction l as [|a l IH]; [by intros _ ?%elem_of_nil|].
  rewrite fmap_cons, NoDup_cons. intros [Ha Hl] [->|Hin]%elem_of_cons; cbn [List.find].
  - by rewrite bool_decide_eq_true_2.
  - rewrite bool_decide_eq_false_2; [by apply IH|].
    intros Heq. apply Ha. rewrite Heq. by apply list_elem_of_fmap_2.
Qed.

(** Taking the rows of an identifier away from rows that have none. *)
Lemma filter_other_ids (id : string) (l : list CartItem) :
  id ∉ ci_id <$> l → filter (λ i, ci_id i ≠ id) l = l.
Proof.
  intros Hid. apply filter_all. intros i Hi Heq. apply Hid. rewrite <- Heq.
  by apply list_elem_of_fmap_2.
Qed.

(** Updating the first row of a cart for a product moves the row behind
    the others; up to the order of the lines it is the merge of the
    specification. *)
Lemma lines_after_update (cartId productId : string) (qty : Z) (l : list CartItem)
    (e : CartItem) :
  NoDup (ci_id <$> l) →
  List.find (λ i, bool_decide (ci_cartId i = cartId)
                  && bool_decide (ci_productId i = productId)) l = Some e →
  line_of <$> filter (λ i, ci_cartId i = cartId)
                (filter (λ i, ci_id i ≠ ci_id e) l
                 ++ [set_quantity (ci_quantity e + qty) e])
  ≡ₚ cart_add productId qty (line_of <$> filter (λ i, ci_cartId i = cartId) l).
Proof.
  intros Hnd He.
  pose proof (find_Some_elem _ _ _ He)
    as [_ [Hec%bool_decide_eq_true Hep%bool_decide_eq_true]%andb_prop].
  rewrite filter_app, (filter_cons_True _ (set_quantity _ e)), filter_nil by done.
  rewrite fmap_app. cbn [fmap list_fmap]. unfold line_of at 2. cbn [ci_productId
    ci_quantity set_quantity]. rewrite Hep. clear Hec Hep.
  revert Hnd He. induction l as [|a l IH]; [done|].
  rewrite fmap_cons, NoDup_cons. intros [Ha Hl]. cbn [List.find].
  destruct (bool_decide (ci_cartId a = cartId) && bool_decide (ci_productId a = productId))
    eqn:Hm.
  - intros [= <-]. apply andb_prop in Hm as [Hc%bool_decide_eq_true Hp%bool_decide_eq_true].
    rewrite (filter_cons_False (λ i, ci_id i ≠ _)) by (intros Hn; by apply Hn).
    rewrite filter_other_ids by done.
    rewrite (filter_cons_True _ a) by done. rewrite fmap_cons. cbn [cart_add].
    rewrite decide_True by done. unfold line_of at 2 3. cbn [fst snd]. rewrite Hp.
    symmetry. apply Permutation_cons_append.
  - intros He. pose proof (find_Some_elem _ _ _ He) as [Hin _].
    assert (ci_id a ≠ ci_id e) as Hne.
    { intros Heq. apply Ha. rewrite Heq. by apply list_elem_of_fmap_2. }
    rewrite (filter_cons_True (λ i, ci_id i ≠ _)) by done.
    destruct (decide (ci_cartId a = cartId)) as [Hc|Hc].
    + rewrite !(filter_cons_True _ a) by done. rewrite !fmap_cons. cbn [cart_add app].
      rewrite (bool_decide_eq_true_2 _ Hc) in Hm. cbn in Hm.
      apply bool_decide_eq_false in Hm.
      rewrite decide_False by done. apply Permutation_skip. by apply IH.
    + rewrite !(filter_cons_False _ a) by done. by apply IH.
Qed.

(** An update of a row of one cart does not touch the rows of another. *)
Lemma other_after_update (cartId : string) (e e' : CartItem) (l : list CartItem) :
  NoDup (ci_id <$> l) → e ∈ l → ci_cartId e ≠ cartId → ci_cartId e' = ci_cartId e →
  filter (λ i, ci_cartId i = cartId) (filter (λ i, ci_id i ≠ ci_id e) l ++ [e'])
  = filter (λ i, ci_cartId i = cartId) l.
Proof.
  intros Hnd Hin Hne He'.
  rewrite filter_app, (filter_cons_False _ e'), filter_nil, app_nil_r by congruence.
  clear He'. induction l as [|a l IH]; [done|].
  rewrite fmap_cons, NoDup_cons in Hnd. destruct Hnd as [Ha Hl].
  apply elem_of_cons in Hin as [->|Hin].
  - rewrite (filter_cons_False (λ i, ci_id i ≠ _)) by (intros Hn; by apply Hn).
    rewrite filter_other_ids by done. by rewrite (filter_cons_False _ a).
  - assert (ci_id a ≠ ci_id e) as Hid.
    { intros Heq. apply Ha. rewrite Heq. by apply list_elem_of_fmap_2. }
    rewrite (filter_cons_True (λ i, ci_id i ≠ _)) by done.
    rewrite !(filter_cons (λ i, ci_cartId i = cartId)). by rewrite IH.
Qed.

(** The first line for a product is the first row of the cart for it. *)
Lemma find_line (cartId productId : string) (l : list CartItem) :
  List.find (λ ln, bool_decide (ln.1 = productId))
    (line_of <$> filter (λ i, ci_cartId i = cartId) l)
  = line_of <$> List.find (λ i, bool_decide (ci_cartId i = cartId)
                                && bool_decide (ci_productId i = productId)) l.
Proof.
  induction l as [|a l IH]; [done|]. cbn [List.find].
  destruct (decide (ci_cartId a = cartId)) as [Hc|Hc].
  - rewrite filter_cons_True by done. rewrite fmap_cons. cbn [List.find].
    rewrite (bool_decide_eq_true_2 _ Hc). cbn [andb line_of fst].
    by destruct (bool_decide (ci_productId a = productId)).
  - rewrite filter_cons_False by done. by rewrite (bool_decide_eq_false_2 _ Hc).
Qed.

(** A cart without a row for a product has no line for it. *)
Lemma no_row_no_line (cartId productId : string) (l : list CartItem) :
  List.find (λ i, bool_decide (ci_cartId i = cartId)
                  && bool_decide (ci_productId i = productId)) l = None →
  ∀ ln, ln ∈ line_of <$> filter (λ i, ci_cartId i = cartId) l → ln.1 ≠ productId.
Proof.
  intros Hf ln. rewrite list_elem_of_fmap. intros (i & -> & Hi).
  apply list_elem_of_filter in Hi as [Hc Hi].
  pose proof (find_None_elem _ _ Hf i Hi) as Hm. cbn beta in Hm.
  rewrite (bool_decide_eq_true_2 _ Hc) in Hm. cbn in Hm.
  by apply bool_decide_eq_false in Hm.
Qed.


Lemma NoDup_fmap_filter {A B} (f : A → B) (P : A → Prop) `{!∀ x, Decision (P x)}
    (l : list A) :
  NoDup (f <$> l) → NoDup (f <$> filter P l).
Proof.
  induction l as [|a l IH]; [done|].
  rewrite fmap_cons, NoDup_cons. intros [Ha Hl].
  rewrite filter_cons. case_decide; [|by apply IH].
  rewrite fmap_cons, NoDup_cons. split; [|by apply IH].
  intros (x & Hx & [_ Hin]%list_elem_of_filter)%list_elem_of_fmap.
  apply Ha. rewrite Hx. by apply list_elem_of_fmap_2.
Qed.

Lemma filter_none {A} (P : A → Prop) `{!∀ x, Decision (P x)} (l : list A) :
  (∀ x, x ∈ l → ¬ P x) → filter P l = [].
Proof.
  induction l as [|a l IH]; intros Hall; [done|].
  rewrite filter_cons_False by (apply Hall; left).
  apply IH. intros x Hx. apply Hall. by right.
Qed.

Section CartStates.
Context {T : Type} {num : JsNum T} {ext : Externals}.

Lemma find_cart_elem (userId : string) (d : Db T) (c : Cart) :
  find_cart userId d = Some c → c ∈ carts d ∧ cart_userId c = userId.
Proof.
  intros [Hin Hu]%find_Some_elem. split; [done|]. by apply bool_decide_eq_true in Hu.
Qed.

(** The carts of two users have different identifiers. *)
Lemma carts_apart (d : Db T) (u v : string) (c c' : Cart) :
  NoDup (cart_id <$> carts d) →
  find_cart u d = Some c → find_cart v d = Some c' → u ≠ v →
  cart_id c ≠ cart_id c'.
Proof.
  intros Hnd [Hc Hu]%find_cart_elem [Hc' Hv]%find_cart_elem Hne Heq.
  apply Hne. rewrite <- Hu, <- Hv. f_equal. by eapply NoDup_fmap_eq.
Qed.

Lemma issued_fresh (d : Db T) (id : string) : issued d id → id ≠ gen_id (next_id d).
Proof. intros (n & Hn & ->) Heq. apply gen_id_inj in Heq. lia. Qed.

Lemma issued_later (d d' : Db T) (id : string) :
  (next_id d ≤ next_id d')%nat → issued d id → issued d' id.
Proof. intros Hle (n & Hn & ->). exists n. split; [lia|done]. Qed.

Lemma issued_next (d d' : Db T) :
  (next_id d < next_id d')%nat → issued d' (gen_id (next_id d)).
Proof. intros Hlt. by exists (next_id d). Qed.

(** No row belongs to a cart that does not exist yet. *)
Lemma fresh_cart_empty (d : Db T) :
  wf_carts d → filter (λ i, ci_cartId i = gen_id (next_id d)) (cartItems d) = [].
Proof.
  intros Hwf. apply filter_none. intros i Hi Hc.
  by apply (issued_fresh d (ci_cartId i)); [apply Hwf|].
Qed.

(** A database without carts is well formed. *)
Lemma wf_carts_no_carts (d : Db T) : carts d = [] → cartItems d = [] → wf_carts d.
Proof.
  intros Hc Hi. split; rewrite ?Hc, ?Hi; try apply NoDup_nil_2;
    by intros ? ?%elem_of_nil.
Qed.

(** *** The three writes of the add handler, and the delete *)

Lemma wf_after_update (d : Db T) (id : string) (i : CartItem) (q : Z) :
  wf_carts d → i ∈ cartItems d → ci_id i = id →
  wf_carts (with_cartItems (λ l, filter (λ i', ci_id i' ≠ id) l
                                 ++ [set_quantity q i]) d).
Proof.
  intros [Hc Hi Hci Hii Hic] Hin <-. split; cbn.
  - done.
  - rewrite fmap_app. apply NoDup_app. split; [by apply NoDup_fmap_filter|].
    split; [|apply NoDup_singleton].
    intros id (i0 & -> & [Hne _]%list_elem_of_filter)%list_elem_of_fmap
      Hid%list_elem_of_singleton.
    by apply Hne.
  - done.
  - intros i0 [[_ H0]%list_elem_of_filter| ->%list_elem_of_singleton]%elem_of_app;
      [by apply Hii|by apply (Hii i)].
  - intros i0 [[_ H0]%list_elem_of_filter| ->%list_elem_of_singleton]%elem_of_app;
      [by apply Hic|by apply (Hic i)].
Qed.

Lemma wf_after_insert (d : Db T) (cartId productId : string) (q : Z) :
  wf_carts d → issued d cartId →
  wf_carts (bump 1 (with_cartItems
                      (λ l, l ++ [{| ci_id := gen_id (next_id d); ci_cartId := cartId;
                                     ci_productId := productId; ci_quantity := q |}]) d)).
Proof.
  intros [Hc Hi Hci Hii Hic] Hcart.
  assert (∀ id, issued d id → issued (bump 1 (with_cartItems
            (λ l, l ++ [{| ci_id := gen_id (next_id d); ci_cartId := cartId;
                           ci_productId := productId; ci_quantity := q |}]) d)) id) as Hlater.
  { intros id. apply issued_later. cbn. lia. }
  split; cbn.
  - done.
  - rewrite fmap_snoc. apply NoDup_app. split; [done|]. split; [|apply NoDup_singleton].
    intros id (i & -> & Hin)%list_elem_of_fmap Hid%list_elem_of_singleton.
    by apply (issued_fresh d (ci_id i)); [apply Hii|].
  - intros c Hin. by apply Hlater, Hci.
  - intros i [Hin| ->%list_elem_of_singleton]%elem_of_app.
    + by apply Hlater, Hii.
    + exists (next_id d). cbn. split; [lia|done].
  - intros i [Hin| ->%list_elem_of_singleton]%elem_of_app.
    + by apply Hlater, Hic.
    + by apply Hlater.
Qed.

Lemma wf_after_cart (d : Db T) (userId : string) :
  wf_carts d →
  wf_carts (bump 1 (with_carts
                      (λ l, l ++ [{| cart_id := gen_id (next_id d);
                                     cart_userId := userId |}]) d)).
Proof.
  intros [Hc Hi Hci Hii Hic].
  assert (∀ id, issued d id → issued (bump 1 (with_carts
            (λ l, l ++ [{| cart_id := gen_id (next_id d);
                           cart_userId := userId |}]) d)) id) as Hlater.
  { intros id. apply issued_later. cbn. lia. }
  split; cbn.
  - rewrite fmap_snoc. apply NoDup_app. split; [done|]. split; [|apply NoDup_singleton].
    intros id (c & -> & Hin)%list_elem_of_fmap Hid%list_elem_of_singleton.
    by apply (issued_fresh d (cart_id c)); [apply Hci|].
  - done.
  - intros c [Hin| ->%list_elem_of_singleton]%elem_of_app.
    + by apply Hlater, Hci.
    + exists (next_id d). cbn. split; [lia|done].
  - intros i Hin. by apply Hlater, Hii.
  - intros i Hin. by apply Hlater, Hic.
Qed.

Lemma wf_after_delete (d : Db T) (P : CartItem → Prop) `{!∀ i, Decision (P i)} :
  wf_carts d → wf_carts (with_cartItems (filter P) d).
Proof.
  intros [Hc Hi Hci Hii Hic]. split; cbn.
  - done.
  - by apply NoDup_fmap_filter.
  - done.
  - intros i [_ Hin]%list_elem_of_filter. by apply Hii.
  - intros i [_ Hin]%list_elem_of_filter. by apply Hic.
Qed.

End CartStates.

Lemma other_after_delete (cartId cartId' productId : string) (l : list CartItem) :
  cartId ≠ cartId' →
  filter (λ i, ci_cartId i = cartId')
    (filter (λ i, ¬ (ci_cartId i = cartId ∧ ci_productId i = productId)) l)
  = filter (λ i, ci_cartId i = cartId') l.
Proof.
  intros Hne. induction l as [|i l IH]; [done|].
  destruct (decide (ci_cartId i = cartId')) as [Hi|Hi].
  - rewrite (filter_cons_True (λ i, ¬ _)) by (intros [? _]; congruence).
    rewrite !(filter_cons_True _ i) by done. by rewrite IH.
  - rewrite (filter_cons_False (λ i, ci_cartId i = cartId') i l) by done.
    rewrite (filter_cons (λ i, ¬ _)). case_decide; [|done].
    by rewrite filter_cons_False by done.
Qed.

Section CartSteps.
Context {T : Type} {num : JsNum T} {ext : Externals}.

Lemma lines_merge (userId : string) (d : Db T) (c : Cart) (e : CartItem)
    (productId : string) (q : Z) :
  wf_carts d →
  find_cart userId d = Some c →
  List.find (λ i, bool_decide (ci_cartId i = cart_id c)
                  && bool_decide (ci_productId i = productId)) (cartItems d) = Some e →
  lines_of userId (with_cartItems
                     (λ l, filter (λ i, ci_id i ≠ ci_id e) l
                           ++ [set_quantity (ci_quantity e + q) e]) d)
  ≡ₚ cart_add productId q (lines_of userId d).
Proof.
  intros Hwf Hc He. unfold lines_of.
  change (find_cart userId (with_cartItems _ d)) with (find_cart userId d).
  rewrite Hc. unfold items_of. cbn.
  apply lines_after_update; [apply Hwf|done].
Qed.

Lemma lines_merge_other (userId v : string) (d : Db T) (c : Cart) (e : CartItem)
    (productId : string) (q : Z) :
  wf_carts d →
  find_cart userId d = Some c →
  List.find (λ i, bool_decide (ci_cartId i = cart_id c)
                  && bool_decide (ci_productId i = productId)) (cartItems d) = Some e →
  userId ≠ v →
  lines_of v (with_cartItems
                (λ l, filter (λ i, ci_id i ≠ ci_id e) l
                      ++ [set_quantity (ci_quantity e + q) e]) d)
  = lines_of v d.
Proof.
  intros Hwf Hc He Hv. unfold lines_of.
  change (find_cart v (with_cartItems _ d)) with (find_cart v d).
  destruct (find_cart v d) as [c'|] eqn:Hc'; [|done].
  unfold items_of. cbn. f_equal.
  pose proof (find_Some_elem _ _ _ He) as [Hin [Hec _]%andb_prop].
  apply bool_decide_eq_true in Hec.
  apply other_after_update; [apply Hwf|done| |done].
  rewrite Hec. by eapply carts_apart; [apply Hwf|..].
Qed.

Lemma lines_insert (userId v : string) (d : Db T) (c : Cart) (productId : string) (q : Z) :
  wf_carts d →
  find_cart userId d = Some c →
  List.find (λ i, bool_decide (ci_cartId i = cart_id c)
                  && bool_decide (ci_productId i = productId)) (cartItems d) = None →
  lines_of v (bump 1 (with_cartItems
                        (λ l, l ++ [{| ci_id := gen_id (next_id d); ci_cartId := cart_id c;
                                       ci_productId := productId; ci_quantity := q |}]) d))
  = if decide (userId = v) then cart_add productId q (lines_of v d) else lines_of v d.
Proof.
  intros Hwf Hc He. unfold lines_of.
  change (find_cart v (bump 1 (with_cartItems _ d))) with (find_cart v d).
  case_decide as Hv.
  - subst v. rewrite Hc. unfold items_of. cbn.
    rewrite filter_app, filter_cons_True, filter_nil by done.
    rewrite fmap_app. cbn. symmetry. apply cart_add_fresh.
    by apply no_row_no_line.
  - destruct (find_cart v d) as [c'|] eqn:Hc'; [|done].
    unfold items_of. cbn. f_equal.
    rewrite filter_app, filter_cons_False, filter_nil, app_nil_r; [done|].
    cbn. by eapply carts_apart; [apply Hwf|..].
Qed.

Lemma find_cart_new (userId v : string) (d : Db T) :
  find_cart userId d = None →
  find_cart v (bump 1 (with_carts
                         (λ l, l ++ [{| cart_id := gen_id (next_id d);
                                        cart_userId := userId |}]) d))
  = if decide (userId = v)
    then Some {| cart_id := gen_id (next_id d); cart_userId := userId |}
    else find_cart v d.
Proof.
  intros Hnone. unfold find_cart in *. cbn. case_decide as Hv.
  - subst v. rewrite find_app_None by done. cbn. by rewrite bool_decide_eq_true_2.
  - destruct (List.find (λ c, bool_decide (cart_userId c = v)) (carts d))
      as [c'|] eqn:Hc'.
    + by apply find_app_Some.
    + rewrite find_app_None by done. cbn. by rewrite bool_decide_eq_false_2.
Qed.

Lemma lines_new_cart (userId v : string) (d : Db T) :
  wf_carts d →
  find_cart userId d = None →
  lines_of v (bump 1 (with_carts
                        (λ l, l ++ [{| cart_id := gen_id (next_id d);
                                       cart_userId := userId |}]) d))
  = lines_of v d.
Proof.
  intros Hwf Hnone. unfold lines_of. rewrite find_cart_new by done.
  case_decide as Hv; [|done]. subst v. rewrite Hnone.
  unfold items_of. cbn. by rewrite fresh_cart_empty.
Qed.

Lemma lines_delete (userId v : string) (d : Db T) (c : Cart) (productId : string) :
  wf_carts d →
  find_cart userId d = Some c →
  lines_of v (with_cartItems
                (filter (λ i, ¬ (ci_cartId i = cart_id c ∧ ci_productId i = productId))) d)
  = if decide (userId = v) then cart_remove productId (lines_of v d) else lines_of v d.
Proof.
  intros Hwf Hc. unfold lines_of.
  change (find_cart v (with_cartItems _ d)) with (find_cart v d).
  case_decide as Hv.
  - subst v. rewrite Hc. unfold items_of. cbn. apply lines_after_delete.
  - destruct (find_cart v d) as [c'|] eqn:Hc'; [|done].
    unfold items_of. cbn. f_equal. apply other_after_delete.
    by eapply carts_apart; [apply Hwf|..].
Qed.

End CartSteps.

Section CartCalls.
Context {T : Type} {num : JsNum T} {ext : Externals}.

Lemma admitted_lines (d : Db T) (c : Cart) (productId : string) (q : Z) :
  admitted d productId q (line_of <$> items_of (cart_id c) d)
  = match List.find (λ i, bool_decide (ci_cartId i = cart_id c)
                          && bool_decide (ci_productId i = productId)) (cartItems d) with
    | Some e => int_column (ci_quantity e + q)
    | None => bool_decide (is_Some (find_product productId d)) && int_column q
    end.
Proof.
  unfold admitted, items_of. rewrite find_line. by destruct (List.find _ (cartItems d)).
Qed.

(** An add that the store takes. *)
Lemma addToCart_step (user : Claims) (req : Request T) (w : World T)
    (productId : string) (q : Z) :
  wf_carts (db w) → quiet w →
  cartSchema (req_body req) = Ok (productId, q) →
  is_Some (find_user (claims_id user) (db w)) →
  admitted (db w) productId q (lines_of (claims_id user) (db w)) = true →
  (addToCart user req w).1 = json (MessageBody "Added to cart")
  ∧ wf_carts (db (addToCart user req w).2)
  ∧ quiet (addToCart user req w).2
  ∧ products (db (addToCart user req w).2) = products (db w)
  ∧ users (db (addToCart user req w).2) = users (db w)
  ∧ is_Some (find_cart (claims_id user) (db (addToCart user req w).2))
  ∧ (∀ c, find_cart (claims_id user) (db w) = Some c →
          carts (db (addToCart user req w).2) = carts (db w))
  ∧ lines_of (claims_id user) (db (addToCart user req w).2)
    ≡ₚ cart_add productId q (lines_of (claims_id user) (db w))
  ∧ ∀ v, claims_id user ≠ v →
         lines_of v (db (addToCart user req w).2) = lines_of v (db w).
Proof.
  intros Hwf Hq Hs [u Hu] Had.
  destruct (addToCart user req w) as [r w'] eqn:Hrun. cbn [fst snd].
  unfold addToCart, try_catch, bind, lift in Hrun. rewrite Hs in Hrun.
  perform_in Hrun. cbn [cart_findUnique fst snd] in Hrun.
  destruct (find_cart (claims_id user) (db w)) as [c|] eqn:Hc.
  - assert (lines_of (claims_id user) (db w)
            = line_of <$> items_of (cart_id c) (db w)) as Hlines
      by (unfold lines_of; by rewrite Hc).
    rewrite Hlines, admitted_lines in Had.
    unfold ret at 1 in Hrun.
    perform_in Hrun.
    cbn [cartItem_findFirst fst snd db advance] in Hrun.
    destruct (List.find _ (cartItems (db w))) as [e|] eqn:He.
    + perform_in Hrun.
      unfold cartItem_update in Hrun. cbn [db advance] in Hrun.
      pose proof (find_Some_elem _ _ _ He) as [Hin _].
      rewrite (find_NoDup ci_id) in Hrun by (done || apply Hwf).
      rewrite Had in Hrun.
      cbn [fst snd ret] in Hrun. injection Hrun as <- <-. cbn [db advance].
      split; [done|]. split; [by apply wf_after_update|].
      split; [eauto 10 with store|]. split; [done|]. split; [done|].
      split; [change (is_Some (find_cart (claims_id user) (db w))); by rewrite Hc|].
      split; [done|]. split; [by eapply lines_merge|].
      intros v Hv. by eapply lines_merge_other.
    + apply andb_prop in Had as [[p Hp]%bool_decide_eq_true Hint].
      perform_in Hrun.
      unfold cartItem_create in Hrun. cbn [db advance] in Hrun.
      rewrite Hp, Hint in Hrun.
      cbn [fst snd ret] in Hrun. injection Hrun as <- <-. cbn [db advance].
      assert (issued (db w) (cart_id c)) as Hic.
      { apply Hwf. by apply find_cart_elem in Hc as [? _]. }
      split; [done|]. split; [by apply wf_after_insert|].
      split; [eauto 10 with store|]. split; [done|]. split; [done|].
      split; [change (is_Some (find_cart (claims_id user) (db w))); by rewrite Hc|].
      split; [done|].
      pose proof (lines_insert (claims_id user) (claims_id user) (db w) c productId q
                    Hwf Hc He) as Hl.
      rewrite decide_True in Hl by done. split; [by rewrite Hl|].
      intros v Hv.
      pose proof (lines_insert (claims_id user) v (db w) c productId q Hwf Hc He) as Hl'.
      by rewrite decide_False in Hl' by done.
  - assert (lines_of (claims_id user) (db w) = []) as Hlines
      by (unfold lines_of; by rewrite Hc).
    rewrite Hlines in Had. unfold admitted in Had. cbn [List.find] in Had.
    apply andb_prop in Had as [[p Hp]%bool_decide_eq_true Hint].
    perform_in Hrun.
    unfold cart_create in Hrun. cbn [db advance] in Hrun. rewrite Hu, Hc in Hrun.
    cbn [fst snd] in Hrun.
    set (c := {| cart_id := gen_id (next_id (db w)); cart_userId := claims_id user |}) in *.
    set (d1 := bump 1 (with_carts (λ cs, cs ++ [c]) (db w))) in *.
    assert (wf_carts d1) as Hwf1 by (by apply wf_after_cart).
    assert (find_cart (claims_id user) d1 = Some c) as Hc1.
    { unfold d1, c. rewrite find_cart_new by done. by rewrite decide_True. }
    perform_in Hrun.
    cbn [cartItem_findFirst fst snd db advance] in Hrun.
    assert (List.find (λ i, bool_decide (ci_cartId i = cart_id c)
                            && bool_decide (ci_productId i = productId)) (cartItems d1)
            = None) as He.
    { destruct (List.find _ _) as [e|] eqn:He; [|done].
      apply find_Some_elem in He as [Hin [Hec _]%andb_prop].
      apply bool_decide_eq_true in Hec.
      destruct (issued_fresh (db w) (ci_cartId e)); [by apply Hwf|done]. }
    rewrite He in Hrun.
    perform_in Hrun.
    unfold cartItem_create in Hrun. cbn [db advance] in Hrun.
    change (find_product productId d1) with (find_product productId (db w)) in Hrun.
    rewrite Hp, Hint in Hrun.
    cbn [fst snd ret] in Hrun. injection Hrun as <- <-. cbn [db advance].
    split; [done|]. split.
    { apply (wf_after_insert d1 (cart_id c)); [done|]. apply issued_next. cbn. lia. }
    split; [eauto 10 with store|]. split; [done|]. split; [done|].
    split.
    { change (is_Some (find_cart (claims_id user) d1)). by rewrite Hc1. }
    split; [done|].
    pose proof (lines_insert (claims_id user) (claims_id user) d1 c productId q
                  Hwf1 Hc1 He) as Hl.
    rewrite decide_True in Hl by done.
    assert (∀ v, lines_of v d1 = lines_of v (db w)) as Hnew.
    { intros v. unfold d1, c. by rewrite lines_new_cart. }
    rewrite Hnew in Hl. split; [by rewrite <- Hl|].
    intros v Hv.
    pose proof (lines_insert (claims_id user) v d1 c productId q Hwf1 Hc1 He) as Hl'.
    rewrite decide_False in Hl' by done. by rewrite Hnew in Hl'.
Qed.

(** An add that the store does not take: the answer is 500 and the
    lines are as they were (the cart may have been created). *)
Lemma addToCart_refused (user : Claims) (req : Request T) (w : World T)
    (productId : string) (q : Z) :
  wf_carts (db w) → quiet w →
  cartSchema (req_body req) = Ok (productId, q) →
  admitted (db w) productId q (lines_of (claims_id user) (db w)) = false →
  (addToCart user req w).1 = respond 500 (ErrorBody "Failed to add to cart")
  ∧ wf_carts (db (addToCart user req w).2)
  ∧ quiet (addToCart user req w).2
  ∧ products (db (addToCart user req w).2) = products (db w)
  ∧ users (db (addToCart user req w).2) = users (db w)
  ∧ cartItems (db (addToCart user req w).2) = cartItems (db w)
  ∧ ∀ v, lines_of v (db (addToCart user req w).2) = lines_of v (db w).
Proof.
  intros Hwf Hq Hs Had.
  destruct (addToCart user req w) as [r w'] eqn:Hrun. cbn [fst snd].
  unfold addToCart, try_catch, bind, lift in Hrun. rewrite Hs in Hrun.
  perform_in Hrun. cbn [cart_findUnique fst snd] in Hrun.
  destruct (find_cart (claims_id user) (db w)) as [c|] eqn:Hc.
  - assert (lines_of (claims_id user) (db w)
            = line_of <$> items_of (cart_id c) (db w)) as Hlines
      by (unfold lines_of; by rewrite Hc).
    rewrite Hlines, admitted_lines in Had.
    unfold ret at 1 in Hrun.
    perform_in Hrun.
    cbn [cartItem_findFirst fst snd db advance] in Hrun.
    destruct (List.find _ (cartItems (db w))) as [e|] eqn:He.
    + perform_in Hrun.
      unfold cartItem_update in Hrun. cbn [db advance] in Hrun.
      pose proof (find_Some_elem _ _ _ He) as [Hin _].
      rewrite (find_NoDup ci_id) in Hrun by (done || apply Hwf).
      rewrite Had in Hrun.
      cbn [fst snd] in Hrun. injection Hrun as <- <-. cbn [db advance].
      split_and!; try done. eauto 10 with store.
    + perform_in Hrun.
      unfold cartItem_create in Hrun. cbn [db advance] in Hrun.
      assert (r = respond 500 (ErrorBody "Failed to add to cart")
              ∧ w' = advance (db w) (advance (db w) (advance (db w) w))) as [-> ->].
      { destruct (find_product productId (db w)) as [p|].
        - rewrite bool_decide_eq_true_2 in Had by done. cbn [andb] in Had.
          rewrite Had in Hrun. cbn [fst snd] in Hrun. by injection Hrun as <- <-.
        - cbn [fst snd] in Hrun. by injection Hrun as <- <-. }
      cbn [db advance]. split_and!; try done. eauto 10 with store.
  - assert (lines_of (claims_id user) (db w) = []) as Hlines
      by (unfold lines_of; by rewrite Hc).
    rewrite Hlines in Had. unfold admitted in Had. cbn [List.find] in Had.
    perform_in Hrun.
    unfold cart_create in Hrun. cbn [db advance] in Hrun. rewrite Hc in Hrun.
    destruct (find_user (claims_id user) (db w)) as [u|].
    2: { cbn [fst snd] in Hrun. injection Hrun as <- <-. cbn [db advance].
         split_and!; try done. eauto 10 with store. }
    cbn [fst snd] in Hrun.
    set (c := {| cart_id := gen_id (next_id (db w)); cart_userId := claims_id user |}) in *.
    set (d1 := bump 1 (with_carts (λ cs, cs ++ [c]) (db w))) in *.
    assert (wf_carts d1) as Hwf1 by (by apply wf_after_cart).
    perform_in Hrun.
    cbn [cartItem_findFirst fst snd db advance] in Hrun.
    assert (List.find (λ i, bool_decide (ci_cartId i = cart_id c)
                            && bool_decide (ci_productId i = productId)) (cartItems d1)
            = None) as He.
    { destruct (List.find _ _) as [e|] eqn:He; [|done].
      apply find_Some_elem in He as [Hin [Hec _]%andb_prop].
      apply bool_decide_eq_true in Hec.
      destruct (issued_fresh (db w) (ci_cartId e)); [by apply Hwf|done]. }
    rewrite He in Hrun.
    perform_in Hrun.
    unfold cartItem_create in Hrun. cbn [db advance] in Hrun.
    change (find_product productId d1) with (find_product productId (db w)) in Hrun.
    assert (r = respond 500 (ErrorBody "Failed to add to cart")
            ∧ w' = advance d1 (advance d1 (advance d1 (advance (db w) w)))) as [-> ->].
    { destruct (find_product productId (db w)) as [p|].
      - rewrite bool_decide_eq_true_2 in Had by done. cbn [andb] in Had.
        rewrite Had in Hrun. cbn [fst snd] in Hrun. by injection Hrun as <- <-.
      - cbn [fst snd] in Hrun. by injection Hrun as <- <-. }
    cbn [db advance]. split_and!; try done; [eauto 10 with store|].
    intros v. unfold d1, c. by rewrite lines_new_cart.
Qed.

Lemma cartSchema_throws (o : list (string * jvalue T)) (e : Exn) :
  cartSchema o = Throw e → ∃ issues, e = ZodError issues.
Proof.
  unfold cartSchema.
  destruct (zod_string (field "productId" o)); destruct (field "quantity" o) as [| | |x|];
    try (intros [= <-]; by eexists).
  all: destruct (num_to_int x) as [n|]; [case_bool_decide|]; try (intros [= <-]; by eexists).
Qed.

Lemma addToCart_invalid (user : Claims) (req : Request T) (w : World T) (e : Exn) :
  cartSchema (req_body req) = Throw e →
  status (addToCart user req w).1 = 400%nat ∧ (addToCart user req w).2 = w.
Proof.
  intros Hs. destruct (cartSchema_throws _ _ Hs) as [issues ->].
  unfold addToCart, try_catch, bind, lift. by rewrite Hs.
Qed.

Lemma removeFromCart_step (user : Claims) (req : Request T) (w : World T) :
  wf_carts (db w) → quiet w →
  wf_carts (db (removeFromCart user req w).2)
  ∧ quiet (removeFromCart user req w).2
  ∧ products (db (removeFromCart user req w).2) = products (db w)
  ∧ users (db (removeFromCart user req w).2) = users (db w)
  ∧ ∀ v, lines_of v (db (removeFromCart user req w).2)
         = if decide (claims_id user = v)
           then cart_remove (req_param req) (lines_of v (db w)) else lines_of v (db w).
Proof.
  intros Hwf Hq.
  destruct (removeFromCart user req w) as [r w'] eqn:Hrun. cbn [fst snd].
  unfold removeFromCart, try_catch, bind in Hrun.
  perform_in Hrun. cbn [cart_findUnique fst snd] in Hrun.
  destruct (find_cart (claims_id user) (db w)) as [c|] eqn:Hc.
  - perform_in Hrun.
    cbn [cartItem_deleteMany_product fst snd db advance ret] in Hrun.
    injection Hrun as <- <-. cbn [db advance].
    split; [by apply wf_after_delete|]. split; [eauto 10 with store|].
    split; [done|]. split; [done|]. intros v. by eapply lines_delete.
  - cbn [ret fst snd] in Hrun. injection Hrun as <- <-. cbn [db advance].
    split; [done|]. split; [eauto 10 with store|]. split; [done|]. split; [done|].
    intros v. case_decide as Hv; [|done]. subst v.
    unfold lines_of. by rewrite Hc.
Qed.

(** Each call does to every user's lines, up to their order, what the
    specification says, and keeps the carts well formed. *)
Lemma run_call_step (c : CartCall) (w : World T) :
  wf_carts (db w) → quiet w →
  is_Some (find_user (claims_id (caller c)) (db w)) →
  wf_carts (db (run_call c w).2)
  ∧ quiet (run_call c w).2
  ∧ products (db (run_call c w).2) = products (db w)
  ∧ users (db (run_call c w).2) = users (db w)
  ∧ ∀ v, lines_of v (db (run_call c w).2) ≡ₚ apply_call (db w) v (lines_of v (db w)) c.
Proof.
  intros Hwf Hq Hu. destruct c as [user req|user req]; cbn [run_call apply_call caller] in *.
  - destruct (cartSchema (req_body req)) as [[productId q]|e] eqn:Hs.
    + destruct (admitted (db w) productId q (lines_of (claims_id user) (db w))) eqn:Had.
      * destruct (addToCart_step user req w productId q Hwf Hq Hs Hu Had)
          as (_ & Hwf' & Hq' & Hp & Hus & _ & _ & Hl & Ho).
        split; [done|]. split; [done|]. split; [done|]. split; [done|].
        intros v. case_decide as Hv.
        -- subst v. by rewrite Had.
        -- by rewrite Ho.
      * destruct (addToCart_refused user req w productId q Hwf Hq Hs Had)
          as (_ & Hwf' & Hq' & Hp & Hus & _ & Hl).
        split; [done|]. split; [done|]. split; [done|]. split; [done|].
        intros v. rewrite Hl. case_decide as Hv; [|done]. subst v. by rewrite Had.
    + destruct (addToCart_invalid user req w e Hs) as [_ ->].
      split; [done|]. split; [done|]. split; [done|]. split; [done|].
      intros v. by case_decide.
  - destruct (removeFromCart_step user req w Hwf Hq) as (Hwf' & Hq' & Hp & Hus & Hl).
    split; [done|]. split; [done|]. split; [done|]. split; [done|].
    intros v. by rewrite Hl.
Qed.

(** The total the server computes for a cart is the total of its lines. *)
Lemma cart_total_lines (userId : string) (d : Db T) :
  cart_total userId d = lines_total d (lines_of userId d).
Proof.
  unfold cart_total, lines_total, lines_of, cart_findUnique_include. cbn [fst].
  destruct (find_cart userId d) as [c|]; [|done].
  pose proof (reduce_add_item d (items_of (cart_id c) d) (num_of_Z 0)) as Hr.
  destruct (mapM (amount d) (line_of <$> items_of (cart_id c) d)) as [amounts|];
    by rewrite Hr.
Qed.

End CartCalls.

(** ** Well-formed carts are an invariant of the server *)

Section Invariant.
Context {T : Type} {num : JsNum T} {ext : Externals}.

Lemma wf_carts_same (d d' : Db T) :
  carts d' = carts d → cartItems d' = cartItems d → (next_id d ≤ next_id d')%nat →
  wf_carts d → wf_carts d'.
Proof.
  intros Hc Hi Hn [H1 H2 H3 H4 H5].
  split; rewrite ?Hc, ?Hi; try done; intros x Hx; eapply issued_later; eauto.
Qed.

(** The next call of a handler, refused or performed. *)
Ltac call :=
  match goal with
  | |- context [prisma ?q ?w] =>
      let fs := fresh "fs" in
      destruct (prisma_cases q w) as [[fs ->]|[fs ->]]; cbn [fst snd db]
  end.

Ltac same Hwf := eapply wf_carts_same; [..|exact Hwf]; cbn; (done || lia).

Lemma register_keeps_wf (req : Request T) (w : World T) :
  wf_carts (db w) → wf_carts (db (register req w).2).
Proof.
  intros Hwf. unfold register, try_catch, bind, lift.
  destruct (registerSchema (req_body req)) as [[[email name] password]|e]; [|done].
  call; [done|].
  unfold user_create. destruct (find_user_by_email email (db w)); cbn; [done|].
  same Hwf.
Qed.

Lemma postMessage_keeps_wf (req : Request T) (w : World T) :
  wf_carts (db w) → wf_carts (db (postMessage req w).2).
Proof.
  intros Hwf. unfold postMessage, try_catch, bind, message_create.
  destruct (field "userId" (req_body req)), (field "content" (req_body req)); try done.
  call; [done|]. unfold message_insert. destruct (find_user _ _); cbn; [same Hwf|done].
Qed.

Lemma sendMessage_keeps_wf (io : Io) (data : list (string * jvalue T)) (w : World T) :
  wf_carts (db w) → wf_carts (db (sendMessage io data w).2).
Proof.
  intros Hwf. unfold sendMessage, try_catch, bind, message_create.
  destruct (field "userId" data), (field "content" data); try done.
  call; [done|]. unfold message_insert. destruct (find_user _ _); cbn; [|done].
  destruct (truthy _); cbn; same Hwf.
Qed.

Lemma makeAdmin_keeps_wf (req : Request T) (w : World T) :
  wf_carts (db w) → wf_carts (db (makeAdmin req w).2).
Proof.
  intros Hwf. unfold makeAdmin, try_catch, bind.
  call; [done|]. unfold user_update_isAdmin.
  destruct (find_user _ _); cbn; [same Hwf|done].
Qed.

Lemma updateProduct_keeps_wf (req : Request T) (w : World T) :
  wf_carts (db w) → wf_carts (db (updateProduct req w).2).
Proof.
  intros Hwf. unfold updateProduct, try_catch, bind, lift.
  destruct (productSchema (req_body req)) as [[[[name description] price] stock]|e];
    [|done].
  call; [done|]. unfold product_update.
  destruct (find_product _ _); cbn; [same Hwf|done].
Qed.

Lemma removeFromCart_keeps_wf (user : Claims) (req : Request T) (w : World T) :
  wf_carts (db w) → wf_carts (db (removeFromCart user req w).2).
Proof.
  intros Hwf. unfold removeFromCart, try_catch, bind.
  call; [done|]. cbn [cart_findUnique fst snd].
  destruct (find_cart _ _) as [c|]; [|done].
  call; [done|]. by apply wf_after_delete.
Qed.

Lemma createOrder_keeps_wf (user : Claims) (req : Request T) (w : World T) :
  wf_carts (db w) → wf_carts (db (createOrder user req w).2).
Proof.
  intros Hwf. unfold createOrder, try_catch, bind, lift.
  call; [done|]. cbn [cart_findUnique_include fst snd].
  destruct (find_cart _ _) as [c|]; [|done].
  case_bool_decide; [done|].
  destruct (reduce add_item _ _) as [total|e]; [|done].
  destruct (map_throwing item_data _) as [data|e]; [|done].
  call; [done|]. cbn [order_create fst snd].
  assert (wf_carts (bump (1 + length data)
            (with_orderItems
               (λ l, l ++ imap (new_item (gen_id (next_id (db w))) (next_id (db w) + 1)) data)
               (with_orders
                  (λ l, l ++ [{| order_id := gen_id (next_id (db w));
                                 order_userId := claims_id user; order_total := total;
                                 order_status := default_status |}]) (db w))))) as Hwf'
    by same Hwf.
  call; [done|]. by apply wf_after_delete.
Qed.

(** After the cart is known: look for the row, then update or insert. *)
Ltac merge_or_insert :=
  call; [done|]; cbn [cartItem_findFirst fst snd];
  destruct (List.find _ _) as [?e|];
  [ call; [done|]; unfold cartItem_update;
    let Hi := fresh "Hi" in
    destruct (List.find _ _) as [?i|] eqn:Hi; [|done];
    destruct (int_column _); cbn; [|done];
    apply find_Some_elem in Hi as [? ?%bool_decide_eq_true]; by apply wf_after_update
  | call; [done|]; unfold cartItem_create;
    destruct (find_product _ _); [|done];
    destruct (int_column _); cbn; [|done]; by apply wf_after_insert ].

Lemma addToCart_keeps_wf (user : Claims) (req : Request T) (w : World T) :
  wf_carts (db w) → wf_carts (db (addToCart user req w).2).
Proof.
  intros Hwf. unfold addToCart, try_catch, bind, lift.
  destruct (cartSchema (req_body req)) as [[productId q]|e] eqn:Hs.
  2: { by destruct (cartSchema_throws _ _ Hs) as [issues ->]. }
  call; [done|]. cbn [cart_findUnique fst snd].
  destruct (find_cart (claims_id user) (db w)) as [c|] eqn:Hc.
  - assert (issued (db w) (cart_id c)) as Hic.
    { apply Hwf. by apply find_cart_elem in Hc as [? _]. }
    unfold ret at 1. merge_or_insert.
  - call; [done|]. unfold cart_create. rewrite Hc.
    destruct (find_user _ _); [|done]. cbn [fst snd].
    set (c := {| cart_id := gen_id (next_id (db w)); cart_userId := claims_id user |}).
    set (d1 := bump 1 (with_carts (λ cs, cs ++ [c]) (db w))).
    assert (wf_carts d1) as Hwf1 by (by apply wf_after_cart).
    assert (issued d1 (cart_id c)) as Hic by (apply issued_next; cbn; lia).
    merge_or_insert.
Qed.

(** Every route keeps the carts well formed, whatever the store refuses. *)
Lemma routes_keep_wf (req : Request T) (w : World T) :
  wf_carts (db w) →
  wf_carts (db (POST_auth_register req w).2)
  ∧ wf_carts (db (POST_cart req w).2)
  ∧ wf_carts (db (DELETE_cart req w).2)
  ∧ wf_carts (db (POST_orders req w).2)
  ∧ wf_carts (db (POST_messages req w).2)
  ∧ wf_carts (db (PUT_admin_products req w).2)
  ∧ wf_carts (db (POST_admin_make_admin req w).2).
Proof.
  intros Hwf.
  unfold POST_auth_register, POST_cart, DELETE_cart, POST_orders, POST_messages,
    PUT_admin_products, POST_admin_make_admin, authenticateToken.
  split; [by apply register_keeps_wf|].
  destruct (bearer_token req) as [token|];
    [destruct (jwt_verify token) as [user|]|]; cbn;
    split_and!; auto using addToCart_keeps_wf, removeFromCart_keeps_wf,
      createOrder_keeps_wf, postMessage_keeps_wf, makeAdmin_keeps_wf.
  unfold requireAdmin. call; [done|]. cbn [user_findUnique fst snd].
  destruct (find_user _ _) as [u|]; [|done].
  destruct (user_isAdmin u); [|done]. by apply updateProduct_keeps_wf.
Qed.

End Invariant.

(** ** The sample database *)

Lemma wf_carts_sample : wf_carts Sample.shop.
Proof.
  split; cbn.
  - apply NoDup_singleton.
  - apply NoDup_cons. split; [|apply NoDup_singleton].
    by intros ?%list_elem_of_singleton.
  - intros c ->%list_elem_of_singleton. exists 5%nat. split; [cbn; lia|reflexivity].
  - intros i [->|[->|[]%elem_of_nil]%elem_of_cons]%elem_of_cons.
    + exists 6%nat. split; [cbn; lia|reflexivity].
    + exists 7%nat. split; [cbn; lia|reflexivity].
  - intros i [->|[->|[]%elem_of_nil]%elem_of_cons]%elem_of_cons;
      exists 5%nat; (split; [cbn; lia|reflexivity]).
Qed.

(** * The rest of the server *)

(** ** Tokens that are accepted *)

Lemma split_go_word (cur word rest : string) :
  spaceless word = true →
  split_go " " cur (word +:+ " " +:+ rest) = (cur +:+ word) :: split_go " " "" rest.
Proof.
  revert cur. induction word as [|c word IH]; intros cur Hw.
  - cbn. by rewrite string_app_empty.
  - cbn in Hw. apply andb_prop in Hw as [Hc Hw].
    change (String c word +:+ " " +:+ rest) with (String c (word +:+ " " +:+ rest)).
    cbn [split_go]. case_bool_decide; [done|].
    rewrite IH by done. by rewrite string_app_assoc.
Qed.

Section Accepting.
Context {T : Type} {num : JsNum T} {ext : Externals}.

Lemma bearer_token_any_scheme (req : Request T) (scheme token : string) :
  req_authorization req = Some (scheme +:+ " " +:+ token) →
  spaceless scheme = true → spaceless token = true →
  bearer_token req = nonempty token.
Proof.
  intros Hh Hs Ht. unfold bearer_token. rewrite Hh. cbn [mbind option_bind].
  assert (nonempty (scheme +:+ " " +:+ token) = Some (scheme +:+ " " +:+ token)) as ->.
  { unfold nonempty. rewrite bool_decide_eq_false_2; [done|]. by destruct scheme. }
  cbn [mbind option_bind]. unfold split. rewrite split_go_word by done.
  cbn [lookup list_lookup]. by rewrite split_go_spaceless.
Qed.

(** X1: the middleware looks at the second word of the Authorization
    header only.  Whatever the first word is (Bearer, Basic, or nothing at
    all), a second word that verifies lets the request through to the
    handler, which runs with the payload of the token. *)
Theorem authenticateToken_accepts (req : Request T) (next : Claims → Handler T)
    (w : World T) (scheme token : string) (user : Claims) :
  req_authorization req = Some (scheme +:+ " " +:+ token) →
  spaceless scheme = true → spaceless token = true → token ≠ "" →
  jwt_verify token = Some user →
  authenticateToken req next w = next user w.
Proof.
  intros Hh Hs Ht Hne Hv. unfold authenticateToken.
  rewrite (bearer_token_any_scheme req scheme token) by done.
  unfold nonempty. rewrite bool_decide_eq_false_2 by done. by rewrite Hv.
Qed.

End Accepting.

(** A header [Basic <token>] is as good as [Bearer <token>]. *)
Lemma authenticateToken_accepts_witness :
  let req := Sample.request (Some "Basic 0|alice@example.com|0") "" [] in
  POST_orders req Sample.calm
  = createOrder (Sample.claims_of Sample.alice) req Sample.calm.
Proof.
  intros req. unfold POST_orders.
  apply (authenticateToken_accepts req (λ user, createOrder user req) Sample.calm
           "Basic" "0|alice@example.com|0" (Sample.claims_of Sample.alice));
    reflexivity || discriminate.
Defined.

(** ** Requests that do not pass validation *)

Section Validation.
Context {T : Type} {num : JsNum T} {ext : Externals} {bc : Bcrypt}.

Lemma registerSchema_throws (o : list (string * jvalue T)) (e : Exn) :
  registerSchema o = Throw e → ∃ issues, e = ZodError issues.
Proof.
  unfold registerSchema.
  repeat match goal with
         | |- context [match ?x with _ => _ end] => destruct x
         end; intros [= <-]; by eexists.
Qed.

Lemma loginSchema_throws (o : list (string * jvalue T)) (e : Exn) :
  loginSchema o = Throw e → ∃ issues, e = ZodError issues.
Proof.
  unfold loginSchema.
  repeat match goal with
         | |- context [match ?x with _ => _ end] => destruct x
         end; intros [= <-]; by eexists.
Qed.

Lemma productSchema_throws (o : list (string * jvalue T)) (e : Exn) :
  productSchema o = Throw e → ∃ issues, e = ZodError issues.
Proof.
  unfold productSchema.
  repeat match goal with
         | |- context [match ?x with _ => _ end] => destruct x
         end; intros [= <-]; by eexists.
Qed.

(** X2: a body that its schema rejects is answered 400 and nothing is
    written.  On the routes for registration, login and creating a
    product, and on the route for adding to the cart once the token is
    accepted, this happens before anything else: the store is not called
    (the schedule of the world is as it was).  The route for updating a
    product looks the bearer up first: for an admin, and a store that
    performs the lookup, the answer is then 400, after that one call. *)
Theorem invalid_body_stops (req : Request T) (w : World T) :
  ((∃ e, registerSchema (req_body req) = Throw e) →
     status (POST_auth_register req w).1 = 400%nat ∧ (POST_auth_register req w).2 = w)
  ∧ ((∃ e, loginSchema (req_body req) = Throw e) →
     reply_status (POST_auth_login req w).1 = 400%nat ∧ (POST_auth_login req w).2 = w)
  ∧ ((∃ e, cartSchema (req_body req) = Throw e) →
     (∃ token user, bearer_token req = Some token ∧ jwt_verify token = Some user) →
     status (POST_cart req w).1 = 400%nat ∧ (POST_cart req w).2 = w)
  ∧ ((∃ e, productSchema (req_body req) = Throw e) →
     status (POST_products req w).1 = 400%nat ∧ (POST_products req w).2 = w)
  ∧ ((∃ e, productSchema (req_body req) = Throw e) →
     (∃ token bearer admin,
        bearer_token req = Some token ∧ jwt_verify token = Some bearer
        ∧ find_user (claims_id bearer) (db w) = Some admin ∧ user_isAdmin admin = true) →
     quiet w →
     status (PUT_admin_products req w).1 = 400%nat
     ∧ (PUT_admin_products req w).2 = advance (db w) w).
Proof.
  split_and!.
  - intros [e He]. destruct (registerSchema_throws _ _ He) as [issues ->].
    unfold POST_auth_register, register, try_catch, bind, lift. by rewrite He.
  - intros [e He]. destruct (loginSchema_throws _ _ He) as [issues ->].
    unfold POST_auth_login, login, try_catch, bind, lift. by rewrite He.
  - intros [e He] (token & user & Hb & Hv).
    unfold POST_cart, authenticateToken. rewrite Hb, Hv.
    exact (addToCart_invalid user req w e He).
  - intros [e He]. destruct (productSchema_throws _ _ He) as [issues ->].
    unfold POST_products, createProduct, try_catch, bind, lift. by rewrite He.
  - intros [e He] (token & bearer & admin & Hb & Hv & Hu & Ha) Hq.
    destruct (productSchema_throws _ _ He) as [issues ->].
    unfold PUT_admin_products, authenticateToken. rewrite Hb, Hv.
    unfold requireAdmin. perform. cbn [user_findUnique fst snd]. rewrite Hu, Ha.
    unfold updateProduct, try_catch, bind, lift. by rewrite He.
Qed.

End Validation.

(** A quantity of zero, a short password, a negative price. *)
Lemma invalid_body_stops_witness :
  let zero := Sample.request (Sample.bearer Sample.alice) ""
                [("productId", JStr "3"); ("quantity", JNum 0)] in
  let short := Sample.request None ""
                 [("email", JStr "dave@example.com"); ("name", JStr "Dave");
                  ("password", JStr "12345")] in
  let negative := Sample.request (Sample.bearer Sample.carol) "3"
                    [("name", JStr "Widget"); ("price", JNum (-1)); ("stock", JNum 7)] in
  POST_cart zero Sample.flaky = (respond 400 (InvalidInput ["quantity"]), Sample.flaky)
  ∧ (POST_auth_register short Sample.flaky).2 = Sample.flaky
  ∧ status (PUT_admin_products negative Sample.calm).1 = 400%nat.
Proof.
  intros zero short negative.
  destruct (invalid_body_stops zero Sample.flaky) as (_ & _ & Hc & _).
  destruct (invalid_body_stops short Sample.flaky) as (Hr & _).
  destruct (invalid_body_stops negative Sample.calm) as (_ & _ & _ & _ & Hp).
  split; [|split].
  - destruct Hc as [_ Hw]; [by eexists|by eexists _, _|].
    destruct (POST_cart zero Sample.flaky) as [r w'] eqn:Hrun. cbn in Hw. subst w'.
    f_equal. vm_compute in Hrun. by injection Hrun as <-.
  - apply Hr. by eexists.
  - apply Hp; [by eexists|by eexists _, _, Sample.carol|constructor].
Defined.

(** ** Routes that only read *)

(** The next call of a handler, refused or performed. *)
Ltac store_call :=
  match goal with
  | |- context [prisma ?q ?w] =>
      let fs := fresh "fs" in
      destruct (prisma_cases q w) as [[fs ->]|[fs ->]]; cbn [fst snd db]
  end.

Section Reading.
Context {T : Type} {num : JsNum T} {ext : Externals} {bc : Bcrypt}
  {status : StatusColumn} {un : Unordered}.

Lemma authenticateToken_json_db {A} (req : Request T) (next : Claims → JsonHandler T A)
    (w : World T) :
  (∀ user w, db (next user w).2 = db w) →
  db (authenticateToken_json req next w).2 = db w.
Proof.
  intros Hn. unfold authenticateToken_json.
  destruct (bearer_token req) as [token|]; [|done].
  destruct (jwt_verify token); [apply Hn|done].
Qed.

Lemma requireAdmin_json_db {A} (user : Claims) (next : JsonHandler T A) (w : World T) :
  (∀ w, db (next w).2 = db w) →
  db (requireAdmin_json user next w).2 = db w.
Proof.
  intros Hn. unfold requireAdmin_json. store_call; [done|].
  cbn [user_findUnique fst snd]. destruct (find_user _ _) as [u|]; [|done].
  destruct (user_isAdmin u); [|done]. by rewrite Hn.
Qed.

Lemma login_db (req : Request T) (w : World T) : db (login req w).2 = db w.
Proof.
  unfold login, try_catch, bind, lift.
  destruct (loginSchema (req_body req)) as [[email password]|e]; [|done].
  store_call; [done|]. cbn [user_findUnique_email fst snd].
  destruct (find_user_by_email email (db w)) as [u|]; [|done].
  by destruct (_ || _).
Qed.

Lemma adminStats_db (req : Request T) (w : World T) : db (adminStats req w).2 = db w.
Proof.
  unfold adminStats, try_catch, bind.
  store_call; [done|]. store_call; [done|]. store_call; [done|]. by store_call.
Qed.

(** X3: login and the seven GET routes never write: whatever the request
    and whatever the store does, the database after is the database
    before.  In particular looking at a cart does not create one. *)
Theorem reads_change_nothing (req : Request T) (w : World T) :
  db (POST_auth_login req w).2 = db w
  ∧ db (GET_products req w).2 = db w
  ∧ db (GET_cart req w).2 = db w
  ∧ db (GET_orders req w).2 = db w
  ∧ db (GET_messages req w).2 = db w
  ∧ db (GET_admin_users req w).2 = db w
  ∧ db (GET_admin_orders req w).2 = db w
  ∧ db (GET_admin_stats req w).2 = db w.
Proof.
  split_and!.
  - apply login_db.
  - unfold GET_products, getProducts, try_catch, bind. by store_call.
  - apply authenticateToken_json_db. intros user w0.
    unfold getCart, try_catch, bind. by store_call.
  - apply authenticateToken_json_db. intros user w0.
    unfold getOrders, try_catch, bind. by store_call.
  - unfold GET_messages, getMessages, try_catch, bind. by store_call.
  - apply authenticateToken_json_db. intros user w0. apply requireAdmin_json_db.
    intros w1. unfold adminUsers, try_catch, bind. by store_call.
  - apply authenticateToken_json_db. intros user w0. apply requireAdmin_json_db.
    intros w1. unfold adminOrders, try_catch, bind. by store_call.
  - apply authenticateToken_json_db. intros user w0. apply requireAdmin_json_db.
    intros w1. apply adminStats_db.
Qed.

End Reading.

(** ** The admin gate *)

Section AdminGate.
Context {T : Type} {num : JsNum T} {ext : Externals} {bc : Bcrypt}
  {status : StatusColumn} {un : Unordered}.

Lemma requireAdmin_refuses (user : Claims) (next : Handler T) (w : World T) :
  quiet w →
  user_isAdmin <$> find_user (claims_id user) (db w) ≠ Some true →
  requireAdmin user next w
  = (respond 403 (ErrorBody "Admin access required"), advance (db w) w).
Proof.
  intros Hq Hu. unfold requireAdmin. perform. cbn [user_findUnique fst snd].
  destruct (find_user _ _) as [u|]; [|done]. cbn in Hu.
  destruct (user_isAdmin u); [done|done].
Qed.

Lemma requireAdmin_json_refuses {A} (user : Claims) (next : JsonHandler T A)
    (w : World T) :
  quiet w →
  user_isAdmin <$> find_user (claims_id user) (db w) ≠ Some true →
  requireAdmin_json user next w
  = (Plain (respond 403 (ErrorBody "Admin access required")), advance (db w) w).
Proof.
  intros Hq Hu. unfold requireAdmin_json. perform. cbn [user_findUnique fst snd].
  destruct (find_user _ _) as [u|]; [|done]. cbn in Hu.
  destruct (user_isAdmin u); [done|done].
Qed.

(** X4: the six admin routes look the bearer of the token up on every
    request.  A bearer whose row has no admin flag, or who has no row at
    all, is answered 403 'Admin access required' by each of them, the
    handler is not run and nothing is written. *)
Theorem admin_routes_refuse (req : Request T) (w : World T) (token : string)
    (bearer : Claims) :
  bearer_token req = Some token →
  jwt_verify token = Some bearer →
  user_isAdmin <$> find_user (claims_id bearer) (db w) ≠ Some true →
  quiet w →
  let refused := respond 403 (ErrorBody "Admin access required") in
  GET_admin_users req w = (Plain refused, advance (db w) w)
  ∧ GET_admin_orders req w = (Plain refused, advance (db w) w)
  ∧ PUT_admin_orders_status req w = (Plain refused, advance (db w) w)
  ∧ PUT_admin_products req w = (refused, advance (db w) w)
  ∧ DELETE_admin_products req w = (refused, advance (db w) w)
  ∧ GET_admin_stats req w = (Plain refused, advance (db w) w).
Proof.
  intros Hb Hv Hu Hq refused.
  unfold GET_admin_users, GET_admin_orders, PUT_admin_orders_status,
    PUT_admin_products, DELETE_admin_products, GET_admin_stats,
    authenticateToken, authenticateToken_json.
  rewrite Hb, Hv.
  split_and!; by (apply requireAdmin_json_refuses || apply requireAdmin_refuses).
Qed.

End AdminGate.

(** Alice is no admin, and a token for a user that the store does not
    know is no better. *)
Lemma admin_routes_refuse_witness :
  let delete := Sample.request (Sample.bearer Sample.alice) "3" [] in
  let ghost := Sample.request (Some "Bearer 99|ghost@example.com|0") "3" [] in
  DELETE_admin_products delete Sample.calm
  = (respond 403 (ErrorBody "Admin access required"), Sample.calm)
  ∧ DELETE_admin_products ghost Sample.calm
    = (respond 403 (ErrorBody "Admin access required"), Sample.calm).
Proof.
  intros delete ghost. split.
  - destruct (admin_routes_refuse delete Sample.calm "0|alice@example.com|0"
                (Sample.claims_of Sample.alice)) as (_ & _ & _ & _ & Hd & _);
      [reflexivity|reflexivity|discriminate|constructor|exact Hd].
  - destruct (admin_routes_refuse ghost Sample.calm "99|ghost@example.com|0"
                {| claims_id := "99"; claims_email := "ghost@example.com" |})
      as (_ & _ & _ & _ & Hd & _);
      [reflexivity|reflexivity|discriminate|constructor|exact Hd].
Defined.

(** ** Logging in *)

Section Login.
Context {T : Type} {num : JsNum T} {ext : Externals} {bc : Bcrypt}.

Lemma zod_string_min_Some (n : nat) (v : jvalue T) (s : string) :
  zod_string_min n v = Some s → v = JStr s ∧ (n ≤ String.length s)%nat.
Proof.
  unfold zod_string_min. destruct v as [| | | |s']; try done.
  destruct (Nat.leb_spec n (String.length s')); [|done]. by intros [= ->].
Qed.

Lemma registerSchema_Ok (o : list (string * jvalue T)) (email name password : string) :
  registerSchema o = Ok (email, name, password) →
  field "email" o = JStr email ∧ zod_email email = true
  ∧ field "name" o = JStr name ∧ (1 ≤ String.length name)%nat
  ∧ field "password" o = JStr password ∧ (6 ≤ String.length password)%nat.
Proof.
  unfold registerSchema.
  destruct (field "email" o) as [| | | |e]; try (by repeat case_match).
  destruct (zod_email e) eqn:He; [|by repeat case_match].
  destruct (zod_string_min 1 (field "name" o)) as [n|] eqn:Hn; [|done].
  destruct (zod_string_min 6 (field "password" o)) as [p|] eqn:Hp; [|done].
  intros [= -> -> ->].
  apply zod_string_min_Some in Hn as [-> ?], Hp as [-> ?]. done.
Qed.

Lemma loginSchema_accepts (o : list (string * jvalue T)) (email password : string) :
  field "email" o = JStr email → zod_email email = true →
  field "password" o = JStr password → (1 ≤ String.length password)%nat →
  loginSchema o = Ok (email, password).
Proof.
  intros He Hz Hp Hl. unfold loginSchema, zod_string_min. rewrite He, Hz, Hp.
  by destruct (Nat.leb_spec 1 (String.length password)); [|lia].
Qed.

(** What login answers, for a store that performs the lookup. *)
Lemma login_run (req : Request T) (w : World T) (email password : string) :
  loginSchema (req_body req) = Ok (email, password) →
  quiet w →
  login req w
  = (match find_user_by_email email (db w) with
     | Some u =>
         if bool_decide (user_password u = "")
            || negb (bcrypt_compare password (user_password u))
         then Plain (respond 401 (ErrorBody "Invalid credentials"))
         else Json {| login_id := user_id u; login_email := user_email u;
                      login_name := user_name u; login_isAdmin := user_isAdmin u;
                      login_token := jwt_sign (req_time req)
                                       {| claims_id := user_id u;
                                          claims_email := user_email u |} |}
     | None => Plain (respond 401 (ErrorBody "Invalid credentials"))
     end, advance (db w) w).
Proof.
  intros Hs Hq. unfold login, try_catch, bind, lift. rewrite Hs.
  perform. cbn [user_findUnique_email fst snd].
  destruct (find_user_by_email email (db w)) as [u|]; [|done].
  by destruct (_ || _).
Qed.

(** X5: a login for an email that no user has and a login with a
    password that bcrypt does not accept are answered alike, 401
    'Invalid credentials'; so is a login for a user whose stored hash is
    empty, whatever bcrypt says. *)
Theorem login_rejects (req : Request T) (w : World T) (email password : string) :
  loginSchema (req_body req) = Ok (email, password) →
  quiet w →
  (find_user_by_email email (db w) = None
   ∨ ∃ u, find_user_by_email email (db w) = Some u
          ∧ (user_password u = "" ∨ bcrypt_compare password (user_password u) = false)) →
  POST_auth_login req w
  = (Plain (respond 401 (ErrorBody "Invalid credentials")), advance (db w) w).
Proof.
  intros Hs Hq Hu. unfold POST_auth_login. rewrite (login_run req w email password) by done.
  destruct Hu as [->|(u & -> & [Hp|Hc])]; [done| |].
  - by rewrite bool_decide_eq_true_2.
  - rewrite Hc. by rewrite orb_true_r.
Qed.

(** X6: registration and login fit together.  After a registration that
    went through, a login with the same email and password succeeds, for
    a bcrypt that accepts the hash it made: it answers with the same
    identifier and name as the registration, with the admin flag a new
    user has, and with a token signed over the same identifier and email
    in the second of the login (so the two tokens are the same text only
    when the library gives the same for the two seconds). *)
Theorem register_then_login (reg log : Request T) (w : World T)
    (email name password : string) :
  registerSchema (req_body reg) = Ok (email, name, password) →
  find_user_by_email email (db w) = None →
  field "email" (req_body log) = JStr email →
  field "password" (req_body log) = JStr password →
  bcrypt_hash password ≠ "" →
  bcrypt_compare password (bcrypt_hash password) = true →
  quiet w →
  let id := gen_id (next_id (db w)) in
  let bearer := {| claims_id := id; claims_email := email |} in
  (POST_auth_register reg w).1
  = json (AuthBody id email (Some name) (jwt_sign (req_time reg) bearer))
  ∧ (POST_auth_login log (POST_auth_register reg w).2).1
    = Json {| login_id := id; login_email := email; login_name := Some name;
              login_isAdmin := default_isAdmin;
              login_token := jwt_sign (req_time log) bearer |}.
Proof.
  intros Hr Hfresh He Hp Hhash Hcmp Hq id bearer.
  destruct (registerSchema_Ok _ _ _ _ Hr) as (_ & Hz & _ & _ & _ & Hlen).
  assert (POST_auth_register reg w
          = (json (AuthBody id email (Some name) (jwt_sign (req_time reg) bearer)),
             advance (bump 1 (with_users
                        (λ us, us ++ [{| user_id := id; user_email := email;
                                         user_name := Some name;
                                         user_password := bcrypt_hash password;
                                         user_isAdmin := default_isAdmin |}]) (db w))) w))
    as ->.
  { unfold POST_auth_register, register, try_catch, bind, lift. rewrite Hr.
    perform. unfold user_create. by rewrite Hfresh. }
  split; [done|]. cbn [fst snd]. unfold POST_auth_login.
  rewrite (login_run log _ email password);
    [|apply loginSchema_accepts; (done || lia)|eauto with store].
  cbn [fst db advance]. unfold find_user_by_email in *. cbn [users bump with_users].
  rewrite find_app_None by done. cbn. rewrite bool_decide_eq_true_2 by done.
  cbn. rewrite bool_decide_eq_false_2 by done. by rewrite Hcmp.
Qed.

End Login.

(** Dave registers and, five seconds later, logs in: the token is
    another one.  A wrong password and an unknown email get the same
    answer. *)
Lemma register_then_login_witness :
  let reg := Sample.request None ""
               [("email", JStr "dave@example.com"); ("name", JStr "Dave");
                ("password", JStr "hunter22")] in
  let log := {| req_authorization := None; req_param := "";
                req_body := [("email", JStr "dave@example.com");
                             ("password", JStr "hunter22")];
                req_time := 5 |} in
  (POST_auth_register reg Sample.calm).1
  = json (AuthBody "8" "dave@example.com" (Some "Dave") "8|dave@example.com|0")
  ∧ (POST_auth_login log (POST_auth_register reg Sample.calm).2).1
    = Json {| login_id := "8"; login_email := "dave@example.com";
              login_name := Some "Dave"; login_isAdmin := false;
              login_token := "8|dave@example.com|5" |}.
Proof.
  intros reg log.
  destruct (register_then_login reg log Sample.calm "dave@example.com" "Dave" "hunter22")
    as [Hr Hl]; [reflexivity|reflexivity|reflexivity|reflexivity|discriminate
                |reflexivity|constructor|].
  split; [exact Hr|exact Hl].
Defined.

Lemma login_rejects_witness :
  let wrong := Sample.request None ""
                 [("email", JStr "alice@example.com"); ("password", JStr "rabbit")] in
  let unknown := Sample.request None ""
                   [("email", JStr "nobody@example.com"); ("password", JStr "rabbit")] in
  POST_auth_login wrong Sample.calm = POST_auth_login unknown Sample.calm.
Proof.
  intros wrong unknown.
  rewrite (login_rejects wrong Sample.calm "alice@example.com" "rabbit");
    [|reflexivity|constructor|right; exists Sample.alice; split; [reflexivity|by right]].
  rewrite (login_rejects unknown Sample.calm "nobody@example.com" "rabbit");
    [reflexivity|reflexivity|constructor|by left].
Defined.

(** ** The catalog *)

Lemma find_filter_other {A} (key : A → string) (id id' : string) (l : list A) :
  id' ≠ id →
  List.find (λ x, bool_decide (key x = id')) (filter (λ x, key x ≠ id) l)
  = List.find (λ x, bool_decide (key x = id')) l.
Proof.
  intros Hne. induction l as [|a l IH]; [done|].
  destruct (decide (key a = id)) as [Ha|Ha].
  - rewrite filter_cons_False by (intros Hn; by apply Hn). cbn [List.find].
    by rewrite bool_decide_eq_false_2 by congruence.
  - rewrite filter_cons_True by done. cbn [List.find]. by rewrite IH.
Qed.

Lemma find_filter_same {A} (key : A → string) (id : string) (l : list A) :
  List.find (λ x, bool_decide (key x = id)) (filter (λ x, key x ≠ id) l) = None.
Proof.
  induction l as [|a l IH]; [done|].
  destruct (decide (key a = id)) as [Ha|Ha].
  - by rewrite filter_cons_False by (intros Hn; by apply Hn).
  - rewrite filter_cons_True by done. cbn [List.find].
    by rewrite bool_decide_eq_false_2.
Qed.

Section Catalog.
Context {T : Type} {num : JsNum T} {ext : Externals} {bc : Bcrypt}
  {status : StatusColumn} {un : Unordered}.


Lemma existsb_elem {A} (f : A → bool) (l : list A) (x : A) :
  x ∈ l → f x = true → existsb f l = true.
Proof.
  intros Hin Hx. apply existsb_exists. exists x. by rewrite <- list_elem_of_In.
Qed.

Lemma existsb_none {A} (f : A → bool) (l : list A) :
  (∀ x, x ∈ l → f x = false) → existsb f l = false.
Proof.
  intros Hall. destruct (existsb f l) eqn:He; [|done].
  apply existsb_exists in He as (x & Hin & Hx).
  rewrite <- list_elem_of_In in Hin. by rewrite (Hall x Hin) in Hx.
Qed.

(** X8: deleting a product, for an admin.  When the catalog has no
    product of that identifier, or some cart has a line for it, the
    answer is 500 'Failed to delete product' and nothing changes; when
    the catalog has it, no cart line and no order item refers to it and
    the store performs the delete, that product is gone from the catalog
    and every other product is still found. *)
Theorem deleteProduct_spec (req : Request T) (w : World T) (token : string)
    (bearer : Claims) (admin : User) :
  bearer_token req = Some token →
  jwt_verify token = Some bearer →
  find_user (claims_id bearer) (db w) = Some admin →
  user_isAdmin admin = true →
  quiet w →
  ((find_product (req_param req) (db w) = None
    ∨ ∃ i, i ∈ cartItems (db w) ∧ ci_productId i = req_param req) →
   (DELETE_admin_products req w).1 = respond 500 (ErrorBody "Failed to delete product")
   ∧ db (DELETE_admin_products req w).2 = db w)
  ∧ (is_Some (find_product (req_param req) (db w)) →
     (∀ i, i ∈ cartItems (db w) → ci_productId i ≠ req_param req) →
     (∀ r, r ∈ orderItems (db w) → oi_productId r ≠ req_param req) →
     (DELETE_admin_products req w).1 = json (MessageBody "Product deleted")
     ∧ products (db (DELETE_admin_products req w).2)
       = filter (λ p', product_id p' ≠ req_param req) (products (db w))
     ∧ find_product (req_param req) (db (DELETE_admin_products req w).2) = None
     ∧ ∀ id, id ≠ req_param req →
             find_product id (db (DELETE_admin_products req w).2)
             = find_product id (db w)).
Proof.
  intros Hb Hv Hu Ha Hq.
  unfold DELETE_admin_products, authenticateToken. rewrite Hb, Hv.
  unfold requireAdmin. perform. cbn [user_findUnique fst snd]. rewrite Hu, Ha.
  unfold deleteProduct, try_catch, bind. perform.
  unfold product_delete. cbn [db advance]. split.
  - intros [Hnone|(i & Hin & Hi)]; [by rewrite Hnone|].
    destruct (find_product (req_param req) (db w)) as [p|]; [|done].
    rewrite (existsb_elem _ _ i Hin) by (by apply bool_decide_eq_true_2). done.
  - intros [p Hp] Hcart Horder. rewrite Hp.
    rewrite !existsb_none; cbn.
    + split_and!; try done.
      * apply (find_filter_same product_id).
      * intros id Hid. by apply (find_filter_other product_id).
    + intros r Hr. apply bool_decide_eq_false_2. by apply Horder.
    + intros i Hi. apply bool_decide_eq_false_2. by apply Hcart.
Qed.

End Catalog.


Lemma deleteProduct_spec_witness :
  let gizmo := Sample.request None ""
                 [("name", JStr "Gizmo"); ("price", JNum 3); ("stock", JNum 0)] in
  let stocked := (POST_products gizmo Sample.calm).2 in
  let drop_gizmo := Sample.request (Sample.bearer Sample.carol) "8" [] in
  let drop_widget := Sample.request (Sample.bearer Sample.carol) "3" [] in
  is_Some (find_product "8" (db stocked))
  ∧ find_product "8" (db (DELETE_admin_products drop_gizmo stocked).2) = None
  ∧ (DELETE_admin_products drop_widget stocked).1
    = respond 500 (ErrorBody "Failed to delete product")
  ∧ is_Some (find_product "3" (db (DELETE_admin_products drop_widget stocked).2)).
Proof.
  intros gizmo stocked drop_gizmo drop_widget.
  destruct (deleteProduct_spec drop_gizmo stocked "2|carol@example.com|0"
              (Sample.claims_of Sample.carol) Sample.carol) as [_ Hgone];
    [reflexivity|reflexivity|reflexivity|reflexivity|constructor|].
  destruct (deleteProduct_spec drop_widget stocked "2|carol@example.com|0"
              (Sample.claims_of Sample.carol) Sample.carol) as [Hkept _];
    [reflexivity|reflexivity|reflexivity|reflexivity|constructor|].
  assert (is_Some (find_product "8" (db stocked))) as Hthere
    by (vm_compute; by eexists).
  split; [exact Hthere|].
  destruct Hgone as (_ & _ & Hnone & _).
  - exact Hthere.
  - apply Forall_forall. vm_compute. repeat constructor; discriminate.
  - intros r Hr. vm_compute in Hr. by apply elem_of_nil in Hr.
  - split; [exact Hnone|].
    destruct Hkept as [H500 Hsame].
    + right. exists {| ci_id := "6"; ci_cartId := "5"; ci_productId := "3";
                       ci_quantity := 2 |}.
      split; [|reflexivity]. vm_compute. left.
    + split; [exact H500|]. rewrite Hsame. vm_compute. by eexists.
Defined.

(** ** What an order records *)

Section OrderRecords.
Context {T : Type} {num : JsNum T} {ext : Externals} {bc : Bcrypt}
  {status : StatusColumn} {un : Unordered}.

(** The data of the nested items: the lines of the cart, each with the
    price its product has now. *)
Lemma item_data_lines (d : Db T) (items : list CartItem) (data : list (string * Z * T)) :
  map_throwing item_data (with_product d <$> items) = Ok data →
  (λ x, (x.1.1, x.1.2)) <$> data = line_of <$> items
  ∧ Forall (λ x, product_price <$> find_product x.1.1 d = Some x.2) data.
Proof.
  revert data. induction items as [|i items IH]; intros data Hm.
  - cbn in Hm. injection Hm as <-. split; [done|constructor].
  - rewrite fmap_cons in Hm. cbn [map_throwing] in Hm.
    rewrite item_data_with_product in Hm.
    destruct (find_product (ci_productId i) d) as [p|] eqn:Hp; [|done].
    destruct (map_throwing item_data (with_product d <$> items)) as [data'|]; [|done].
    injection Hm as <-. destruct (IH data' eq_refl) as [Hl Hf].
    split; [by rewrite !fmap_cons, Hl|]. constructor; [|done]. cbn. by rewrite Hp.
Qed.

Lemma new_item_lines (orderId : string) (first : nat) (data : list (string * Z * T)) :
  (λ r, (oi_productId r, oi_quantity r)) <$> imap (new_item orderId first) data
  = (λ x, (x.1.1, x.1.2)) <$> data.
Proof.
  rewrite fmap_imap. rewrite <- imap_const. by apply imap_ext.
Qed.

(** What the order handler does with a cart that has lines, each of a
    product of the catalog, when the store performs its three calls. *)
Lemma createOrder_run (user : Claims) (req : Request T) (w : World T) (c : Cart)
    (amounts : list T) :
  quiet w →
  find_cart (claims_id user) (db w) = Some c →
  items_of (cart_id c) (db w) ≠ [] →
  mapM (amount (db w)) (line_of <$> items_of (cart_id c) (db w)) = Some amounts →
  ∃ data,
    map_throwing item_data (with_product (db w) <$> items_of (cart_id c) (db w)) = Ok data
    ∧ let o := {| order_id := gen_id (next_id (db w)); order_userId := claims_id user;
                  order_total := sum_of amounts; order_status := default_status |} in
      let rows := imap (new_item (order_id o) (next_id (db w) + 1)) data in
      let d2 := bump (1 + length data)
                  (with_orderItems (λ l, l ++ rows)
                     (with_orders (λ l, l ++ [o]) (db w))) in
      createOrder user req w
      = (json (OrderBody o ((λ r, (r, find_product (oi_productId r) (db w))) <$> rows)),
         advance (with_cartItems (filter (λ i, ci_cartId i ≠ cart_id c)) d2)
           (advance d2 (advance (db w) w))).
Proof.
  intros Hq Hc Hne Ham.
  destruct (map_item_data (db w) (items_of (cart_id c) (db w))) as (data & Hd & Hlen).
  { by rewrite Ham. }
  exists data. split; [done|]. intros o rows d2.
  unfold createOrder, try_catch, bind, lift. perform.
  cbn [cart_findUnique_include fst snd]. rewrite Hc.
  rewrite bool_decide_eq_false_2; last first.
  { rewrite length_fmap. by intros ?%nil_length_inv. }
  pose proof (reduce_add_item (db w) (items_of (cart_id c) (db w)) (num_of_Z 0)) as Hr.
  rewrite Ham in Hr. rewrite Hr, Hd. perform. cbn [order_create fst snd db advance].
  perform. done.
Qed.

Lemma lines_of_nonempty (userId : string) (d : Db T) :
  lines_of userId d ≠ [] →
  ∃ c, find_cart userId d = Some c ∧ items_of (cart_id c) d ≠ []
       ∧ lines_of userId d = line_of <$> items_of (cart_id c) d.
Proof.
  unfold lines_of. destruct (find_cart userId d) as [c|]; [|done].
  intros Hne. exists c. split; [done|]. split; [|done].
  intros Hnil. by rewrite Hnil in Hne.
Qed.

(** X9: an order copies the cart.  Its items are the lines the cart had,
    in their order, each with the quantity of the line and the price its
    product had in the catalog at that moment, and each tied to the new
    order; the order starts in the default status; and the catalog,
    stock included, is left as it was. *)
Theorem createOrder_snapshot (user : Claims) (req : Request T) (w : World T) (total : T) :
  quiet w →
  lines_of (claims_id user) (db w) ≠ [] →
  lines_total (db w) (lines_of (claims_id user) (db w)) = Some total →
  ∃ o rows,
    (createOrder user req w).1
    = json (OrderBody o ((λ r, (r, find_product (oi_productId r) (db w))) <$> rows))
    ∧ orderItems (db (createOrder user req w).2) = orderItems (db w) ++ rows
    ∧ (λ r, (oi_productId r, oi_quantity r)) <$> rows = lines_of (claims_id user) (db w)
    ∧ Forall (λ r, oi_orderId r = order_id o
                   ∧ product_price <$> find_product (oi_productId r) (db w)
                     = Some (oi_price r)) rows
    ∧ order_id o = gen_id (next_id (db w))
    ∧ order_status o = default_status
    ∧ products (db (createOrder user req w).2) = products (db w).
Proof.
  intros Hq Hne Htot.
  destruct (lines_of_nonempty _ _ Hne) as (c & Hc & Hitems & Hlines).
  rewrite Hlines in *. unfold lines_total in Htot.
  destruct (mapM (amount (db w)) (line_of <$> items_of (cart_id c) (db w)))
    as [amounts|] eqn:Ham; [|done].
  destruct (createOrder_run user req w c amounts Hq Hc Hitems Ham) as (data & Hd & Hrun).
  cbn zeta in Hrun. rewrite Hrun. cbn [fst snd db advance].
  destruct (item_data_lines _ _ _ Hd) as [Hl Hp].
  eexists _, _. split; [done|]. split; [done|].
  split; [by rewrite new_item_lines|]. split; [|done].
  apply Forall_forall. intros r (k & x & -> & Hx)%elem_of_lookup_imap.
  split; [done|]. cbn. apply list_elem_of_lookup_2 in Hx.
  by apply (proj1 (Forall_forall _ _) Hp).
Qed.

End OrderRecords.

(** Alice's order has two widgets and one gadget, as her cart had. *)
Lemma createOrder_snapshot_witness :
  (λ r, (oi_productId r, oi_quantity r))
    <$> orderItems
          (db (createOrder (Sample.claims_of Sample.alice) Sample.order_request
                 Sample.calm).2)
  = [("3", 2); ("4", 1)].
Proof.
  destruct (createOrder_snapshot (Sample.claims_of Sample.alice) Sample.order_request
              Sample.calm 25) as (o & rows & _ & Hi & Hl & _);
    [constructor|discriminate|reflexivity|].
  rewrite Hi. cbn [orderItems db Sample.calm Sample.shop app]. exact Hl.
Defined.

(** ** Listing orders *)

Section OrderListing.
Context {T : Type} {num : JsNum T} {ext : Externals} {bc : Bcrypt}
  {sc : StatusColumn} {un : Unordered}.

Lemma createOrder_empty (user : Claims) (req : Request T) (w : World T) :
  quiet w →
  lines_of (claims_id user) (db w) = [] →
  createOrder user req w = (respond 400 (ErrorBody "Cart is empty"), advance (db w) w).
Proof.
  intros Hq Hl. unfold createOrder, try_catch, bind. perform.
  cbn [cart_findUnique_include fst snd]. unfold lines_of in Hl.
  destruct (find_cart (claims_id user) (db w)) as [c|]; [|done].
  apply fmap_nil_inv in Hl. rewrite Hl. done.
Qed.

Lemma getOrders_run (user : Claims) (req : Request T) (w : World T) :
  quiet w →
  getOrders user req w
  = (Json (arrange (order_with_items (db w)
                      <$> filter (λ o, order_userId o = claims_id user) (orders (db w)))),
     advance (db w) w).
Proof. intros Hq. unfold getOrders, try_catch, bind. by perform. Qed.

(** The items of the orders there were are not touched by a new order. *)
Lemma order_with_items_kept (d d' : Db T) (o : Order T) (rows : list (OrderItem T)) :
  products d' = products d →
  orderItems d' = orderItems d ++ rows →
  Forall (λ r, oi_orderId r ≠ order_id o) rows →
  order_with_items d' o = order_with_items d o.
Proof.
  intros Hp Hi Hr. unfold order_with_items, items_of_order, find_product.
  rewrite Hp, Hi, filter_app. f_equal.
  rewrite (filter_none _ rows), app_nil_r; [done|].
  intros r Hin. by apply (proj1 (Forall_forall _ _) Hr).
Qed.

(** X10: each user sees their own orders.  The listing of a user has
    exactly the orders that carry the user's identifier, each with the
    items of that order, in the order in which the store returns them.
    Right after a successful order the listing of that user has the
    orders it had and the order the handler answered with, and the
    listing of every other user has the orders it had. *)
Theorem getOrders_after_order (user other : Claims) (req list : Request T) (w : World T)
    (total : T) :
  quiet w →
  lines_of (claims_id user) (db w) ≠ [] →
  lines_total (db w) (lines_of (claims_id user) (db w)) = Some total →
  (∀ o, o ∈ orders (db w) → issued (db w) (order_id o)) →
  (∀ r, r ∈ orderItems (db w) → issued (db w) (oi_orderId r)) →
  claims_id other ≠ claims_id user →
  ∃ o items before after theirs theirs',
    (createOrder user req w).1 = json (OrderBody o items)
    ∧ (getOrders user list w).1 = Json before
    ∧ before ≡ₚ order_with_items (db w)
                  <$> filter (λ o, order_userId o = claims_id user) (orders (db w))
    ∧ (getOrders user list (createOrder user req w).2).1 = Json after
    ∧ after ≡ₚ (o, items) :: before
    ∧ (getOrders other list w).1 = Json theirs
    ∧ (getOrders other list (createOrder user req w).2).1 = Json theirs'
    ∧ theirs' ≡ₚ theirs.
Proof.
  intros Hq Hne Htot Ho Hi Hother.
  destruct (lines_of_nonempty _ _ Hne) as (c & Hc & Hitems & Hlines).
  rewrite Hlines in Htot. unfold lines_total in Htot.
  destruct (mapM (amount (db w)) (line_of <$> items_of (cart_id c) (db w)))
    as [amounts|] eqn:Ham; [|done].
  destruct (createOrder_run user req w c amounts Hq Hc Hitems Ham) as (data & Hd & Hrun).
  cbn zeta in Hrun. rewrite Hrun. cbn [fst snd].
  set (o := {| order_id := gen_id (next_id (db w)); order_userId := claims_id user;
               order_total := sum_of amounts; order_status := default_status |}) in *.
  set (rows := imap (new_item (order_id o) (next_id (db w) + 1)) data) in *.
  rewrite !getOrders_run by eauto 10 with store. cbn [fst db advance].
  set (d' := with_cartItems _ _).
  assert (∀ o', o' ∈ orders (db w) → order_with_items d' o' = order_with_items (db w) o')
    as Hkept.
  { intros o' Hin. apply (order_with_items_kept _ _ _ rows); [done|done|].
    apply Forall_forall. intros r (k & x & -> & _)%elem_of_lookup_imap. cbn.
    intros Heq. by apply (issued_fresh (db w) (order_id o')); [apply Ho|]. }
  assert (order_with_items d' o
          = (o, (λ r, (r, find_product (oi_productId r) (db w))) <$> rows)) as Hnew.
  { unfold order_with_items, items_of_order. f_equal.
    change (orderItems d') with (orderItems (db w) ++ rows).
    rewrite filter_app, (filter_none _ (orderItems (db w))), app_nil_l.
    - rewrite filter_all; [done|].
      by intros r (k & x & -> & _)%elem_of_lookup_imap.
    - intros r Hin Heq. by apply (issued_fresh (db w) (oi_orderId r)); [apply Hi|]. }
  assert (∀ uid, order_with_items d' <$> filter (λ o, order_userId o = uid) (orders (db w))
                 = order_with_items (db w)
                     <$> filter (λ o, order_userId o = uid) (orders (db w))) as Hold.
  { intros uid. apply list_fmap_ext. intros k o' Hin.
    apply Hkept. apply list_elem_of_lookup_2 in Hin.
    by apply list_elem_of_filter in Hin as [_ ?]. }
  eexists _, _, _, _, _, _. split; [done|]. split; [done|].
  split; [apply arrange_perm|]. split; [done|].
  change (orders d') with (orders (db w) ++ [o]). rewrite !filter_app.
  split; [|split; [done|split; [done|]]].
  - rewrite filter_cons_True, filter_nil by done. rewrite fmap_app, Hold.
    cbn [fmap list_fmap]. rewrite Hnew, !arrange_perm.
    symmetry. apply Permutation_cons_append.
  - rewrite filter_cons_False, filter_nil, app_nil_r by (cbn; congruence).
    by rewrite Hold, !arrange_perm.
Qed.

(** X11: an order empties the cart for good: a second order request
    right after a successful one is answered 400 'Cart is empty' and
    writes nothing, so that a request sent twice does not order twice. *)
Theorem createOrder_twice (user : Claims) (req again : Request T) (w : World T)
    (total : T) :
  quiet w →
  lines_of (claims_id user) (db w) ≠ [] →
  lines_total (db w) (lines_of (claims_id user) (db w)) = Some total →
  status (createOrder user req w).1 = 200%nat
  ∧ (createOrder user again (createOrder user req w).2).1
    = respond 400 (ErrorBody "Cart is empty")
  ∧ db (createOrder user again (createOrder user req w).2).2
    = db (createOrder user req w).2
  ∧ length (orders (db (createOrder user again (createOrder user req w).2).2))
    = S (length (orders (db w))).
Proof.
  intros Hq Hne Htot.
  destruct (lines_of_nonempty _ _ Hne) as (c & Hc & Hitems & Hlines).
  rewrite Hlines in Htot. unfold lines_total in Htot.
  destruct (mapM (amount (db w)) (line_of <$> items_of (cart_id c) (db w)))
    as [amounts|] eqn:Ham; [|done].
  destruct (createOrder_run user req w c amounts Hq Hc Hitems Ham) as (data & Hd & Hrun).
  cbn zeta in Hrun. rewrite Hrun. cbn [fst snd]. split; [done|].
  rewrite createOrder_empty; [|eauto 10 with store|].
  - cbn [fst snd db advance]. split; [done|]. split; [done|].
    cbn. rewrite length_app. cbn. lia.
  - cbn [db advance]. unfold lines_of.
    change (find_cart (claims_id user) (with_cartItems _ _))
      with (find_cart (claims_id user) (db w)).
    rewrite Hc. unfold items_of. cbn.
    by rewrite (filter_complement (λ i, ci_cartId i = cart_id c)).
Qed.

End OrderListing.

Lemma wf_orders_sample :
  (∀ o, o ∈ orders Sample.shop → issued Sample.shop (order_id o))
  ∧ (∀ r, r ∈ orderItems Sample.shop → issued Sample.shop (oi_orderId r)).
Proof. split; by intros ? ?%elem_of_nil. Qed.

(** Alice's listing is empty, then has her order. *)
Lemma getOrders_after_order_witness :
  let alice := Sample.claims_of Sample.alice in
  let bob := Sample.claims_of Sample.bob in
  let ordered := (createOrder alice Sample.order_request Sample.calm).2 in
  ∃ o items,
    (createOrder alice Sample.order_request Sample.calm).1 = json (OrderBody o items)
    ∧ (getOrders alice Sample.order_request ordered).1 = Json [(o, items)].
Proof.
  intros alice bob ordered.
  destruct wf_orders_sample as [Ho Hi].
  destruct (getOrders_after_order alice bob Sample.order_request Sample.order_request
              Sample.calm 25)
    as (o & items & before & after & theirs & theirs' & Hr & _ & Hb & Ha & Hp & _);
    [constructor|discriminate|reflexivity|exact Ho|exact Hi|discriminate|].
  cbn in Hb. apply Permutation_nil_r in Hb. subst before.
  apply Permutation_singleton_r in Hp. subst after.
  by exists o, items.
Defined.

Lemma createOrder_twice_witness :
  let alice := Sample.claims_of Sample.alice in
  let ordered := (createOrder alice Sample.order_request Sample.calm).2 in
  (createOrder alice Sample.order_request ordered).1
  = respond 400 (ErrorBody "Cart is empty").
Proof.
  intros alice ordered.
  by destruct (createOrder_twice alice Sample.order_request Sample.order_request
                 Sample.calm 25) as (_ & H2 & _);
    [constructor|discriminate|reflexivity|].
Defined.

(** ** What every request keeps *)

Section Consistency.
Context {T : Type} {num : JsNum T} {ext : Externals} {bc : Bcrypt}
  {sc : StatusColumn} {un : Unordered}.

Lemma NoDup_snoc_fresh {A} (key : A → string) (l : list A) (x : A) (d : Db T) :
  NoDup (key <$> l) → (∀ y, y ∈ l → issued d (key y)) → key x = gen_id (next_id d) →
  NoDup (key <$> (l ++ [x])).
Proof.
  intros Hnd Hall Hx. rewrite fmap_snoc. apply NoDup_app.
  split; [done|]. split; [|apply NoDup_singleton].
  intros id (y & -> & Hin)%list_elem_of_fmap Hid%list_elem_of_singleton.
  apply (issued_fresh d (key y)); [by apply Hall|congruence].
Qed.

Lemma cartSchema_positive (o : list (string * jvalue T)) (productId : string) (q : Z) :
  cartSchema o = Ok (productId, q) → 0 < q.
Proof.
  unfold cartSchema.
  destruct (zod_string (field "productId" o)); destruct (field "quantity" o) as [| | |x|];
    try done.
  all: destruct (num_to_int x) as [n|]; [case_bool_decide|]; try done.
  by intros [= _ <-].
Qed.

Lemma productSchema_sound (o : list (string * jvalue T)) (name : string)
    (description : option string) (price : T) (stock : Z) :
  productSchema o = Ok (name, description, price, stock) →
  num_positive price = true ∧ 0 ≤ stock.
Proof.
  unfold productSchema.
  destruct (zod_string_min 1 (field "name" o)); [|done].
  destruct (match field "description" o with
            | JUndefined => Some None | JStr s => Some (Some s) | _ => None end);
    [|by repeat case_match].
  destruct (field "price" o) as [| | |x|]; try by repeat case_match.
  destruct (num_positive x) eqn:Hx; [|by repeat case_match].
  destruct (field "stock" o) as [| | |y|]; try done.
  destruct (num_to_int y) as [n|]; [|done].
  case_bool_decide; [|done]. by intros [= _ _ <- <-].
Qed.

(** Changes that leave the carts alone. *)
Lemma consistent_outside_carts (d d' : Db T) :
  carts d' = carts d → cartItems d' = cartItems d → (next_id d ≤ next_id d')%nat →
  (∀ p, p ∈ products d' → num_positive (product_price p) = true ∧ 0 ≤ product_stock p) →
  NoDup (product_id <$> products d') →
  (∀ p, p ∈ products d' → issued d' (product_id p)) →
  NoDup (order_id <$> orders d') →
  (∀ o, o ∈ orders d' → issued d' (order_id o)) →
  (∀ r, r ∈ orderItems d' → oi_orderId r ∈ order_id <$> orders d') →
  consistent d → consistent d'.
Proof.
  intros Hc Hi Hn ? ? ? ? ? ? [Hwf ? ? ? ? ? ? ? ? ?].
  split; rewrite ?Hc, ?Hi; try done.
  by apply (wf_carts_same d).
Qed.

(** Changes to users and messages. *)
Lemma consistent_frame (d d' : Db T) :
  products d' = products d → carts d' = carts d → cartItems d' = cartItems d →
  orders d' = orders d → orderItems d' = orderItems d → (next_id d ≤ next_id d')%nat →
  consistent d → consistent d'.
Proof.
  intros Hp Hc Hi Ho Hr Hn Hd.
  apply (consistent_outside_carts d); try done; rewrite ?Hp, ?Ho, ?Hr; try apply Hd.
  - intros p Hin. apply (issued_later d); [done|]. by apply Hd.
  - intros o Hin. apply (issued_later d); [done|]. by apply Hd.
Qed.

Lemma consistent_after_delete (d : Db T) (P : CartItem → Prop) `{!∀ i, Decision (P i)} :
  consistent d → consistent (with_cartItems (filter P) d).
Proof.
  intros [Hwf Hown Hl Hq Hcat Hpi Hp Hoi Ho Hr]. split; cbn; try done.
  - by apply wf_after_delete.
  - by apply NoDup_fmap_filter.
  - intros i [_ Hin]%list_elem_of_filter. by apply Hq.
Qed.

Lemma consistent_after_update (d : Db T) (id : string) (i : CartItem) (q : Z) :
  0 < q → i ∈ cartItems d → ci_id i = id → consistent d →
  consistent (with_cartItems (λ l, filter (λ i', ci_id i' ≠ id) l
                                   ++ [set_quantity q i]) d).
Proof.
  intros Hpos Hin <- [Hwf Hown Hl Hq Hcat Hpi Hp Hoi Ho Hr]. split; cbn; try done.
  - by apply wf_after_update.
  - rewrite fmap_app. apply NoDup_app. split; [by apply NoDup_fmap_filter|].
    split; [|apply NoDup_singleton].
    intros k (j & -> & [Hne Hj]%list_elem_of_filter)%list_elem_of_fmap
      Hk%list_elem_of_singleton.
    apply Hne. f_equal.
    by apply (NoDup_fmap_eq (λ i, (ci_cartId i, ci_productId i)) (cartItems d)).
  - intros j [[_ Hj]%list_elem_of_filter| ->%list_elem_of_singleton]%elem_of_app;
      [by apply Hq|done].
Qed.

Lemma consistent_after_insert (d : Db T) (cartId productId : string) (q : Z) :
  0 < q → issued d cartId →
  List.find (λ i, bool_decide (ci_cartId i = cartId)
                  && bool_decide (ci_productId i = productId)) (cartItems d) = None →
  consistent d →
  consistent (bump 1 (with_cartItems
                        (λ l, l ++ [{| ci_id := gen_id (next_id d); ci_cartId := cartId;
                                       ci_productId := productId; ci_quantity := q |}]) d)).
Proof.
  intros Hpos Hc Hnone [Hwf Hown Hl Hq Hcat Hpi Hp Hoi Ho Hr]. split; cbn; try done.
  - by apply wf_after_insert.
  - rewrite fmap_snoc. apply NoDup_app. split; [done|]. split; [|apply NoDup_singleton].
    intros k (i & -> & Hin)%list_elem_of_fmap [= Hx Hy]%list_elem_of_singleton.
    pose proof (find_None_elem _ _ Hnone i Hin) as Hf. cbn in Hf.
    by rewrite !bool_decide_eq_true_2 in Hf.
  - intros i [Hin| ->%list_elem_of_singleton]%elem_of_app; [by apply Hq|done].
  - intros p Hin. apply (issued_later d); [cbn; lia|]. by apply Hp.
  - intros o Hin. apply (issued_later d); [cbn; lia|]. by apply Ho.
Qed.

Lemma consistent_after_cart (d : Db T) (userId : string) :
  find_cart userId d = None → consistent d →
  consistent (bump 1 (with_carts
                        (λ l, l ++ [{| cart_id := gen_id (next_id d);
                                       cart_userId := userId |}]) d)).
Proof.
  intros Hnone [Hwf Hown Hl Hq Hcat Hpi Hp Hoi Ho Hr]. split; cbn; try done.
  - by apply wf_after_cart.
  - rewrite fmap_snoc. apply NoDup_app. split; [done|]. split; [|apply NoDup_singleton].
    intros k (c & -> & Hin)%list_elem_of_fmap Hk%list_elem_of_singleton.
    pose proof (find_None_elem _ _ Hnone c Hin) as Hf. cbn in Hf, Hk.
    by rewrite bool_decide_eq_true_2 in Hf.
  - intros p Hin. apply (issued_later d); [cbn; lia|]. by apply Hp.
  - intros o Hin. apply (issued_later d); [cbn; lia|]. by apply Ho.
Qed.

Lemma consistent_after_order (d : Db T) (o : Order T) (rows : list (OrderItem T)) (n : nat) :
  order_id o = gen_id (next_id d) → Forall (λ r, oi_orderId r = order_id o) rows →
  (0 < n)%nat → consistent d →
  consistent (bump n (with_orderItems (λ l, l ++ rows) (with_orders (λ l, l ++ [o]) d))).
Proof.
  intros Hid Hrows Hn Hd. apply (consistent_outside_carts d); cbn; try done; try apply Hd.
  - lia.
  - intros p Hin. apply (issued_later d); [cbn; lia|]. by apply Hd.
  - apply (NoDup_snoc_fresh _ _ _ d); [apply Hd|apply Hd|done].
  - intros o' [Hin| ->%list_elem_of_singleton]%elem_of_app.
    + apply (issued_later d); [cbn; lia|]. by apply Hd.
    + rewrite Hid. apply issued_next. cbn. lia.
  - intros r [Hin|Hin]%elem_of_app; rewrite fmap_app, elem_of_app.
    + left. by apply Hd.
    + right. rewrite (proj1 (Forall_forall _ _) Hrows r Hin). cbn. left.
Qed.

Lemma consistent_after_status (d : Db T) (id s : string) :
  consistent d →
  consistent (with_orders (fmap (λ o', if bool_decide (order_id o' = id)
                                       then set_status s o' else o')) d).
Proof.
  intros Hd.
  assert (order_id <$> ((λ o', if bool_decide (order_id o' = id)
                               then set_status s o' else o') <$> orders d)
          = order_id <$> orders d) as Hids.
  { rewrite <- list_fmap_compose. apply list_fmap_ext. intros k o _. cbn.
    by case_bool_decide. }
  apply (consistent_outside_carts d); cbn; try done; rewrite ?Hids; try apply Hd.
  intros o (o0 & -> & Hin)%list_elem_of_fmap.
  replace (order_id (if bool_decide (order_id o0 = id) then set_status s o0 else o0))
    with (order_id o0) by (by case_bool_decide).
  by apply Hd.
Qed.

Lemma consistent_after_product (d : Db T) (p : Product T) :
  product_id p = gen_id (next_id d) →
  num_positive (product_price p) = true ∧ 0 ≤ product_stock p →
  consistent d → consistent (bump 1 (with_products (λ l, l ++ [p]) d)).
Proof.
  intros Hid Hok Hd. apply (consistent_outside_carts d); cbn; try done; try apply Hd.
  - lia.
  - intros p' [Hin| ->%list_elem_of_singleton]%elem_of_app; [by apply Hd|done].
  - apply (NoDup_snoc_fresh _ _ _ d); [apply Hd|apply Hd|done].
  - intros p' [Hin| ->%list_elem_of_singleton]%elem_of_app.
    + apply (issued_later d); [cbn; lia|]. by apply Hd.
    + rewrite Hid. apply issued_next. cbn. lia.
  - intros o Hin. apply (issued_later d); [cbn; lia|]. by apply Hd.
Qed.

Lemma consistent_after_product_update (d : Db T) (id : string) (f : Product T → Product T) :
  (∀ p, product_id (f p) = product_id p) →
  (∀ p, num_positive (product_price (f p)) = true ∧ 0 ≤ product_stock (f p)) →
  consistent d →
  consistent (with_products (fmap (λ p', if bool_decide (product_id p' = id)
                                         then f p' else p')) d).
Proof.
  intros Hid Hok Hd.
  assert (product_id <$> ((λ p', if bool_decide (product_id p' = id) then f p' else p')
                            <$> products d)
          = product_id <$> products d) as Hids.
  { rewrite <- list_fmap_compose. apply list_fmap_ext. intros k p _. cbn.
    by case_bool_decide. }
  apply (consistent_outside_carts d); cbn; try done; rewrite ?Hids; try apply Hd.
  - intros p (p0 & -> & Hin)%list_elem_of_fmap. case_bool_decide; [done|by apply Hd].
  - intros p (p0 & -> & Hin)%list_elem_of_fmap.
    replace (product_id (if bool_decide (product_id p0 = id) then f p0 else p0))
      with (product_id p0) by (by case_bool_decide).
    by apply Hd.
Qed.

Lemma consistent_after_product_delete (d : Db T) (P : Product T → Prop)
    `{!∀ p, Decision (P p)} :
  consistent d → consistent (with_products (filter P) d).
Proof.
  intros Hd. apply (consistent_outside_carts d); cbn; try done; try apply Hd.
  - intros p [_ Hin]%list_elem_of_filter. by apply Hd.
  - apply NoDup_fmap_filter, Hd.
  - intros p [_ Hin]%list_elem_of_filter. by apply Hd.
Qed.

(** *** The middlewares *)

Lemma authenticateToken_keeps (P : Db T → Prop) (req : Request T)
    (next : Claims → Handler T) (w : World T) :
  (∀ user w, P (db w) → P (db (next user w).2)) →
  P (db w) → P (db (authenticateToken req next w).2).
Proof.
  intros Hn Hw. unfold authenticateToken.
  destruct (bearer_token req) as [token|]; [|done].
  destruct (jwt_verify token); [by apply Hn|done].
Qed.

Lemma requireAdmin_keeps (P : Db T → Prop) (user : Claims) (next : Handler T)
    (w : World T) :
  (∀ w, P (db w) → P (db (next w).2)) →
  P (db w) → P (db (requireAdmin user next w).2).
Proof.
  intros Hn Hw. unfold requireAdmin. store_call; [done|].
  cbn [user_findUnique fst snd]. destruct (find_user _ _) as [u|]; [|done].
  destruct (user_isAdmin u); [|done]. by apply Hn.
Qed.

Lemma authenticateToken_json_keeps {A} (P : Db T → Prop) (req : Request T)
    (next : Claims → JsonHandler T A) (w : World T) :
  (∀ user w, P (db w) → P (db (next user w).2)) →
  P (db w) → P (db (authenticateToken_json req next w).2).
Proof.
  intros Hn Hw. unfold authenticateToken_json.
  destruct (bearer_token req) as [token|]; [|done].
  destruct (jwt_verify token); [by apply Hn|done].
Qed.

Lemma requireAdmin_json_keeps {A} (P : Db T → Prop) (user : Claims)
    (next : JsonHandler T A) (w : World T) :
  (∀ w, P (db w) → P (db (next w).2)) →
  P (db w) → P (db (requireAdmin_json user next w).2).
Proof.
  intros Hn Hw. unfold requireAdmin_json. store_call; [done|].
  cbn [user_findUnique fst snd]. destruct (find_user _ _) as [u|]; [|done].
  destruct (user_isAdmin u); [|done]. by apply Hn.
Qed.

(** *** The handlers that write *)

Ltac framed H := eapply consistent_frame; [..|exact H]; cbn; (done || lia).

Lemma register_keeps (req : Request T) (w : World T) :
  consistent (db w) → consistent (db (register req w).2).
Proof.
  intros Hd. unfold register, try_catch, bind, lift.
  destruct (registerSchema (req_body req)) as [[[email name] password]|e]; [|done].
  store_call; [done|].
  unfold user_create. destruct (find_user_by_email email (db w)); cbn; [done|].
  framed Hd.
Qed.

Lemma postMessage_keeps (req : Request T) (w : World T) :
  consistent (db w) → consistent (db (postMessage req w).2).
Proof.
  intros Hd. unfold postMessage, try_catch, bind, message_create.
  destruct (field "userId" (req_body req)), (field "content" (req_body req)); try done.
  store_call; [done|]. unfold message_insert.
  destruct (find_user _ _); cbn; [framed Hd|done].
Qed.

Lemma sendMessage_keeps (io : Io) (data : list (string * jvalue T)) (w : World T) :
  consistent (db w) → consistent (db (sendMessage io data w).2).
Proof.
  intros Hd. unfold sendMessage, try_catch, bind, message_create.
  destruct (field "userId" data), (field "content" data); try done.
  store_call; [done|]. unfold message_insert.
  destruct (find_user _ _); cbn; [|done]. destruct (truthy _); cbn; framed Hd.
Qed.

Lemma makeAdmin_keeps (req : Request T) (w : World T) :
  consistent (db w) → consistent (db (makeAdmin req w).2).
Proof.
  intros Hd. unfold makeAdmin, try_catch, bind.
  store_call; [done|]. unfold user_update_isAdmin.
  destruct (find_user _ _); cbn; [framed Hd|done].
Qed.

Lemma createProduct_keeps (req : Request T) (w : World T) :
  consistent (db w) → consistent (db (createProduct req w).2).
Proof.
  intros Hd. unfold createProduct, try_catch, bind, lift.
  destruct (productSchema (req_body req)) as [[[[name description] price] stock]|e] eqn:Hs;
    [|done].
  store_call; [done|]. cbn [product_create fst snd].
  apply consistent_after_product; [done| |done].
  by apply productSchema_sound in Hs.
Qed.

Lemma updateProduct_keeps (req : Request T) (w : World T) :
  consistent (db w) → consistent (db (updateProduct req w).2).
Proof.
  intros Hd. unfold updateProduct, try_catch, bind, lift.
  destruct (productSchema (req_body req)) as [[[[name description] price] stock]|e] eqn:Hs;
    [|done].
  store_call; [done|]. unfold product_update.
  destruct (find_product _ _) as [p0|]; cbn; [|done].
  apply (consistent_after_product_update _ _ (set_product name description price stock));
    [done| |done].
  intros p'. by apply productSchema_sound in Hs.
Qed.

Lemma deleteProduct_keeps (req : Request T) (w : World T) :
  consistent (db w) → consistent (db (deleteProduct req w).2).
Proof.
  intros Hd. unfold deleteProduct, try_catch, bind.
  store_call; [done|]. unfold product_delete.
  destruct (find_product _ _); cbn; [|done]. destruct (_ || _); cbn; [done|].
  by apply consistent_after_product_delete.
Qed.

Lemma updateOrderStatus_keeps (req : Request T) (w : World T) :
  consistent (db w) → consistent (db (updateOrderStatus req w).2).
Proof.
  intros Hd. unfold updateOrderStatus, try_catch, bind, order_update_status.
  destruct (field "status" (req_body req)) as [| | | |s]; try done.
  - store_call; [done|]. unfold order_update. by destruct (List.find _ _).
  - destruct (status_ok s); [|done].
    store_call; [done|]. unfold order_update.
    destruct (List.find _ _); cbn; [|done]. by apply consistent_after_status.
Qed.

Lemma removeFromCart_keeps (user : Claims) (req : Request T) (w : World T) :
  consistent (db w) → consistent (db (removeFromCart user req w).2).
Proof.
  intros Hd. unfold removeFromCart, try_catch, bind.
  store_call; [done|]. cbn [cart_findUnique fst snd].
  destruct (find_cart _ _) as [c|]; [|done].
  store_call; [done|]. by apply consistent_after_delete.
Qed.

Lemma createOrder_keeps (user : Claims) (req : Request T) (w : World T) :
  consistent (db w) → consistent (db (createOrder user req w).2).
Proof.
  intros Hd. unfold createOrder, try_catch, bind, lift.
  store_call; [done|]. cbn [cart_findUnique_include fst snd].
  destruct (find_cart _ _) as [c|]; [|done].
  case_bool_decide; [done|].
  destruct (reduce add_item _ _) as [total|e]; [|done].
  destruct (map_throwing item_data _) as [data|e]; [|done].
  store_call; [done|]. cbn [order_create fst snd].
  set (o := {| order_id := gen_id (next_id (db w)); order_userId := claims_id user;
               order_total := total; order_status := default_status |}).
  assert (consistent (bump (1 + length data)
            (with_orderItems
               (λ l, l ++ imap (new_item (order_id o) (next_id (db w) + 1)) data)
               (with_orders (λ l, l ++ [o]) (db w))))) as Hd'.
  { apply consistent_after_order; [done| |lia|done].
    apply Forall_forall. by intros r (k & x & -> & _)%elem_of_lookup_imap. }
  store_call; [done|]. by apply consistent_after_delete.
Qed.

(** After the cart is known: look for the row, then update or insert. *)
Ltac update_or_insert Hd Hq :=
  store_call; [done|]; cbn [cartItem_findFirst fst snd];
  destruct (List.find _ _) as [e|] eqn:Hfind;
  [ store_call; [done|]; unfold cartItem_update;
    let Hi := fresh "Hi" in
    destruct (List.find (λ i, bool_decide (ci_id i = ci_id e)) _) as [i|] eqn:Hi;
      cbn; [|done];
    destruct (int_column _); cbn; [|done];
    apply find_Some_elem in Hi as [? ?%bool_decide_eq_true];
    apply consistent_after_update; [|done|done|done];
    apply find_Some_elem in Hfind as [Hin _];
    pose proof (consistent_quantity _ Hd e Hin); lia
  | store_call; [done|]; unfold cartItem_create;
    destruct (find_product _ _); [|done];
    destruct (int_column _); cbn; [|done]; by apply consistent_after_insert ].

Lemma addToCart_keeps (user : Claims) (req : Request T) (w : World T) :
  consistent (db w) → consistent (db (addToCart user req w).2).
Proof.
  intros Hd. unfold addToCart, try_catch, bind, lift.
  destruct (cartSchema (req_body req)) as [[productId q]|e] eqn:Hs.
  2: { by destruct (cartSchema_throws _ _ Hs) as [issues ->]. }
  apply cartSchema_positive in Hs.
  store_call; [done|]. cbn [cart_findUnique fst snd].
  destruct (find_cart (claims_id user) (db w)) as [c|] eqn:Hc.
  - assert (issued (db w) (cart_id c)) as Hic.
    { apply Hd. by apply find_cart_elem in Hc as [? _]. }
    unfold ret at 1. update_or_insert Hd Hs.
  - store_call; [done|]. unfold cart_create. rewrite Hc.
    destruct (find_user _ _); [|done]. cbn [fst snd].
    set (c := {| cart_id := gen_id (next_id (db w)); cart_userId := claims_id user |}).
    set (d1 := bump 1 (with_carts (λ cs, cs ++ [c]) (db w))).
    assert (consistent d1) as Hd1 by (by apply consistent_after_cart).
    assert (issued d1 (cart_id c)) as Hic by (apply issued_next; cbn; lia).
    update_or_insert Hd1 Hs.
Qed.

(** Every route keeps the rows consistent, whatever the store refuses. *)
Lemma serve_keeps (r : Route) (req : Request T) (w : World T) :
  consistent (db w) → consistent (db (serve r req w)).
Proof.
  intros Hd. destruct r; cbn [serve];
    unfold POST_auth_register, POST_auth_login, POST_products, GET_cart, POST_cart,
      DELETE_cart, POST_orders, GET_orders, POST_messages, GET_admin_users,
      GET_admin_orders, PUT_admin_orders_status, PUT_admin_products,
      DELETE_admin_products, GET_admin_stats, POST_admin_make_admin.
  - by apply register_keeps.
  - by rewrite login_db.
  - unfold GET_products, getProducts, try_catch, bind. by store_call.
  - by apply createProduct_keeps.
  - apply (authenticateToken_json_keeps consistent); [|done]. intros user w0 H0.
    unfold getCart, try_catch, bind. by store_call.
  - apply (authenticateToken_keeps consistent); [|done]. intros user w0. apply addToCart_keeps.
  - apply (authenticateToken_keeps consistent); [|done]. intros user w0. apply removeFromCart_keeps.
  - apply (authenticateToken_keeps consistent); [|done]. intros user w0. apply createOrder_keeps.
  - apply (authenticateToken_json_keeps consistent); [|done]. intros user w0 H0.
    unfold getOrders, try_catch, bind. by store_call.
  - unfold GET_messages, getMessages, try_catch, bind. by store_call.
  - by apply postMessage_keeps.
  - apply (authenticateToken_json_keeps consistent); [|done]. intros user w0.
    apply (requireAdmin_json_keeps consistent). intros w1 H1.
    unfold adminUsers, try_catch, bind. by store_call.
  - apply (authenticateToken_json_keeps consistent); [|done]. intros user w0.
    apply (requireAdmin_json_keeps consistent). intros w1 H1.
    unfold adminOrders, try_catch, bind. by store_call.
  - apply (authenticateToken_json_keeps consistent); [|done]. intros user w0.
    apply (requireAdmin_json_keeps consistent). intros w1. apply updateOrderStatus_keeps.
  - apply (authenticateToken_keeps consistent); [|done]. intros user w0.
    apply (requireAdmin_keeps consistent). intros w1. apply updateProduct_keeps.
  - apply (authenticateToken_keeps consistent); [|done]. intros user w0.
    apply (requireAdmin_keeps consistent). intros w1. apply deleteProduct_keeps.
  - apply (authenticateToken_json_keeps consistent); [|done]. intros user w0.
    apply (requireAdmin_json_keeps consistent). intros w1 H1. by rewrite adminStats_db.
  - apply (authenticateToken_keeps consistent); [|done]. intros user w0. apply makeAdmin_keeps.
  - by apply sendMessage_keeps.
Qed.

Lemma serve_all_keeps (calls : list (Route * Request T)) (w : World T) :
  consistent (db w) → consistent (db (serve_all calls w)).
Proof.
  revert w. induction calls as [|[r req] calls IH]; intros w Hd; [done|].
  cbn [serve_all]. by apply IH, serve_keeps.
Qed.

Lemma consistent_empty : consistent (empty_db (T:=T)).
Proof.
  split; cbn; try apply NoDup_nil_2; try (by intros ? ?%elem_of_nil).
  by apply wf_carts_no_carts.
Qed.

(** X12: the server keeps its data consistent.  Start from the empty
    database and send any requests to any routes, in any order, with the
    store refusing whichever calls it likes: a user still has at most
    one cart, a cart at most one line for a product, every quantity and
    every price is positive and no stock negative, products and orders
    have distinct identifiers, and every order item belongs to an order
    that is there. *)
Theorem server_consistent (calls : list (Route * Request T)) (refusals : list bool) :
  consistent (db (serve_all calls {| db := empty_db; faults := refusals |})).
Proof. apply serve_all_keeps, consistent_empty. Qed.

End Consistency.

(** ** The add operation, one call and many *)

(** *** The operations of the specification, up to the order of the lines *)

Lemma find_none_intro {A} (f : A → bool) (l : list A) :
  (∀ x, x ∈ l → f x = false) → List.find f l = None.
Proof.
  intros Hall. destruct (List.find f l) as [x|] eqn:Hf; [|done].
  apply find_Some_elem in Hf as [Hin Hx]. by rewrite (Hall x Hin) in Hx.
Qed.

(** With one line for a product at most, the first line for it is the
    same in any order. *)
Lemma find_line_perm (productId : string) (ls ls' : list (string * Z)) :
  NoDup ls.*1 → ls ≡ₚ ls' →
  List.find (λ l, bool_decide (l.1 = productId)) ls
  = List.find (λ l, bool_decide (l.1 = productId)) ls'.
Proof.
  intros Hnd Hp.
  assert (NoDup ls'.*1) as Hnd' by (by rewrite <- Hp).
  destruct (List.find _ ls) as [l|] eqn:Hf.
  - apply find_Some_elem in Hf as [Hin <-%bool_decide_eq_true].
    rewrite Hp in Hin. symmetry. by apply (find_NoDup fst).
  - symmetry. apply find_none_intro. intros x Hx. rewrite <- Hp in Hx.
    by apply (find_None_elem _ _ Hf).
Qed.

Lemma quantity_in_elem (productId : string) (n : Z) (ls : list (string * Z)) :
  NoDup ls.*1 → (productId, n) ∈ ls → quantity_in productId ls = n.
Proof.
  intros Hnd Hin. unfold quantity_in.
  pose proof (find_NoDup fst ls (productId, n) Hnd Hin) as Hf. cbn [fst] in Hf.
  by rewrite Hf.
Qed.

(** The merge of the specification, up to the order of the lines: the
    other lines, and one for the product with what there was plus the
    new quantity. *)
Lemma cart_add_split (productId : string) (qty : Z) (ls : list (string * Z)) :
  NoDup ls.*1 →
  cart_add productId qty ls
  ≡ₚ (productId, quantity_in productId ls + qty) :: cart_remove productId ls.
Proof.
  unfold quantity_in, cart_remove. induction ls as [|[k n] ls IH]; intros Hnd.
  - cbn. by rewrite Z.add_0_l.
  - rewrite fmap_cons, NoDup_cons in Hnd. destruct Hnd as [Hk Hnd].
    cbn [cart_add List.find fst snd]. case_decide as Heq.
    + subst k. rewrite bool_decide_eq_true_2 by done. cbn [snd].
      rewrite filter_cons_False by (intros Hn; by apply Hn).
      rewrite filter_all; [reflexivity|]. cbn [fst] in Hk.
      intros l Hl Heq. apply Hk. rewrite <- Heq.
      by apply list_elem_of_fmap_2.
    + rewrite bool_decide_eq_false_2 by done.
      rewrite filter_cons_True by done. rewrite (IH Hnd). apply Permutation_swap.
Qed.

Lemma cart_add_perm (productId : string) (qty : Z) (ls ls' : list (string * Z)) :
  NoDup ls.*1 → ls ≡ₚ ls' → cart_add productId qty ls ≡ₚ cart_add productId qty ls'.
Proof.
  intros Hnd Hp.
  assert (NoDup ls'.*1) as Hnd' by (by rewrite <- Hp).
  rewrite !cart_add_split by done. unfold quantity_in, cart_remove.
  rewrite (find_line_perm productId ls ls') by done. by rewrite Hp.
Qed.

Lemma cart_add_NoDup (productId : string) (qty : Z) (ls : list (string * Z)) :
  NoDup ls.*1 → NoDup (cart_add productId qty ls).*1.
Proof.
  intros Hnd. rewrite cart_add_split by done. rewrite fmap_cons, NoDup_cons. split.
  - intros (l & Hl & [Hne _]%list_elem_of_filter)%list_elem_of_fmap. by apply Hne.
  - by apply NoDup_fmap_filter.
Qed.

(** The products of the rows of one cart, when no two rows share cart
    and product. *)
Lemma NoDup_products_of_cart (cartId : string) (l : list CartItem) :
  NoDup ((λ i, (ci_cartId i, ci_productId i)) <$> l) →
  NoDup (ci_productId <$> filter (λ i, ci_cartId i = cartId) l).
Proof.
  induction l as [|a l IH]; [intros _; apply NoDup_nil_2|].
  rewrite fmap_cons, NoDup_cons. intros [Ha Hl].
  rewrite filter_cons. case_decide as Hc; [|by apply IH].
  rewrite fmap_cons, NoDup_cons. split; [|by apply IH].
  intros (i & Hp & [Hi Hin]%list_elem_of_filter)%list_elem_of_fmap.
  apply Ha. apply list_elem_of_fmap. exists i. split; [|done]. congruence.
Qed.

Section CartSequences.
Context {T : Type} {num : JsNum T} {ext : Externals} {bc : Bcrypt}
  {sc : StatusColumn} {un : Unordered}.

Lemma lines_NoDup (userId : string) (d : Db T) :
  consistent d → NoDup (lines_of userId d).*1.
Proof.
  intros Hd. unfold lines_of. destruct (find_cart userId d) as [c|]; [|apply NoDup_nil_2].
  unfold items_of. rewrite <- list_fmap_compose.
  apply (NoDup_products_of_cart (cart_id c) (cartItems d)), Hd.
Qed.

Lemma admitted_intro (d : Db T) (productId : string) (qty : Z) (ls : list (string * Z))
    (p : Product T) :
  find_product productId d = Some p →
  int_column (quantity_in productId ls + qty) = true →
  admitted d productId qty ls = true.
Proof.
  intros Hp. unfold admitted, quantity_in.
  destruct (List.find _ ls); [done|]. rewrite Z.add_0_l. intros ->.
  by rewrite bool_decide_eq_true_2.
Qed.

Lemma apply_call_catalog (d d' : Db T) (v : string) (ls : list (string * Z))
    (c : CartCall) :
  products d' = products d → apply_call d' v ls c = apply_call d v ls c.
Proof.
  intros Hp. destruct c as [user req|user req]; [|done]. cbn [apply_call].
  unfold admitted, find_product. by rewrite Hp.
Qed.

Lemma foldl_apply_catalog (d d' : Db T) (v : string) (cs : list CartCall)
    (ls : list (string * Z)) :
  products d' = products d →
  foldl (apply_call d' v) ls cs = foldl (apply_call d v) ls cs.
Proof.
  intros Hp. revert ls. induction cs as [|c cs IH]; intros ls; [done|].
  cbn [foldl]. by rewrite IH, (apply_call_catalog d d').
Qed.

Lemma apply_call_perm (d : Db T) (v : string) (ls ls' : list (string * Z)) (c : CartCall) :
  NoDup ls.*1 → ls ≡ₚ ls' → apply_call d v ls c ≡ₚ apply_call d v ls' c.
Proof.
  intros Hnd Hp. destruct c as [user req|user req]; cbn [apply_call].
  - case_decide; [|done]. destruct (cartSchema (req_body req)) as [[productId qty]|]; [|done].
    unfold admitted. rewrite (find_line_perm productId ls ls') by done.
    destruct (match List.find _ ls' with Some _ => _ | None => _ end); [|done].
    by apply cart_add_perm.
  - case_decide; [|done]. unfold cart_remove. by rewrite Hp.
Qed.

Lemma apply_call_NoDup (d : Db T) (v : string) (ls : list (string * Z)) (c : CartCall) :
  NoDup ls.*1 → NoDup (apply_call d v ls c).*1.
Proof.
  intros Hnd. destruct c as [user req|user req]; cbn [apply_call].
  - case_decide; [|done]. destruct (cartSchema (req_body req)) as [[productId qty]|]; [|done].
    destruct (admitted _ _ _ _); [|done]. by apply cart_add_NoDup.
  - case_decide; [|done]. by apply NoDup_fmap_filter.
Qed.

Lemma foldl_apply_perm (d : Db T) (v : string) (cs : list CartCall)
    (ls ls' : list (string * Z)) :
  NoDup ls.*1 → ls ≡ₚ ls' →
  foldl (apply_call d v) ls cs ≡ₚ foldl (apply_call d v) ls' cs.
Proof.
  revert ls ls'. induction cs as [|c cs IH]; intros ls ls' Hnd Hp; [done|].
  cbn [foldl]. apply IH; [by apply apply_call_NoDup|by apply apply_call_perm].
Qed.

Lemma run_call_keeps (c : CartCall) (w : World T) :
  consistent (db w) → consistent (db (run_call c w).2).
Proof.
  destruct c; cbn [run_call]; [apply addToCart_keeps|apply removeFromCart_keeps].
Qed.

(** Many calls: the lines of each user are, up to their order, those of
    the operations of the specification. *)
Lemma run_calls_lines (cs : list CartCall) (w : World T) (v : string) :
  consistent (db w) → quiet w →
  Forall (λ c, is_Some (find_user (claims_id (caller c)) (db w))) cs →
  lines_of v (db (run_calls cs w)) ≡ₚ foldl (apply_call (db w) v) (lines_of v (db w)) cs.
Proof.
  revert w. induction cs as [|c cs IH]; intros w Hd Hq Hcs; [done|].
  apply Forall_cons in Hcs as [Hc Hcs]. cbn [run_calls foldl].
  destruct (run_call_step c w (consistent_carts _ Hd) Hq Hc)
    as (_ & Hq' & Hp & Hu & Hl).
  pose proof (run_call_keeps c w Hd) as Hd'.
  rewrite IH; [|done|done|].
  - rewrite (foldl_apply_catalog (db w)) by done.
    apply foldl_apply_perm; [by apply lines_NoDup|apply Hl].
  - eapply Forall_impl; [exact Hcs|]. intros c'. cbn. unfold find_user. by rewrite Hu.
Qed.

(** C6, as the code has it: in a consistent database, with a store that
    performs the calls, an add by a user who has a row, of a product of
    the catalog, with a positive integer quantity that, added to what
    the cart has of the product, fits the 32 bits of the column,
    succeeds, leaves the user with a cart (the one the user had, if
    any) and merges into the user's lines, whose order the store
    chooses: the line of the product gets the old quantity plus the new
    one, or else a line is added; the lines of the other users stay.
    After any sequence of add and remove calls of users who have rows,
    the lines of each user are, up to their order, those that the
    operations of the specification give when the adds that the store
    refuses are left out, and the total the server computes for the cart
    is the sum of current price times quantity over its lines. *)
Theorem addToCart_spec (user : Claims) (req : Request T) (w : World T)
    (productId : string) (x : T) (qty : Z) (p : Product T) :
  consistent (db w) → quiet w →
  field "productId" (req_body req) = JStr productId →
  field "quantity" (req_body req) = JNum x →
  num_to_int x = Some qty → 0 < qty →
  is_Some (find_user (claims_id user) (db w)) →
  find_product productId (db w) = Some p →
  int_column (quantity_in productId (lines_of (claims_id user) (db w)) + qty) = true →
  let userId := claims_id user in
  let after := db (addToCart user req w).2 in
  (addToCart user req w).1 = json (MessageBody "Added to cart")
  ∧ is_Some (find_cart userId after)
  ∧ (∀ c, find_cart userId (db w) = Some c → find_cart userId after = Some c)
  ∧ lines_of userId after ≡ₚ cart_add productId qty (lines_of userId (db w))
  ∧ (∀ old, (productId, old) ∈ lines_of userId (db w) →
       lines_of userId after
       ≡ₚ (productId, old + qty) :: cart_remove productId (lines_of userId (db w)))
  ∧ ((∀ l, l ∈ lines_of userId (db w) → l.1 ≠ productId) →
     lines_of userId after ≡ₚ (productId, qty) :: lines_of userId (db w))
  ∧ (∀ v, v ≠ userId → lines_of v after = lines_of v (db w))
  ∧ (∀ (cs : list CartCall) (w0 : World T) (v : string),
       consistent (db w0) → quiet w0 →
       Forall (λ c, is_Some (find_user (claims_id (caller c)) (db w0))) cs →
       lines_of v (db (run_calls cs w0))
       ≡ₚ foldl (apply_call (db w0) v) (lines_of v (db w0)) cs
       ∧ cart_total v (db (run_calls cs w0))
         = lines_total (db (run_calls cs w0)) (lines_of v (db (run_calls cs w0)))).
Proof.
  intros Hd Hq Hp Hx Hn Hpos Hu Hprod Hfits userId after.
  assert (cartSchema (req_body req) = Ok (productId, qty)) as Hs.
  { unfold cartSchema. rewrite Hp, Hx, Hn. cbn. by rewrite bool_decide_eq_true_2. }
  pose proof (admitted_intro _ _ _ _ _ Hprod Hfits) as Had.
  destruct (addToCart_step user req w productId qty (consistent_carts _ Hd) Hq Hs Hu Had)
    as (Hr & _ & _ & _ & _ & Hcart & Hsame & Hl & Ho).
  subst userId after.
  pose proof (lines_NoDup (claims_id user) (db w) Hd) as Hnd.
  split; [done|]. split; [done|]. split.
  { intros c Hc. unfold find_cart in *. by rewrite (Hsame c). }
  split; [done|]. split.
  { intros old Hold. rewrite Hl, cart_add_split by done.
    by rewrite (quantity_in_elem productId old). }
  split.
  { intros Hnone. rewrite Hl, cart_add_fresh by done.
    symmetry. apply Permutation_cons_append. }
  split.
  { intros v Hv. apply Ho. congruence. }
  intros cs w0 v Hd0 Hq0 Hcs. split; [by apply run_calls_lines|].
  apply cart_total_lines.
Qed.

End CartSequences.

Lemma consistent_sample : consistent Sample.shop.
Proof.
  split; try apply wf_carts_sample; cbn.
  - apply NoDup_singleton.
  - apply NoDup_cons. split; [|apply NoDup_singleton].
    by intros ?%list_elem_of_singleton.
  - by intros i [->|[->|[]%elem_of_nil]%elem_of_cons]%elem_of_cons.
  - by intros p [->|[->|[]%elem_of_nil]%elem_of_cons]%elem_of_cons.
  - apply NoDup_cons. split; [|apply NoDup_singleton].
    by intros ?%list_elem_of_singleton.
  - intros p [->|[->|[]%elem_of_nil]%elem_of_cons]%elem_of_cons.
    + exists 3%nat. split; [cbn; lia|reflexivity].
    + exists 4%nat. split; [cbn; lia|reflexivity].
  - apply NoDup_nil_2.
  - by intros o ?%elem_of_nil.
  - by intros r ?%elem_of_nil.
Qed.

(** Alice adds three widgets to the two she has; Bob, who has no cart,
    adds a gadget; then Alice removes her gadget.  Her cart is five
    widgets, of total 50. *)
Lemma addToCart_spec_witness :
  let alice := Sample.claims_of Sample.alice in
  let bob := Sample.claims_of Sample.bob in
  let widgets := Sample.request (Sample.bearer Sample.alice) ""
                   [("productId", JStr "3"); ("quantity", JNum 3)] in
  let gadget := Sample.request (Sample.bearer Sample.bob) ""
                  [("productId", JStr "4"); ("quantity", JNum 1)] in
  let no_gadget := Sample.request (Sample.bearer Sample.alice) "4" [] in
  let calls := [CallAdd alice widgets; CallAdd bob gadget; CallRemove alice no_gadget] in
  lines_of "0" (db (addToCart alice widgets Sample.calm).2) ≡ₚ [("3", 5); ("4", 1)]
  ∧ lines_of "0" (db (run_calls calls Sample.calm)) ≡ₚ [("3", 5)]
  ∧ lines_of "1" (db (run_calls calls Sample.calm)) ≡ₚ [("4", 1)]
  ∧ cart_total "0" (db (run_calls calls Sample.calm)) = Some 50.
Proof.
  intros alice bob widgets gadget no_gadget calls.
  destruct (addToCart_spec alice widgets Sample.calm "3" 3 3 Sample.widget)
    as (_ & _ & _ & Hl & _ & _ & _ & Hseq);
    [apply consistent_sample|constructor|reflexivity|reflexivity|reflexivity|lia
    |by eexists|reflexivity|reflexivity|].
  split; [exact Hl|].
  assert (Forall (λ c, is_Some (find_user (claims_id (caller c)) (db Sample.calm))) calls)
    as Hcs by (repeat constructor; by eexists).
  destruct (Hseq calls Sample.calm "0" consistent_sample) as [Ha Ht];
    [constructor|exact Hcs|].
  destruct (Hseq calls Sample.calm "1" consistent_sample) as [Hb _];
    [constructor|exact Hcs|].
  split; [exact Ha|]. split; [exact Hb|].
  rewrite Ht. reflexivity.
Defined.

(** The catalog has no product called nope: Bob's add of it is answered
    500 and his cart, which the handler has created, has no line.  And
    Alice, who has two widgets, cannot add 2147483646 more: the sum does
    not fit the column, the answer is 500 and her lines stay. *)
Lemma unknown_product_is_refused :
  let nope := Sample.request (Sample.bearer Sample.bob) ""
                [("productId", JStr "nope"); ("quantity", JNum 1)] in
  let many := Sample.request (Sample.bearer Sample.alice) ""
                [("productId", JStr "3"); ("quantity", JNum 2147483646)] in
  find_product "nope" Sample.shop = None
  ∧ (POST_cart nope Sample.calm).1 = respond 500 (ErrorBody "Failed to add to cart")
  ∧ lines_of "1" (db (POST_cart nope Sample.calm).2) = []
  ∧ (POST_cart many Sample.calm).1 = respond 500 (ErrorBody "Failed to add to cart")
  ∧ lines_of "0" (db (POST_cart many Sample.calm).2) = [("3", 2); ("4", 1)].
Proof. by vm_compute. Qed.

(** ** The status of an order *)

Section OrderStatus.
Context {T : Type} {num : JsNum T} {ext : Externals} {bc : Bcrypt}
  {sc : StatusColumn} {un : Unordered}.

Lemma requireAdmin_json_passes {A} (user : Claims) (next : JsonHandler T A)
    (w : World T) (u : User) :
  quiet w → find_user (claims_id user) (db w) = Some u → user_isAdmin u = true →
  requireAdmin_json user next w = next (advance (db w) w).
Proof.
  intros Hq Hu Ha. unfold requireAdmin_json. perform.
  cbn [user_findUnique fst snd]. by rewrite Hu, Ha.
Qed.

(** The four figures of the admin console, from a quiet store. *)
Lemma adminStats_reply (req : Request T) (w : World T) :
  quiet w →
  (adminStats req w).1
  = Json {| stats_users := length (users (db w));
            stats_products := length (products (db w));
            stats_orders := length (orders (db w));
            stats_revenue := match order_total <$> orders (db w) with
                             | [] => num_of_Z 0
                             | t :: ts => if num_truthy (sum_from t ts)
                                          then sum_from t ts else num_of_Z 0
                             end |}.
Proof.
  intros Hq. unfold adminStats, try_catch, bind. do 4 perform.
  cbn [user_count product_count order_count order_aggregate_sum fst snd db advance].
  by destruct (order_total <$> orders (db w)).
Qed.

(** X13: an admin sets the status of an order.  The order with the
    identifier of the route gets the status of the body, whatever its
    status was, and is sent back; the other orders, and the items of
    all of them, stay as they are; and the figures of the admin console
    are the same after as before, so that the revenue counts an order
    whatever its status. *)
Theorem updateOrderStatus_spec (req any : Request T) (w : World T) (token : string)
    (admin : Claims) (u : User) (o : Order T) (s : string) :
  bearer_token req = Some token →
  jwt_verify token = Some admin →
  find_user (claims_id admin) (db w) = Some u →
  user_isAdmin u = true →
  quiet w →
  NoDup (order_id <$> orders (db w)) →
  o ∈ orders (db w) →
  order_id o = req_param req →
  field "status" (req_body req) = JStr s →
  status_ok s = true →
  (PUT_admin_orders_status req w).1 = Json (set_status s o)
  ∧ (∀ o', o' ∈ orders (db (PUT_admin_orders_status req w).2)
           ↔ o' = set_status s o ∨ (o' ∈ orders (db w) ∧ order_id o' ≠ order_id o))
  ∧ orderItems (db (PUT_admin_orders_status req w).2) = orderItems (db w)
  ∧ (adminStats any (PUT_admin_orders_status req w).2).1 = (adminStats any w).1.
Proof.
  intros Hb Hv Hu Ha Hq Hnd Hin Hid Hs Hok.
  unfold PUT_admin_orders_status, authenticateToken_json. rewrite Hb, Hv.
  rewrite (requireAdmin_json_passes _ _ _ u) by done.
  unfold updateOrderStatus, try_catch, bind, order_update_status. rewrite Hs, Hok.
  perform. unfold order_update. cbn [db advance]. rewrite <- Hid.
  rewrite (find_NoDup order_id) by done. unfold ret. cbn [fst snd db advance].
  set (g := λ o' : Order T, if bool_decide (order_id o' = order_id o)
                            then set_status s o' else o').
  split; [done|]. split; [|split; [done|]].
  - intros o'. change (orders (with_orders (fmap g) (db w))) with (g <$> orders (db w)).
    rewrite list_elem_of_fmap. split.
    + intros (o0 & -> & H0). unfold g. case_bool_decide as Heq.
      * left. f_equal. by apply (NoDup_fmap_eq order_id (orders (db w))).
      * by right.
    + intros [->|[H0 Hne]].
      * exists o. split; [|done]. unfold g. by rewrite bool_decide_eq_true_2.
      * exists o'. split; [|done]. unfold g. by rewrite bool_decide_eq_false_2.
  - rewrite !adminStats_reply by eauto 10 with store. cbn [db advance].
    change (orders (with_orders (fmap g) (db w))) with (g <$> orders (db w)).
    rewrite length_fmap, <- list_fmap_compose.
    rewrite (list_fmap_ext (order_total ∘ g) order_total (orders (db w))); [done|].
    intros k o' _. unfold g. cbn. by case_bool_decide.
Qed.

(** X14: a status for an order that is not there is a server error, not
    a 404: whatever the body says, the admin is answered 500 'Failed to
    update order status' and nothing changes. *)
Theorem updateOrderStatus_missing (req : Request T) (w : World T) (token : string)
    (admin : Claims) (u : User) :
  bearer_token req = Some token →
  jwt_verify token = Some admin →
  find_user (claims_id admin) (db w) = Some u →
  user_isAdmin u = true →
  quiet w →
  (∀ o, o ∈ orders (db w) → order_id o ≠ req_param req) →
  (PUT_admin_orders_status req w).1
  = Plain (respond 500 (ErrorBody "Failed to update order status"))
  ∧ db (PUT_admin_orders_status req w).2 = db w.
Proof.
  intros Hb Hv Hu Ha Hq Hnone.
  assert (List.find (λ o, bool_decide (order_id o = req_param req)) (orders (db w)) = None)
    as Hfind.
  { destruct (List.find _ _) as [o|] eqn:Hf; [|done].
    apply find_Some_elem in Hf as [Hin Heq%bool_decide_eq_true].
    by destruct (Hnone o Hin). }
  unfold PUT_admin_orders_status, authenticateToken_json. rewrite Hb, Hv.
  rewrite (requireAdmin_json_passes _ _ _ u) by done.
  unfold updateOrderStatus, try_catch, bind, order_update_status.
  destruct (field "status" (req_body req)) as [| | | |s]; try done.
  - perform. unfold order_update. cbn [db advance]. by rewrite Hfind.
  - destruct (status_ok s); [|done].
    perform. unfold order_update. cbn [db advance]. by rewrite Hfind.
Qed.

End OrderStatus.

(** Carol cancels the order that Alice has just made; the revenue of
    the console stays 25.  A status for order 99 is a server error. *)
Lemma updateOrderStatus_spec_witness :
  let ordered := (POST_orders Sample.order_request Sample.calm).2 in
  let cancel := Sample.request (Sample.bearer Sample.carol) "8"
                  [("status", JStr "cancelled")] in
  (PUT_admin_orders_status cancel ordered).1
  = Json {| order_id := "8"; order_userId := "0"; order_total := 25;
            order_status := "cancelled" |}
  ∧ stats_revenue <$> (match (adminStats cancel (PUT_admin_orders_status cancel ordered).2).1
                       with Json a => Some a | Plain _ => None end)
    = Some 25.
Proof.
  intros ordered cancel.
  destruct (updateOrderStatus_spec cancel cancel ordered "2|carol@example.com|0"
              (Sample.claims_of Sample.carol) Sample.carol
              {| order_id := "8"; order_userId := "0"; order_total := 25;
                 order_status := default_status |} "cancelled")
    as (Hr & _ & _ & Hstats);
    [reflexivity|reflexivity|reflexivity|reflexivity|by vm_compute| | |
     reflexivity|reflexivity|reflexivity|].
  - vm_compute. apply NoDup_singleton.
  - vm_compute. left.
  - split; [exact Hr|]. rewrite Hstats. reflexivity.
Defined.

Lemma updateOrderStatus_missing_witness :
  let ship := Sample.request (Sample.bearer Sample.carol) "99"
                [("status", JStr "completed")] in
  PUT_admin_orders_status ship Sample.calm
  = (Plain (respond 500 (ErrorBody "Failed to update order status")),
     advance Sample.shop (advance Sample.shop Sample.calm)).
Proof.
  intros ship.
  destruct (updateOrderStatus_missing ship Sample.calm "2|carol@example.com|0"
              (Sample.claims_of Sample.carol) Sample.carol) as [Hr Hd];
    [reflexivity|reflexivity|reflexivity|reflexivity|constructor|
     by intros ? ?%elem_of_nil|reflexivity].
Defined.

(** ** What a route can touch *)

Section Footprint.
Context {T : Type} {num : JsNum T} {ext : Externals} {bc : Bcrypt}
  {sc : StatusColumn} {un : Unordered}.

Lemma changes_refl (r : Route) (d : Db T) : changes r d d.
Proof. split; [by intros []|]. by split. Qed.

Lemma kept_trans (d1 d2 d3 : Db T) : kept d1 d2 → kept d2 d3 → kept d1 d3.
Proof.
  intros [Ha Ho Hi Hm Hn] [Ha' Ho' Hi' Hm' Hn'].
  split; try (by etrans); lia.
Qed.

Lemma changes_trans (r : Route) (d1 d2 d3 : Db T) :
  changes r d1 d2 → changes r d2 d3 → changes r d1 d3.
Proof.
  intros [Hs Hk] [Hs' Hk']. split; [|by apply (kept_trans d1 d2)].
  intros t Ht. specialize (Hs t Ht). specialize (Hs' t Ht).
  destruct t; cbn in *; congruence.
Qed.

Lemma account_promoted (id : string) (l : list User) :
  account <$> ((λ u', if bool_decide (user_id u' = id) then set_isAdmin true u' else u') <$> l)
  = account <$> l.
Proof.
  rewrite <- list_fmap_compose. apply list_fmap_ext. intros k u _. cbn.
  by case_bool_decide.
Qed.

Lemma placed_status (id s : string) (l : list (Order T)) :
  placed <$> ((λ o', if bool_decide (order_id o' = id) then set_status s o' else o') <$> l)
  = placed <$> l.
Proof.
  rewrite <- list_fmap_compose. apply list_fmap_ext. intros k o _. cbn.
  by case_bool_decide.
Qed.

(** A write to the tables of the route that takes nothing away. *)
Ltac written :=
  split;
  [ intros [] Ht; try done
  | split; cbn; rewrite ?fmap_app, ?account_promoted, ?placed_status;
    try (by apply prefix_app_r); try done; lia ].

Lemma register_changes (req : Request T) (w : World T) :
  changes Register (db w) (db (register req w).2).
Proof.
  unfold register, try_catch, bind, lift.
  destruct (registerSchema (req_body req)) as [[[email name] password]|e];
    [|apply changes_refl].
  store_call; [apply changes_refl|].
  unfold user_create. destruct (find_user_by_email email (db w)); cbn;
    [apply changes_refl|written].
Qed.

Lemma postMessage_changes (req : Request T) (w : World T) :
  changes PostMessage (db w) (db (postMessage req w).2).
Proof.
  unfold postMessage, try_catch, bind, message_create.
  destruct (field "userId" (req_body req)), (field "content" (req_body req));
    try apply changes_refl.
  store_call; [apply changes_refl|]. unfold message_insert.
  destruct (find_user _ _); cbn; [written|apply changes_refl].
Qed.

Lemma sendMessage_changes (io : Io) (data : list (string * jvalue T)) (w : World T) :
  changes (SendMessage io) (db w) (db (sendMessage io data w).2).
Proof.
  unfold sendMessage, try_catch, bind, message_create.
  destruct (field "userId" data), (field "content" data); try apply changes_refl.
  store_call; [apply changes_refl|]. unfold message_insert.
  destruct (find_user _ _); cbn; [|apply changes_refl].
  destruct (truthy _); cbn; written.
Qed.

Lemma makeAdmin_changes (req : Request T) (w : World T) :
  changes MakeAdmin (db w) (db (makeAdmin req w).2).
Proof.
  unfold makeAdmin, try_catch, bind.
  store_call; [apply changes_refl|]. unfold user_update_isAdmin.
  destruct (find_user _ _); cbn; [written|apply changes_refl].
Qed.

Lemma createProduct_changes (req : Request T) (w : World T) :
  changes CreateProduct (db w) (db (createProduct req w).2).
Proof.
  unfold createProduct, try_catch, bind, lift.
  destruct (productSchema (req_body req)) as [[[[name description] price] stock]|e];
    [|apply changes_refl].
  store_call; [apply changes_refl|]. cbn [product_create fst snd]. written.
Qed.

Lemma updateProduct_changes (req : Request T) (w : World T) :
  changes UpdateProduct (db w) (db (updateProduct req w).2).
Proof.
  unfold updateProduct, try_catch, bind, lift.
  destruct (productSchema (req_body req)) as [[[[name description] price] stock]|e];
    [|apply changes_refl].
  store_call; [apply changes_refl|]. unfold product_update.
  destruct (find_product _ _); cbn; [written|apply changes_refl].
Qed.

Lemma deleteProduct_changes (req : Request T) (w : World T) :
  changes DeleteProduct (db w) (db (deleteProduct req w).2).
Proof.
  unfold deleteProduct, try_catch, bind.
  store_call; [apply changes_refl|]. unfold product_delete.
  destruct (find_product _ _); cbn; [|apply changes_refl].
  destruct (_ || _); cbn; [apply changes_refl|written].
Qed.

Lemma updateOrderStatus_changes (req : Request T) (w : World T) :
  changes UpdateOrderStatus (db w) (db (updateOrderStatus req w).2).
Proof.
  unfold updateOrderStatus, try_catch, bind, order_update_status.
  destruct (field "status" (req_body req)) as [| | | |s]; try apply changes_refl.
  - store_call; [apply changes_refl|]. unfold order_update.
    destruct (List.find _ _); apply changes_refl.
  - destruct (status_ok s); [|apply changes_refl].
    store_call; [apply changes_refl|]. unfold order_update.
    destruct (List.find _ _); cbn; [written|apply changes_refl].
Qed.

Lemma removeFromCart_changes (user : Claims) (req : Request T) (w : World T) :
  changes RemoveFromCart (db w) (db (removeFromCart user req w).2).
Proof.
  unfold removeFromCart, try_catch, bind.
  store_call; [apply changes_refl|]. cbn [cart_findUnique fst snd].
  destruct (find_cart _ _) as [c|]; [|apply changes_refl].
  store_call; [apply changes_refl|]. written.
Qed.

Lemma createOrder_changes (user : Claims) (req : Request T) (w : World T) :
  changes CreateOrder (db w) (db (createOrder user req w).2).
Proof.
  unfold createOrder, try_catch, bind, lift.
  store_call; [apply changes_refl|]. cbn [cart_findUnique_include fst snd].
  destruct (find_cart _ _) as [c|]; [|apply changes_refl].
  case_bool_decide; [apply changes_refl|].
  destruct (reduce add_item _ _) as [total|e]; [|apply changes_refl].
  destruct (map_throwing item_data _) as [data|e]; [|apply changes_refl].
  store_call; [apply changes_refl|]. cbn [order_create fst snd].
  store_call; cbn; written.
Qed.

Lemma addToCart_changes (user : Claims) (req : Request T) (w : World T) :
  changes AddToCart (db w) (db (addToCart user req w).2).
Proof.
  unfold addToCart, try_catch, bind, lift.
  destruct (cartSchema (req_body req)) as [[productId q]|e] eqn:Hs.
  2: { destruct (cartSchema_throws _ _ Hs) as [issues ->]. apply changes_refl. }
  store_call; [apply changes_refl|]. cbn [cart_findUnique fst snd].
  destruct (find_cart (claims_id user) (db w)) as [c|] eqn:Hc.
  - unfold ret at 1.
    store_call; [apply changes_refl|]. cbn [cartItem_findFirst fst snd].
    destruct (List.find _ _) as [e|].
    + store_call; [apply changes_refl|]. unfold cartItem_update.
      destruct (List.find _ _); cbn; [|apply changes_refl].
      destruct (int_column _); cbn; [written|apply changes_refl].
    + store_call; [apply changes_refl|]. unfold cartItem_create.
      destruct (find_product _ _); [|apply changes_refl].
      destruct (int_column _); cbn; [written|apply changes_refl].
  - store_call; [apply changes_refl|]. unfold cart_create. rewrite Hc.
    destruct (find_user _ _); [|apply changes_refl]. cbn [fst snd].
    store_call; [written|]. cbn [cartItem_findFirst fst snd].
    destruct (List.find _ _) as [e|].
    + store_call; [written|]. unfold cartItem_update.
      destruct (List.find _ _); cbn; [|written].
      destruct (int_column _); cbn; written.
    + store_call; [written|]. unfold cartItem_create.
      destruct (find_product _ _); [|written].
      destruct (int_column _); cbn; written.
Qed.

Lemma serve_changes (r : Route) (req : Request T) (w : World T) :
  changes r (db w) (db (serve r req w)).
Proof.
  destruct r; cbn [serve];
    unfold POST_auth_register, POST_auth_login, POST_products, GET_cart, POST_cart,
      DELETE_cart, POST_orders, GET_orders, POST_messages, GET_admin_users,
      GET_admin_orders, PUT_admin_orders_status, PUT_admin_products,
      DELETE_admin_products, GET_admin_stats, POST_admin_make_admin.
  - apply register_changes.
  - rewrite login_db. apply changes_refl.
  - unfold GET_products, getProducts, try_catch, bind. store_call; apply changes_refl.
  - apply createProduct_changes.
  - apply (authenticateToken_json_keeps (changes ShowCart (db w))); [|apply changes_refl].
    intros user w0 H0. unfold getCart, try_catch, bind. by store_call.
  - apply (authenticateToken_keeps (changes AddToCart (db w))); [|apply changes_refl].
    intros user w0 H0. eapply changes_trans; [done|apply addToCart_changes].
  - apply (authenticateToken_keeps (changes RemoveFromCart (db w))); [|apply changes_refl].
    intros user w0 H0. eapply changes_trans; [done|apply removeFromCart_changes].
  - apply (authenticateToken_keeps (changes CreateOrder (db w))); [|apply changes_refl].
    intros user w0 H0. eapply changes_trans; [done|apply createOrder_changes].
  - apply (authenticateToken_json_keeps (changes ListOrders (db w))); [|apply changes_refl].
    intros user w0 H0. unfold getOrders, try_catch, bind. by store_call.
  - unfold GET_messages, getMessages, try_catch, bind. store_call; apply changes_refl.
  - apply postMessage_changes.
  - apply (authenticateToken_json_keeps (changes AdminUsers (db w))); [|apply changes_refl].
    intros user w0. apply (requireAdmin_json_keeps (changes AdminUsers (db w))).
    intros w1 H1. unfold adminUsers, try_catch, bind. by store_call.
  - apply (authenticateToken_json_keeps (changes AdminOrders (db w))); [|apply changes_refl].
    intros user w0. apply (requireAdmin_json_keeps (changes AdminOrders (db w))).
    intros w1 H1. unfold adminOrders, try_catch, bind. by store_call.
  - apply (authenticateToken_json_keeps (changes UpdateOrderStatus (db w)));
      [|apply changes_refl].
    intros user w0. apply (requireAdmin_json_keeps (changes UpdateOrderStatus (db w))).
    intros w1 H1. eapply changes_trans; [done|apply updateOrderStatus_changes].
  - apply (authenticateToken_keeps (changes UpdateProduct (db w))); [|apply changes_refl].
    intros user w0. apply (requireAdmin_keeps (changes UpdateProduct (db w))).
    intros w1 H1. eapply changes_trans; [done|apply updateProduct_changes].
  - apply (authenticateToken_keeps (changes DeleteProduct (db w))); [|apply changes_refl].
    intros user w0. apply (requireAdmin_keeps (changes DeleteProduct (db w))).
    intros w1 H1. eapply changes_trans; [done|apply deleteProduct_changes].
  - apply (authenticateToken_json_keeps (changes AdminStats (db w))); [|apply changes_refl].
    intros user w0. apply (requireAdmin_json_keeps (changes AdminStats (db w))).
    intros w1 H1. by rewrite adminStats_db.
  - apply (authenticateToken_keeps (changes MakeAdmin (db w))); [|apply changes_refl].
    intros user w0 H0. eapply changes_trans; [done|apply makeAdmin_changes].
  - apply sendMessage_changes.
Qed.

(** X15: each route writes only to its own tables, whatever the request
    and whatever the store refuses.  So the catalog changes only through
    the three product routes (an order takes nothing from the stock of
    what it sells), users only through registration and promotion, and
    order items only when an order is made. *)
Theorem serve_footprint (r : Route) (t : Table) (req : Request T) (w : World T) :
  writes r t = false → table_same t (db w) (db (serve r req w)).
Proof. intros Ht. by apply (serve_changes r req w). Qed.

(** X16: the server takes nothing away.  After any requests, with the
    store refusing whichever calls it likes, the accounts, the orders,
    their items and the messages that there were are still there, in
    their places and as they were, but for the admin flag of a user and
    the status of an order; and identifiers only grow. *)
Theorem history_kept (calls : list (Route * Request T)) (w : World T) :
  kept (db w) (db (serve_all calls w)).
Proof.
  revert w. induction calls as [|[r req] calls IH]; intros w; cbn [serve_all].
  - by split.
  - apply (kept_trans _ (db (serve r req w))); [|apply IH].
    apply (serve_changes r req w).
Qed.

End Footprint.

(** Alice's order leaves the catalog as it is: seven widgets in stock
    before, seven after. *)
Lemma serve_footprint_witness :
  product_stock <$> products (db (serve CreateOrder Sample.order_request Sample.calm))
  = [7; 0].
Proof.
  pose proof (serve_footprint CreateOrder Products Sample.order_request Sample.calm) as H.
  cbn [table_same] in H. rewrite H; reflexivity.
Defined.

(** ** Looking at the cart *)

Section ShowCart.
Context {T : Type} {num : JsNum T} {ext : Externals} {bc : Bcrypt}
  {sc : StatusColumn} {un : Unordered}.

Lemma getCart_run (user : Claims) (req : Request T) (w : World T) :
  quiet w →
  getCart user req w
  = (Json (match find_cart (claims_id user) (db w) with
           | Some c => (Some c, with_product (db w) <$> items_of (cart_id c) (db w))
           | None => (None, [])
           end), advance (db w) w).
Proof.
  intros Hq. unfold getCart, try_catch, bind. perform.
  cbn [cart_findUnique_include fst snd]. by destruct (find_cart _ _).
Qed.

(** X17: the cart that GET /cart shows after an add that the store
    takes (the user has a row, the product is in the catalog and the
    quantity of its line fits the column).  It is the cart of the user;
    its items are, in the order the store has them in, the lines before
    with the product merged in or added, the item of the product having
    what the cart had of it plus the new quantity; and each item comes
    with its product as the catalog has it now. *)
Theorem getCart_after_add (user : Claims) (req show : Request T) (w : World T)
    (productId : string) (q : Z) (p : Product T) :
  consistent (db w) → quiet w →
  cartSchema (req_body req) = Ok (productId, q) →
  is_Some (find_user (claims_id user) (db w)) →
  find_product productId (db w) = Some p →
  int_column (quantity_in productId (lines_of (claims_id user) (db w)) + q) = true →
  ∃ c items,
    (getCart user show (addToCart user req w).2).1 = Json (Some c, items)
    ∧ cart_userId c = claims_id user
    ∧ (λ x, line_of x.1) <$> items
      ≡ₚ (productId, quantity_in productId (lines_of (claims_id user) (db w)) + q)
         :: cart_remove productId (lines_of (claims_id user) (db w))
    ∧ ∀ x, x ∈ items → x.2 = find_product (ci_productId x.1) (db w).
Proof.
  intros Hd Hq Hs Hu Hprod Hfits.
  pose proof (admitted_intro _ _ _ _ _ Hprod Hfits) as Had.
  destruct (addToCart_step user req w productId q (consistent_carts _ Hd) Hq Hs Hu Had)
    as (_ & _ & Hq' & Hp & _ & [c Hc] & _ & Hl & _).
  rewrite cart_add_split in Hl by (by apply lines_NoDup).
  rewrite getCart_run by done. rewrite Hc. cbn [fst].
  eexists _, _. split; [done|].
  split; [by apply find_cart_elem in Hc as [_ ?]|]. split.
  - rewrite <- Hl. unfold lines_of. rewrite Hc.
    rewrite <- list_fmap_compose. reflexivity.
  - intros x (i & -> & Hi)%list_elem_of_fmap. cbn. unfold find_product. by rewrite Hp.
Qed.

(** X18: no cart shows a product twice.  Whatever requests the server
    has had since the empty database, and whatever the store refused,
    the cart that GET /cart sends has one item for a product at most,
    and every item a positive quantity. *)
Theorem cart_lists_product_once (calls : list (Route * Request T)) (refusals : list bool)
    (user : Claims) (show : Request T) (c : Cart)
    (items : list (CartItem * option (Product T))) :
  (getCart user show (serve_all calls {| db := empty_db; faults := refusals |})).1
  = Json (Some c, items) →
  NoDup ((λ x, ci_productId x.1) <$> items)
  ∧ ∀ x, x ∈ items → 0 < ci_quantity x.1.
Proof.
  set (w := serve_all calls _).
  assert (consistent (db w)) as Hd by apply serve_all_keeps, consistent_empty.
  unfold getCart, try_catch, bind. store_call; [done|].
  cbn [cart_findUnique_include fst snd].
  destruct (find_cart _ _) as [c'|]; cbn; [|by intros [=]].
  intros [= <- <-]. split.
  - rewrite <- list_fmap_compose.
    apply (NoDup_products_of_cart (cart_id c') (cartItems (db w))), Hd.
  - intros x (i & -> & [_ Hi]%list_elem_of_filter)%list_elem_of_fmap. cbn.
    by apply Hd.
Qed.

End ShowCart.

(** Alice, who has two widgets and a gadget, adds three widgets and
    sees five, behind the gadget. *)
Lemma getCart_after_add_witness :
  let alice := Sample.claims_of Sample.alice in
  let add := Sample.request (Sample.bearer Sample.alice) ""
               [("productId", JStr "3"); ("quantity", JNum 3)] in
  ∃ c items,
    (getCart alice add (addToCart alice add Sample.calm).2).1 = Json (Some c, items)
    ∧ (λ x, line_of x.1) <$> items ≡ₚ [("3", 5); ("4", 1)]
    ∧ (λ x, line_of x.1) <$> items = [("4", 1); ("3", 5)].
Proof.
  intros alice add.
  destruct (getCart_after_add alice add add Sample.calm "3" 3 Sample.widget)
    as (c & items & Hr & _ & Hl & _);
    [apply consistent_sample|constructor|reflexivity|by eexists|reflexivity
    |reflexivity|].
  exists c, items. split; [exact Hr|]. split; [exact Hl|].
  vm_compute in Hr. injection Hr as _ <-. reflexivity.
Defined.

(** A product, a user, and the same product added twice: one item. *)
Lemma cart_lists_product_once_witness :
  let dora := {| claims_id := "1"; claims_email := "dora@example.com" |} in
  let add := Sample.request (Some "Bearer 1|dora@example.com|0") ""
               [("productId", JStr "0"); ("quantity", JNum 2)] in
  let calls :=
    [(CreateProduct, Sample.request None ""
        [("name", JStr "Gizmo"); ("price", JNum 3); ("stock", JNum 9)]);
     (Register, Sample.request None ""
        [("email", JStr "dora@example.com"); ("name", JStr "Dora");
         ("password", JStr "explorer")]);
     (AddToCart, add); (AddToCart, add)] in
  let gizmo := {| product_id := "0"; product_name := "Gizmo"; product_description := None;
                  product_price := 3; product_stock := 9 |} in
  let items := [({| ci_id := "3"; ci_cartId := "2"; ci_productId := "0";
                    ci_quantity := 4 |}, Some gizmo)] in
  (getCart dora add (serve_all calls {| db := empty_db; faults := [] |})).1
  = Json (Some {| cart_id := "2"; cart_userId := "1" |}, items)
  ∧ NoDup ((λ x, ci_productId x.1) <$> items).
Proof.
  intros dora add calls gizmo items.
  assert ((getCart dora add (serve_all calls {| db := empty_db; faults := [] |})).1
          = Json (Some {| cart_id := "2"; cart_userId := "1" |}, items)) as Hshow
    by (by vm_compute).
  split; [exact Hshow|].
  exact (proj1 (cart_lists_product_once calls [] dora add _ items Hshow)).
Defined.

(** ** The history of the chat *)

Section History.
Context {T : Type} {num : JsNum T} {ext : Externals} {bc : Bcrypt}
  {sc : StatusColumn} {un : Unordered}.

Lemma getMessages_run (req : Request T) (w : World T) :
  quiet w →
  getMessages req w
  = (Json ((λ m, (m, find_user (msg_userId m) (db w))) <$> messages (db w)),
     advance (db w) w).
Proof. intros Hq. unfold getMessages, try_catch, bind. by perform. Qed.

Lemma sendMessage_run (io : Io) (data : list (string * jvalue T)) (w : World T)
    (userId content : string) (author : User) :
  field "userId" data = JStr userId →
  field "content" data = JStr content →
  find_user userId (db w) = Some author →
  quiet w →
  let message := ({| msg_id := gen_id (next_id (db w)); msg_userId := userId;
                     msg_content := content |}, Some author) in
  sendMessage io data w
  = (if truthy (field "recipientId" data)
     then match field "recipientId" data with
          | JStr room => io_to_emit room io message
          | _ => []
          end
     else io_emit io message,
     advance (bump 1 (with_messages (λ l, l ++ [message.1]) (db w))) w).
Proof.
  intros Hu Hc Ha Hq message.
  unfold sendMessage, try_catch, bind, message_create. rewrite Hu, Hc.
  perform. unfold message_insert. rewrite Ha. cbn. by destruct (truthy _).
Qed.

(** X19: the history is open and complete.  GET /messages asks for no
    token and lists every message, oldest first, each with the row of
    its author as the store has it.  A message of an author who is a
    user, posted over HTTP or sent over the socket, to everybody or to
    one recipient, is the last entry of the next listing. *)
Theorem messages_history (req any : Request T) (io : Io) (w : World T)
    (userId content : string) (author : User) :
  field "userId" (req_body req) = JStr userId →
  field "content" (req_body req) = JStr content →
  find_user userId (db w) = Some author →
  quiet w →
  let m := {| msg_id := gen_id (next_id (db w)); msg_userId := userId;
              msg_content := content |} in
  let before := (λ m, (m, find_user (msg_userId m) (db w))) <$> messages (db w) in
  (GET_messages any w).1 = Json before
  ∧ (GET_messages any (POST_messages req w).2).1 = Json (before ++ [(m, Some author)])
  ∧ (GET_messages any (sendMessage io (req_body req) w).2).1
    = Json (before ++ [(m, Some author)]).
Proof.
  intros Hu Hc Ha Hq m before. unfold GET_messages.
  split; [by rewrite getMessages_run|].
  rewrite (sendMessage_run io _ w userId content author) by done.
  unfold POST_messages, postMessage, try_catch, bind, message_create.
  rewrite Hu, Hc. perform. unfold message_insert. rewrite Ha. cbn [fst snd ret].
  rewrite !getMessages_run by eauto 10 with store.
  cbn [fst snd db advance]. subst before m. unfold find_user in *.
  cbn [messages users bump with_messages msg_userId]. rewrite fmap_app.
  cbn [fmap list_fmap msg_userId]. by rewrite Ha.
Qed.

(** ** Joining a room *)

(** X20: a socket joins the room it names, no questions asked.  A
    connected socket that has sent [join] with some identifier receives
    every message that a user sends to that identifier, the other
    sockets receive what they would have received without it, and a
    socket that has disconnected receives nothing. *)
Theorem join_hears_room (io : Io) (sid room : string) (data : list (string * jvalue T))
    (w : World T) (userId content : string) (author : User) :
  field "userId" data = JStr userId →
  field "content" data = JStr content →
  find_user userId (db w) = Some author →
  quiet w →
  connected io sid = true →
  field "recipientId" data = JStr room → room ≠ "" →
  received sid (sendMessage (join sid room io) data w).1 = 1%nat
  ∧ (∀ other, other ≠ sid →
       received other (sendMessage (join sid room io) data w).1
       = received other (sendMessage io data w).1)
  ∧ received sid (sendMessage (disconnect sid (join sid room io)) data w).1 = 0%nat.
Proof.
  intros Hu Hc Ha Hq Hon Hr Hne.
  rewrite !(sendMessage_run _ data w userId content author) by done.
  rewrite Hr. cbn [truthy fst]. rewrite bool_decide_eq_false_2 by done. cbn [negb].
  unfold connected in Hon. apply bool_decide_eq_true in Hon as [rooms Hio].
  split; [|split].
  - rewrite received_io_to_emit. unfold in_room, join.
    rewrite lookup_alter_eq, Hio. cbn. rewrite bool_decide_eq_true_2; [done|set_solver].
  - intros other Hother. rewrite !received_io_to_emit. unfold in_room, join.
    by rewrite lookup_alter_ne.
  - rewrite received_io_to_emit. unfold in_room, disconnect.
    by rewrite lookup_delete_eq.
Qed.

End History.

Lemma messages_history_witness :
  let whisper := Sample.request None ""
                   [("userId", JStr "1"); ("content", JStr "psst");
                    ("recipientId", JStr "0")] in
  (GET_messages whisper (sendMessage Sample.sockets (req_body whisper) Sample.calm).2).1
  = Json [({| msg_id := "8"; msg_userId := "1"; msg_content := "psst" |},
           Some Sample.bob)].
Proof.
  intros whisper.
  by destruct (messages_history whisper whisper Sample.sockets Sample.calm "1" "psst"
                 Sample.bob)
    as (_ & _ & Hs); [reflexivity|reflexivity|reflexivity|constructor|].
Defined.

(** Bob's tab joins Alice's room and receives what is sent to her. *)
Lemma join_hears_room_witness :
  let directed := [("userId", JStr "2"); ("content", JStr "your order");
                   ("recipientId", JStr "0")] in
  received "tab-b" (sendMessage (join "tab-b" "0" Sample.sockets) directed Sample.calm).1
  = 1%nat.
Proof.
  intros directed.
  by destruct (join_hears_room Sample.sockets "tab-b" "0" directed Sample.calm
                 "2" "your order" Sample.carol) as (H1 & _);
    [reflexivity|reflexivity|reflexivity|constructor|by vm_compute|reflexivity
    |discriminate|].
Defined.
